(** * Hybrid Meshtastic messaging bridge: a shallow embedding

    The three messaging classes of the repository are embedded here:

    - [Tcp]    : [MeshtasticTcpClient]    (meshtastic_tcp_client.py), the Outbound Link;
    - [Mqtt]   : [MeshtasticMqttClient]   (meshtastic_mqtt_client.py), the Inbound Link;
    - [Hybrid] : [MeshtasticHybridClient] (meshtastic_hybrid_client.py), the Router/Bridge.

    Python [str] values are sequences of Unicode code points, Python
    values coming out of [json.loads] are a small inductive type, and
    every effect (device session, broker, [time.sleep], Responder call)
    is an event appended to a log.  What the outside world answers
    (does the socket open, does [sendText] raise, does the broker
    accept a publish) is read from scripts stored in the state, one
    outcome per call. *)

From Stdlib Require Import List String Ascii Bool Arith ZArith NArith QArith Qminmax Qround Lia.
From Stdlib Require Import DecimalString.
Import ListNotations.
Close Scope Q_scope.

Set Implicit Arguments.

(** ** Python strings *)

Definition codepoint := N.
Definition pystr := list codepoint.

(** An ASCII literal of the source as a [pystr]. *)
Definition py (s : string) : pystr := map N_of_ascii (list_ascii_of_string s).

Fixpoint str_eqb (a b : pystr) : bool :=
  match a, b with
  | [], [] => true
  | x :: a', y :: b' => N.eqb x y && str_eqb a' b'
  | _, _ => false
  end.

(** [s.startswith(p)] *)
Fixpoint startswith (s p : pystr) : bool :=
  match p, s with
  | [], _ => true
  | c :: p', d :: s' => N.eqb c d && startswith s' p'
  | _ :: _, [] => false
  end.

Fixpoint dropwhile (f : codepoint -> bool) (s : pystr) : pystr :=
  match s with
  | [] => []
  | c :: s' => if f c then dropwhile f s' else s
  end.

Definition slash : codepoint := 47%N.
Definition bang : codepoint := 33%N.

(** [s.rstrip('/')] *)
Definition rstrip_slash (s : pystr) : pystr :=
  rev (dropwhile (N.eqb slash) (rev s)).

(** [s.split('/')]: always at least one part. *)
Fixpoint split_slash (s : pystr) : list pystr :=
  match s with
  | [] => [[]]
  | c :: s' =>
      if N.eqb c slash then [] :: split_slash s'
      else match split_slash s' with
           | p :: ps => (c :: p) :: ps
           | [] => [[c]]
           end
  end.

(** [sub in s] for strings *)
Fixpoint str_contains (s sub : pystr) : bool :=
  startswith s sub ||
  match s with
  | [] => false
  | _ :: s' => str_contains s' sub
  end.

(** [s[a:b]] for [0 <= a <= b] *)
Definition slice (s : pystr) (a b : nat) : pystr := firstn (b - a) (skipn a s).

(** Length in bytes of the UTF-8 encoding, which is what goes on the wire. *)
Definition utf8_width (c : codepoint) : nat :=
  if (c <? 128)%N then 1
  else if (c <? 2048)%N then 2
  else if (c <? 65536)%N then 3
  else 4.

Definition utf8_len (s : pystr) : nat := list_sum (map utf8_width s).

(** [str(n)] for a non-negative and for an arbitrary integer *)
Definition str_of_nat (n : nat) : pystr := py (NilEmpty.string_of_uint (Nat.to_uint n)).
Definition str_of_Z (z : Z) : pystr := py (NilEmpty.string_of_int (Z.to_int z)).

(** ** Python values

    The values [json.loads] can return, which are also the values the
    message dictionaries hold.  Non-finite floats are not represented. *)

#[warnings="-register-all"] Inductive pyval : Type :=
| PNone
| PBool (b : bool)
| PInt (n : Z)
| PFloat (q : Q)
| PStr (s : pystr)
| PList (l : list pyval)
| PDict (kv : list (pystr * pyval)).

(** Truth value of [v] in a condition. *)
Definition truthy (v : pyval) : bool :=
  match v with
  | PNone => false
  | PBool b => b
  | PInt n => negb (n =? 0)%Z
  | PFloat q => negb (Qeq_bool q 0%Q)
  | PStr s => match s with [] => false | _ => true end
  | PList l => match l with [] => false | _ => true end
  | PDict kv => match kv with [] => false | _ => true end
  end.

(** [a or b] *)
Definition py_or (a b : pyval) : pyval := if truthy a then a else b.

(** Numeric value of booleans, integers and floats, which compare
    across types in Python ([True == 1], [1 == 1.0]). *)
Definition num_val (v : pyval) : option Q :=
  match v with
  | PBool b => Some (if b then 1%Q else 0%Q)
  | PInt n => Some (inject_Z n)
  | PFloat q => Some q
  | _ => None
  end.

(** [a == b].  Dictionaries compare by lookup in both directions. *)
Fixpoint py_eq (a b : pyval) {struct a} : bool :=
  match num_val a, num_val b with
  | Some x, Some y => Qeq_bool x y
  | Some _, None | None, Some _ => false
  | None, None =>
      match a, b with
      | PNone, PNone => true
      | PStr s, PStr t => str_eqb s t
      | PList l, PList m =>
          (fix go (l : list pyval) (m : list pyval) {struct l} : bool :=
             match l, m with
             | [], [] => true
             | x :: l', y :: m' => py_eq x y && go l' m'
             | _, _ => false
             end) l m
      | PDict kv, PDict kw =>
          Nat.eqb (List.length kv) (List.length kw) &&
          (fix all (kv : list (pystr * pyval)) : bool :=
             match kv with
             | [] => true
             | (k, v) :: kv' =>
                 (fix find (kw : list (pystr * pyval)) : bool :=
                    match kw with
                    | [] => false
                    | (k', v') :: kw' =>
                        if str_eqb k k' then py_eq v v' else find kw'
                    end) kw && all kv'
             end) kv
      | _, _ => false
      end
  end.

(** Can [v[:50]] be evaluated?  Slicing anything but a string or a list
    raises [TypeError]. *)
Definition sliceable (v : pyval) : bool :=
  match v with
  | PStr _ | PList _ => true
  | _ => false
  end.

(** Can [v] be a dictionary key?  Lists and dictionaries are unhashable. *)
Definition hashable (v : pyval) : bool :=
  match v with
  | PList _ | PDict _ => false
  | _ => true
  end.

Definition is_dict (v : pyval) : bool :=
  match v with PDict _ => true | _ => false end.

(** [d.get(k)] on the items of a dictionary *)
Fixpoint dict_get (kv : list (pystr * pyval)) (k : pystr) : option pyval :=
  match kv with
  | [] => None
  | (k', v) :: kv' => if str_eqb k k' then Some v else dict_get kv' k
  end.

(** [d.get(k, dflt)] *)
Definition get_or (kv : list (pystr * pyval)) (k : pystr) (dflt : pyval) : pyval :=
  match dict_get kv k with Some v => v | None => dflt end.

(** [k in d] *)
Definition has_key (kv : list (pystr * pyval)) (k : pystr) : bool :=
  match dict_get kv k with Some _ => true | None => false end.

(** ** Messages, configuration, events *)

(** The message dictionary built by the Inbound Link.  The [timestamp]
    entry ([time.time()]) is left out; [channel] and [packet_id] are
    [PNone] on the dedicated-channel path, where the source does not
    set them. *)
Record message : Type := {
  text : pyval;
  from_id : pyval;
  to_id : pyval;
  sender : pyval;
  channel : pyval;
  packet_id : pyval;
  is_direct : bool;
  is_llm_channel : bool
}.

(** Constructor arguments shared by the three clients.  An optional
    string is [None] when the Python value is [None]. *)
Record config : Type := {
  private_mode : bool;
  send_startup_message : bool;
  use_llm_channel : bool;
  llm_channel : option pystr;
  llm_response_channel : option pystr
}.

(** Truth value of an optional string: neither [None] nor empty. *)
Definition str_set (o : option pystr) : bool :=
  match o with
  | Some (_ :: _) => true
  | _ => false
  end.

(** Which [time.sleep] of the source an event comes from. *)
Inductive sleep_site : Type :=
| Settle        (* connect: wait for the session to establish *)
| Backoff       (* connect: wait before the next attempt *)
| ChunkPause.   (* send_message / send_to_channel: pause between chunks *)

Inductive event : Type :=
| EvOpen                                     (* TCPInterface(host, port) *)
| EvClose                                    (* interface.close() *)
| EvSleep (site : sleep_site) (d : Q)        (* time.sleep(d) *)
| EvSendText (chunk : pystr) (destinationId : option pyval) (channelIndex : option nat)
                                             (* interface.sendText(...) *)
| EvMqttConnect                              (* MeshtasticMqttClient.connect *)
| EvPublish (topic : pystr) (payload : pyval) (* client.publish(topic, payload) *)
| EvRespond (m : message)                    (* the Responder is called on m *)
| EvTcpResponse (ok : bool)                  (* Router: tcp send_message returned ok *)
| EvChannelResponse (name : pystr) (ok : bool)
                                             (* Router: tcp send_to_channel returned ok *)
| EvMqttFallback (ok : bool).                (* Router: publish_to_llm_response_channel returned ok *)

(** ** The outside world *)

(** What a freshly opened device session looks like. *)
Inductive session : Type :=
| SessBare                          (* the object has no [myInfo] attribute *)
| SessPending                       (* [myInfo] is there, the metadata query raises *)
| SessReady (my_id : option pyval). (* metadata available; my node id if listed *)

Inductive open_outcome : Type :=
| OpenRaises                 (* TCPInterface(...) raises *)
| Opened (s : session).

Inductive send_outcome : Type :=
| SendOk
| SendReset                  (* BrokenPipeError / ConnectionResetError *)
| SendError.                 (* any other exception *)

Inductive publish_outcome : Type :=
| PubOk                      (* rc == 0 *)
| PubFail                    (* rc != 0 *)
| PubRaises.

(** A channel of the local node: its name, if it has settings with a name. *)
Definition channel_list := list (option pystr).

Record state : Type := {
  (* scripts: the outcome of each successive call; see the [next_*] functions *)
  w_opens : list open_outcome;
  w_sends : list send_outcome;
  w_mqtt_connects : list bool;
  w_publishes : list publish_outcome;
  w_channels : option channel_list;   (* interface.localNode.channels, if present *)
  (* MeshtasticTcpClient *)
  tcp_interface : option session;
  tcp_connected : bool;
  tcp_my_node_id : pyval;
  (* MeshtasticMqttClient *)
  mqtt_connected : bool;              (* self.connected *)
  mqtt_client : option bool;          (* self.client: absent before the first connect;
                                         else whether self.client.is_connected() *)
  mqtt_my_node_id : pyval;
  mqtt_nodes : list (pyval * pyval);
  mqtt_queue : list message;
  mqtt_callback : bool;               (* a message callback is installed *)
  (* MeshtasticHybridClient *)
  hyb_connected : bool;
  hyb_callback : option (message -> option pystr)
}.

Definition set_w_opens (v : list open_outcome) (s : state) : state :=
  {| w_opens := v; w_sends := w_sends s; w_mqtt_connects := w_mqtt_connects s;
     w_publishes := w_publishes s; w_channels := w_channels s;
     tcp_interface := tcp_interface s; tcp_connected := tcp_connected s;
     tcp_my_node_id := tcp_my_node_id s; mqtt_connected := mqtt_connected s;
     mqtt_client := mqtt_client s;
     mqtt_my_node_id := mqtt_my_node_id s; mqtt_nodes := mqtt_nodes s;
     mqtt_queue := mqtt_queue s; mqtt_callback := mqtt_callback s;
     hyb_connected := hyb_connected s; hyb_callback := hyb_callback s |}.

Definition set_w_sends (v : list send_outcome) (s : state) : state :=
  {| w_opens := w_opens s; w_sends := v; w_mqtt_connects := w_mqtt_connects s;
     w_publishes := w_publishes s; w_channels := w_channels s;
     tcp_interface := tcp_interface s; tcp_connected := tcp_connected s;
     tcp_my_node_id := tcp_my_node_id s; mqtt_connected := mqtt_connected s;
     mqtt_client := mqtt_client s;
     mqtt_my_node_id := mqtt_my_node_id s; mqtt_nodes := mqtt_nodes s;
     mqtt_queue := mqtt_queue s; mqtt_callback := mqtt_callback s;
     hyb_connected := hyb_connected s; hyb_callback := hyb_callback s |}.

Definition set_w_mqtt_connects (v : list bool) (s : state) : state :=
  {| w_opens := w_opens s; w_sends := w_sends s; w_mqtt_connects := v;
     w_publishes := w_publishes s; w_channels := w_channels s;
     tcp_interface := tcp_interface s; tcp_connected := tcp_connected s;
     tcp_my_node_id := tcp_my_node_id s; mqtt_connected := mqtt_connected s;
     mqtt_client := mqtt_client s;
     mqtt_my_node_id := mqtt_my_node_id s; mqtt_nodes := mqtt_nodes s;
     mqtt_queue := mqtt_queue s; mqtt_callback := mqtt_callback s;
     hyb_connected := hyb_connected s; hyb_callback := hyb_callback s |}.

Definition set_w_publishes (v : list publish_outcome) (s : state) : state :=
  {| w_opens := w_opens s; w_sends := w_sends s; w_mqtt_connects := w_mqtt_connects s;
     w_publishes := v; w_channels := w_channels s;
     tcp_interface := tcp_interface s; tcp_connected := tcp_connected s;
     tcp_my_node_id := tcp_my_node_id s; mqtt_connected := mqtt_connected s;
     mqtt_client := mqtt_client s;
     mqtt_my_node_id := mqtt_my_node_id s; mqtt_nodes := mqtt_nodes s;
     mqtt_queue := mqtt_queue s; mqtt_callback := mqtt_callback s;
     hyb_connected := hyb_connected s; hyb_callback := hyb_callback s |}.

Definition set_tcp_interface (v : option session) (s : state) : state :=
  {| w_opens := w_opens s; w_sends := w_sends s; w_mqtt_connects := w_mqtt_connects s;
     w_publishes := w_publishes s; w_channels := w_channels s;
     tcp_interface := v; tcp_connected := tcp_connected s;
     tcp_my_node_id := tcp_my_node_id s; mqtt_connected := mqtt_connected s;
     mqtt_client := mqtt_client s;
     mqtt_my_node_id := mqtt_my_node_id s; mqtt_nodes := mqtt_nodes s;
     mqtt_queue := mqtt_queue s; mqtt_callback := mqtt_callback s;
     hyb_connected := hyb_connected s; hyb_callback := hyb_callback s |}.

Definition set_tcp_connected (v : bool) (s : state) : state :=
  {| w_opens := w_opens s; w_sends := w_sends s; w_mqtt_connects := w_mqtt_connects s;
     w_publishes := w_publishes s; w_channels := w_channels s;
     tcp_interface := tcp_interface s; tcp_connected := v;
     tcp_my_node_id := tcp_my_node_id s; mqtt_connected := mqtt_connected s;
     mqtt_client := mqtt_client s;
     mqtt_my_node_id := mqtt_my_node_id s; mqtt_nodes := mqtt_nodes s;
     mqtt_queue := mqtt_queue s; mqtt_callback := mqtt_callback s;
     hyb_connected := hyb_connected s; hyb_callback := hyb_callback s |}.

Definition set_tcp_my_node_id (v : pyval) (s : state) : state :=
  {| w_opens := w_opens s; w_sends := w_sends s; w_mqtt_connects := w_mqtt_connects s;
     w_publishes := w_publishes s; w_channels := w_channels s;
     tcp_interface := tcp_interface s; tcp_connected := tcp_connected s;
     tcp_my_node_id := v; mqtt_connected := mqtt_connected s;
     mqtt_client := mqtt_client s;
     mqtt_my_node_id := mqtt_my_node_id s; mqtt_nodes := mqtt_nodes s;
     mqtt_queue := mqtt_queue s; mqtt_callback := mqtt_callback s;
     hyb_connected := hyb_connected s; hyb_callback := hyb_callback s |}.

Definition set_mqtt_connected (v : bool) (s : state) : state :=
  {| w_opens := w_opens s; w_sends := w_sends s; w_mqtt_connects := w_mqtt_connects s;
     w_publishes := w_publishes s; w_channels := w_channels s;
     tcp_interface := tcp_interface s; tcp_connected := tcp_connected s;
     tcp_my_node_id := tcp_my_node_id s; mqtt_connected := v;
     mqtt_client := mqtt_client s;
     mqtt_my_node_id := mqtt_my_node_id s; mqtt_nodes := mqtt_nodes s;
     mqtt_queue := mqtt_queue s; mqtt_callback := mqtt_callback s;
     hyb_connected := hyb_connected s; hyb_callback := hyb_callback s |}.

Definition set_mqtt_client (v : option bool) (s : state) : state :=
  {| w_opens := w_opens s; w_sends := w_sends s; w_mqtt_connects := w_mqtt_connects s;
     w_publishes := w_publishes s; w_channels := w_channels s;
     tcp_interface := tcp_interface s; tcp_connected := tcp_connected s;
     tcp_my_node_id := tcp_my_node_id s; mqtt_connected := mqtt_connected s;
     mqtt_client := v;
     mqtt_my_node_id := mqtt_my_node_id s; mqtt_nodes := mqtt_nodes s;
     mqtt_queue := mqtt_queue s; mqtt_callback := mqtt_callback s;
     hyb_connected := hyb_connected s; hyb_callback := hyb_callback s |}.

Definition set_mqtt_my_node_id (v : pyval) (s : state) : state :=
  {| w_opens := w_opens s; w_sends := w_sends s; w_mqtt_connects := w_mqtt_connects s;
     w_publishes := w_publishes s; w_channels := w_channels s;
     tcp_interface := tcp_interface s; tcp_connected := tcp_connected s;
     tcp_my_node_id := tcp_my_node_id s; mqtt_connected := mqtt_connected s;
     mqtt_client := mqtt_client s;
     mqtt_my_node_id := v; mqtt_nodes := mqtt_nodes s;
     mqtt_queue := mqtt_queue s; mqtt_callback := mqtt_callback s;
     hyb_connected := hyb_connected s; hyb_callback := hyb_callback s |}.

Definition set_mqtt_nodes (v : list (pyval * pyval)) (s : state) : state :=
  {| w_opens := w_opens s; w_sends := w_sends s; w_mqtt_connects := w_mqtt_connects s;
     w_publishes := w_publishes s; w_channels := w_channels s;
     tcp_interface := tcp_interface s; tcp_connected := tcp_connected s;
     tcp_my_node_id := tcp_my_node_id s; mqtt_connected := mqtt_connected s;
     mqtt_client := mqtt_client s;
     mqtt_my_node_id := mqtt_my_node_id s; mqtt_nodes := v;
     mqtt_queue := mqtt_queue s; mqtt_callback := mqtt_callback s;
     hyb_connected := hyb_connected s; hyb_callback := hyb_callback s |}.

Definition set_mqtt_queue (v : list message) (s : state) : state :=
  {| w_opens := w_opens s; w_sends := w_sends s; w_mqtt_connects := w_mqtt_connects s;
     w_publishes := w_publishes s; w_channels := w_channels s;
     tcp_interface := tcp_interface s; tcp_connected := tcp_connected s;
     tcp_my_node_id := tcp_my_node_id s; mqtt_connected := mqtt_connected s;
     mqtt_client := mqtt_client s;
     mqtt_my_node_id := mqtt_my_node_id s; mqtt_nodes := mqtt_nodes s;
     mqtt_queue := v; mqtt_callback := mqtt_callback s;
     hyb_connected := hyb_connected s; hyb_callback := hyb_callback s |}.

Definition set_mqtt_callback (v : bool) (s : state) : state :=
  {| w_opens := w_opens s; w_sends := w_sends s; w_mqtt_connects := w_mqtt_connects s;
     w_publishes := w_publishes s; w_channels := w_channels s;
     tcp_interface := tcp_interface s; tcp_connected := tcp_connected s;
     tcp_my_node_id := tcp_my_node_id s; mqtt_connected := mqtt_connected s;
     mqtt_client := mqtt_client s;
     mqtt_my_node_id := mqtt_my_node_id s; mqtt_nodes := mqtt_nodes s;
     mqtt_queue := mqtt_queue s; mqtt_callback := v;
     hyb_connected := hyb_connected s; hyb_callback := hyb_callback s |}.

Definition set_hyb_connected (v : bool) (s : state) : state :=
  {| w_opens := w_opens s; w_sends := w_sends s; w_mqtt_connects := w_mqtt_connects s;
     w_publishes := w_publishes s; w_channels := w_channels s;
     tcp_interface := tcp_interface s; tcp_connected := tcp_connected s;
     tcp_my_node_id := tcp_my_node_id s; mqtt_connected := mqtt_connected s;
     mqtt_client := mqtt_client s;
     mqtt_my_node_id := mqtt_my_node_id s; mqtt_nodes := mqtt_nodes s;
     mqtt_queue := mqtt_queue s; mqtt_callback := mqtt_callback s;
     hyb_connected := v; hyb_callback := hyb_callback s |}.

(** ** A state-and-log monad *)

Definition M (A : Type) : Type := state -> A * state * list event.

Definition ret {A : Type} (a : A) : M A := fun s => (a, s, []).

Definition bind {A B : Type} (m : M A) (f : A -> M B) : M B :=
  fun s =>
    let '(a, s1, e1) := m s in
    let '(b, s2, e2) := f a s1 in
    (b, s2, e1 ++ e2).

Declare Scope m_scope.
Delimit Scope m_scope with m.
Notation "x <- m ;; k" := (bind m (fun x => k))
  (at level 61, m at next level, right associativity) : m_scope.
Notation "m ;; k" := (bind m (fun _ => k))
  (at level 61, right associativity) : m_scope.
Open Scope m_scope.

Definition get : M state := fun s => (s, s, []).
Definition modify (f : state -> state) : M unit := fun s => (tt, f s, []).
Definition emit (e : event) : M unit := fun s => (tt, s, [e]).

Definition result {A : Type} (r : A * state * list event) : A := fst (fst r).
Definition final {A : Type} (r : A * state * list event) : state := snd (fst r).
Definition events {A : Type} (r : A * state * list event) : list event := snd r.

(** [time.sleep(d)] for a duration it accepts.  It raises [ValueError]
    for a negative duration and [OverflowError] for one its clock type
    cannot hold, and no caller in the repository passes one. *)
Definition sleep (site : sleep_site) (d : Q) : M unit := emit (EvSleep site d).


(** * Outbound Link: [MeshtasticTcpClient] *)

Module Tcp.

(** [meshtastic.tcp_interface.TCPInterface(self.host, self.port)].  Once
    the script is used up the device is unreachable. *)
Definition open_interface : M open_outcome :=
  fun s =>
    match w_opens s with
    | [] => (OpenRaises, s, [EvOpen])
    | o :: rest => (o, set_w_opens rest s, [EvOpen])
    end.

(** [self.interface.sendText(chunk, ...)].  With no interface object the
    attribute access raises, which the callers treat like any other
    error.  Once the script is used up every send succeeds. *)
Definition sendText (chunk : pystr) (destinationId : option pyval)
    (channelIndex : option nat) : M send_outcome :=
  fun s =>
    match tcp_interface s with
    | None => (SendError, s, [])
    | Some _ =>
        match w_sends s with
        | [] => (SendOk, s, [EvSendText chunk destinationId channelIndex])
        | o :: rest => (o, set_w_sends rest s, [EvSendText chunk destinationId channelIndex])
        end
    end.

(** [wait_time = min(2.0 + (attempt * 0.5), 5.0)] *)
Definition wait_time (attempt : nat) : Q :=
  Qmin (2 + inject_Z (Z.of_nat attempt) * (1 # 2))%Q 5%Q.

(** [current_delay = retry_delay * (2 ** attempt)] *)
Definition current_delay (retry_delay : Q) (attempt : nat) : Q :=
  (retry_delay * inject_Z (2 ^ Z.of_nat attempt))%Q.

(** The body of [for attempt in range(max_retries + 1)] in [connect],
    for waits that [time.sleep] accepts ([sleep_accepted]): an
    exception of [time.sleep] in a handler of [connect] would leave the
    method, which has no outcome here. *)
Fixpoint connect_loop (max_retries : Z) (retry_delay : Q) (attempts : list nat) : M bool :=
  match attempts with
  | [] => ret false
  | attempt :: rest =>
      o <- open_interface ;;
      match o with
      | OpenRaises =>
          if (Z.of_nat attempt <? max_retries)%Z then
            sleep Backoff (current_delay retry_delay attempt) ;;
            connect_loop max_retries retry_delay rest
          else ret false
      | Opened sess =>
          modify (set_tcp_interface (Some sess)) ;;
          sleep Settle (wait_time attempt) ;;
          match sess with
          | SessReady my_id =>
              match my_id with
              | Some i => modify (set_tcp_my_node_id i)
              | None => ret tt
              end ;;
              modify (set_tcp_connected true) ;;
              ret true
          | _ =>
              if (Z.of_nat attempt <? max_retries)%Z then
                emit EvClose ;;
                sleep Backoff (current_delay retry_delay attempt) ;;
                connect_loop max_retries retry_delay rest
              else ret false
          end
      end
  end.

(** [connect(self, max_retries=4, retry_delay=2.0)] *)
Definition connect (max_retries : Z) (retry_delay : Q) : M bool :=
  connect_loop max_retries retry_delay (seq 0 (Z.to_nat (max_retries + 1))).

(** [self.interface and hasattr(self.interface, 'myInfo')] *)
Definition interface_alive (s : state) : bool :=
  match tcp_interface s with
  | None | Some SessBare => false
  | Some _ => true
  end.

(** [_ensure_connected(self, max_retries=2)] *)
Definition _ensure_connected (max_retries : Z) : M bool :=
  s <- get ;;
  if interface_alive s then ret true else connect max_retries 2%Q.

Definition max_chunk_size : nat := 190.

(** [range(0, n, step)] *)
Definition range_step (n step : nat) : list nat :=
  map (fun k => k * step) (seq 0 ((n + step - 1) / step)).

(** The [chunks] list of [send_message] and [send_to_channel]. *)
Definition split_chunks (message : pystr) : list pystr :=
  if List.length message <=? max_chunk_size then [message]
  else map (fun i => slice message i (i + max_chunk_size))
           (range_step (List.length message) max_chunk_size).

(** [f"[{i+1}/{len(chunks)}] "] *)
Definition chunk_prefix (i n : nat) : pystr :=
  py "[" ++ str_of_nat (i + 1) ++ py "/" ++ str_of_nat n ++ py "] ".

(** The text handed to [sendText] for chunk [i] of [n]. *)
Definition frame (n i : nat) (chunk : pystr) : pystr :=
  if 1 <? n then chunk_prefix i n ++ chunk else chunk.

(** [destinationId] of the chunk loop:
    [is_direct = to_id is not None and to_id != "broadcast" and to_id != "^all"] *)
Definition direct_target (to_id : pyval) : option pyval :=
  if match to_id with PNone => false | _ => true end
     && negb (py_eq to_id (PStr (py "broadcast")))
     && negb (py_eq to_id (PStr (py "^all")))
  then Some to_id else None.

(** [destinationId] of the retry: [if to_id: ... else: ...] *)
Definition retry_target (to_id : pyval) : option pyval :=
  if truthy to_id then Some to_id else None.

(** [for i, chunk in enumerate(chunks)] of [send_message]; the result is
    how the loop ended: [SendOk] when it ran to completion, otherwise
    the kind of exception [sendText] raised. *)
Fixpoint send_chunks (n : nat) (to_id : pyval) (ichunks : list (nat * pystr))
  : M send_outcome :=
  match ichunks with
  | [] => ret SendOk
  | (i, chunk) :: rest =>
      r <- sendText (frame n i chunk) (direct_target to_id) None ;;
      match r with
      | SendOk =>
          (if (1 <? n) && (i <? n - 1) then sleep ChunkPause 1%Q else ret tt) ;;
          send_chunks n to_id rest
      | _ => ret r
      end
  end.

(** [send_message(self, message, to_id=None)]; [PNone] for a missing [to_id]. *)
Definition send_message (message : pystr) (to_id : pyval) : M bool :=
  ok <- _ensure_connected 2 ;;
  if negb ok then ret false else
  let chunks := split_chunks message in
  r <- send_chunks (List.length chunks) to_id (combine (seq 0 (List.length chunks)) chunks) ;;
  match r with
  | SendOk => ret true
  | SendReset =>
      ok' <- _ensure_connected 2 ;;
      if ok' then
        r' <- sendText message (retry_target to_id) None ;;
        match r' with
        | SendOk => ret true
        | _ => ret false
        end
      else ret false
  | SendError => ret false
  end.

Section Channels.

(** Python's [str.lower], a Unicode operation that is not reproduced here. *)
Variable str_lower : pystr -> pystr.

Fixpoint find_channel (p : pystr -> bool) (idx : nat) (chs : channel_list) : option nat :=
  match chs with
  | [] => None
  | Some name :: rest => if p name then Some idx else find_channel p (S idx) rest
  | None :: rest => find_channel p (S idx) rest
  end.

(** Channel index: exact match on lowered names, else substring match,
    else the literal 2. *)
Definition resolve_channel (chs : option channel_list) (channel_name : pystr) : nat :=
  match chs with
  | None => 2
  | Some l =>
      match find_channel (fun name => str_eqb (str_lower name) (str_lower channel_name)) 0 l with
      | Some idx => idx
      | None =>
          match find_channel
                  (fun name => str_contains (str_lower name) (str_lower channel_name)) 0 l with
          | Some idx => idx
          | None => 2
          end
      end
  end.

(** [for i, chunk in enumerate(chunks)] of [send_to_channel]: no prefix here. *)
Fixpoint send_channel_chunks (n channel_num : nat) (ichunks : list (nat * pystr))
  : M send_outcome :=
  match ichunks with
  | [] => ret SendOk
  | (i, chunk) :: rest =>
      r <- sendText chunk None (Some channel_num) ;;
      match r with
      | SendOk =>
          (if i <? n - 1 then sleep ChunkPause 1%Q else ret tt) ;;
          send_channel_chunks n channel_num rest
      | _ => ret r
      end
  end.

(** [send_to_channel(self, message, channel_name)].  The source calls
    itself after every transport reset, with no counter; [fuel] bounds
    the depth of that recursion and [None] means the bound was hit.
    The channel attributes are plain data here, so nothing between the
    chunking and the loop raises and the handler of lines 399-404 is
    not reached. *)
Fixpoint send_to_channel_rec (fuel : nat) (message channel_name : pystr)
  : M (option bool) :=
  match fuel with
  | O => ret None
  | S fuel' =>
      ok <- _ensure_connected 2 ;;
      if negb ok then ret (Some false) else
      s <- get ;;
      let chunks := split_chunks message in
      let channel_num := resolve_channel (w_channels s) channel_name in
      r <- send_channel_chunks (List.length chunks) channel_num
             (combine (seq 0 (List.length chunks)) chunks) ;;
      match r with
      | SendOk => ret (Some true)
      | SendReset =>
          ok' <- _ensure_connected 2 ;;
          if ok' then send_to_channel_rec fuel' message channel_name
          else ret (Some false)
      | SendError => ret (Some false)
      end
  end.

(** The call on a device session that stops resetting, which is what
    a send script describes: it holds finitely many outcomes, and every
    recursive call follows a reset read from it, so one more unit of
    fuel than the script is long is enough
    ([send_to_channel_rec_total] below).  On a session that answers
    every [sendText] with a reset the source goes on calling itself;
    no state here stands for such a session, and nothing below speaks
    of one. *)
Definition send_to_channel (message channel_name : pystr) : M bool :=
  fun s =>
    let '(r, s', ev) :=
      send_to_channel_rec (S (List.length (w_sends s))) message channel_name s in
    (match r with Some b => b | None => false end, s', ev).

End Channels.

(** [disconnect(self)]: the session is closed when there is an
    interface object, and the object stays in place.  [close_raises]
    says whether [interface.close()] raises, in which case the flag is
    left as it was. *)
Definition disconnect (close_raises : bool) : M unit :=
  s <- get ;;
  match tcp_interface s with
  | Some _ =>
      emit EvClose ;;
      if close_raises then ret tt else modify (set_tcp_connected false)
  | None => ret tt
  end.

End Tcp.

(** * Inbound Link: [MeshtasticMqttClient] *)

Module Mqtt.

(** What arrives in [_on_message]: the topic, the decoded payload text,
    and what [json.loads(payload)] returns on it ([None] when it raises
    [JSONDecodeError]). *)
Record mqtt_message : Type := {
  msg_topic : pystr;
  msg_payload : pystr;
  msg_json : option pyval
}.

Definition rx_topic_prefix : pystr := py "msh/+/rx".
Definition tx_topic : pystr := py "msh/broadcast/txt".
Definition nodeinfo_topic_prefix : pystr := py "msh/+/nodeinfo".

(** The literal of line 312: U+1F4E2 followed by " LLM Agent is now online". *)
Definition startup_marker : pystr := 128226%N :: py " LLM Agent is now online".

(** What the dedicated-channel branch has extracted when it reaches
    line 306, unless it returned or raised before. *)
Inductive extracted : Type :=
| Dropped                                  (* returned early, or an exception was caught *)
| Native (m : message)                     (* case 1: handed to _process_message at once *)
| Fields (text from_id to_id : pyval).     (* cases 2-5 and plain text *)

Section Inbound.

(** Python's [repr] of floats, lists and dictionaries, not reproduced here. *)
Variable py_repr : pyval -> pystr.
Variable cfg : config.

(** [str(v)] *)
Definition py_str (v : pyval) : pystr :=
  match v with
  | PStr s => s
  | PNone => py "None"
  | PBool true => py "True"
  | PBool false => py "False"
  | PInt n => str_of_Z n
  | _ => py_repr v
  end.

(** [self.client.publish(topic, payload)].  [self.client] is created
    by [connect] and by nothing else: before the first [connect] the
    attribute access raises [AttributeError], which every caller
    catches.  Once the script is used up every publish succeeds. *)
Definition publish (topic : pystr) (payload : pyval) : M publish_outcome :=
  fun s =>
    match mqtt_client s with
    | None => (PubRaises, s, [])
    | Some _ =>
        match w_publishes s with
        | [] => (PubOk, s, [EvPublish topic payload])
        | o :: rest => (o, set_w_publishes rest s, [EvPublish topic payload])
        end
    end.

Definition published (r : publish_outcome) : bool :=
  match r with PubOk => true | _ => false end.

(** ["/".join(parts)] *)
Fixpoint join_slash (parts : list pystr) : pystr :=
  match parts with
  | [] => []
  | [p] => p
  | p :: rest => p ++ slash :: join_slash rest
  end.

(** [channel_base = "/".join(self.llm_channel.split("/")[:-1])] *)
Definition channel_base (channel_topic : pystr) : pystr :=
  join_slash (removelast (split_slash channel_topic)).

(** The topics [_on_connect] subscribes to, in order. *)
Definition subscriptions : list pystr :=
  rx_topic_prefix :: nodeinfo_topic_prefix
  :: match llm_channel cfg with
     | Some (c :: t) =>
         if use_llm_channel cfg
         then [c :: t; channel_base (c :: t) ++ py "/#"]
         else []
     | _ => []
     end.

(** [request_node_info(self)] *)
Definition request_node_info : M bool :=
  s <- get ;;
  if negb (mqtt_connected s) then ret false else
  r <- publish (py "msh/request/nodeinfo") (PStr []) ;;
  ret (match r with PubRaises => false | _ => true end).

(** [send_broadcast(self, text)] *)
Definition send_broadcast (text : pystr) : M bool :=
  s <- get ;;
  if negb (mqtt_connected s) then ret false else
  r <- publish tx_topic (PStr text) ;;
  ret (published r).

(** What [_on_connect] does on [rc == 0] besides subscribing: the
    flag, the node-info request and, if the client's own
    [send_startup_message] is set, the marker as a broadcast. *)
Definition on_connect_accepted (startup : bool) : M unit :=
  modify (set_mqtt_connected true) ;;
  request_node_info ;;
  (if startup then send_broadcast startup_marker ;; ret tt else ret tt).

(** [_on_connect(self, client, userdata, flags, rc)]; [startup] is the
    client's own [send_startup_message] flag, which the Bridge passes
    as [False].  The value is the list of topics subscribed to. *)
Definition _on_connect (rc : Z) (startup : bool) : M (list pystr) :=
  if (rc =? 0)%Z then
    on_connect_accepted startup ;;
    ret subscriptions
  else ret [].

(** [_on_disconnect(self, client, userdata, rc)]: the session is down
    when the handler runs. *)
Definition _on_disconnect : M unit :=
  modify (fun s => set_mqtt_connected false
                     (set_mqtt_client (option_map (fun _ => false) (mqtt_client s)) s)).

(** [connect(self)].  A new client object replaces [self.client] and
    the session is opened.  Each outcome of the script says whether
    the broker takes the session.  If it does, the network thread
    runs [_on_connect] with [rc = 0] while [connect] polls
    [self.connected], which it then returns; the Bridge builds its
    Inbound Link with [send_startup_message=False] (line 68 of the
    Bridge).  If it does not, [self.client.connect] raises, [connect]
    returns [False] and [self.connected] stays as it was.  An
    exhausted script means the broker is unreachable.  A broker that
    answers with a non-zero [rc], or not within the ten seconds, is
    not among the outcomes. *)
Definition connect : M bool :=
  fun s =>
    match w_mqtt_connects s with
    | true :: rest =>
        let '(_, s', ev) :=
          on_connect_accepted false
            (set_mqtt_client (Some true) (set_w_mqtt_connects rest s)) in
        (mqtt_connected s', s', EvMqttConnect :: ev)
    | false :: rest =>
        (false, set_mqtt_client (Some false) (set_w_mqtt_connects rest s), [EvMqttConnect])
    | [] => (false, set_mqtt_client (Some false) s, [EvMqttConnect])
    end.

(** [disconnect(self)]; [raises] says whether closing the session
    raises, in which case the flag is left as it was, as it is when
    there is no [self.client] to close. *)
Definition disconnect (raises : bool) : M unit :=
  s <- get ;;
  if mqtt_connected s
  then match mqtt_client s with
       | None => ret tt
       | Some _ =>
           if raises then ret tt
           else modify (fun s => set_mqtt_connected false (set_mqtt_client (Some false) s))
       end
  else ret tt.

(** [publish_to_llm_response_channel(self, data)].  With no
    [self.client] the first test raises and the call returns [False];
    with a client that is not connected it calls [connect] and tests
    the new client. *)
Definition publish_to_llm_response_channel (data : pyval) : M bool :=
  s <- get ;;
  match mqtt_client s with
  | None => ret false
  | Some is_connected =>
      up <- (if is_connected then ret true else connect) ;;
      if negb up then ret false else
      match llm_response_channel cfg with
      | Some (c :: t) => r <- publish (c :: t) data ;; ret (published r)
      | _ => ret false
      end
  end.

(** [send_direct_message(self, to_id, text)] *)
Definition send_direct_message (to_id : pyval) (text : pystr) : M bool :=
  s <- get ;;
  if negb (mqtt_connected s) then ret false else
  r <- match mqtt_my_node_id s with
       | PNone => publish tx_topic (PDict [(py "text", PStr text); (py "to", to_id)])
       | me => publish (py "msh/" ++ py_str me ++ py "/c/" ++ py_str to_id ++ py "/txt")
                       (PStr text)
       end ;;
  ret (published r).

(** [send_broadcast_message(self, text)] *)
Definition send_broadcast_message (text : pystr) : M bool :=
  s <- get ;;
  if negb (mqtt_connected s) then ret false else
  r <- publish tx_topic (PStr text) ;;
  ret (published r).

(** [send_to_llm_channel(self, payload)] *)
Definition send_to_llm_channel (payload : pyval) : M bool :=
  if negb (use_llm_channel cfg) then ret false else
  match llm_response_channel cfg with
  | Some (c :: t) =>
      let response_channel := c :: t in
      (* Some None: no to_id; None: the lookup raises *)
      let lookup : option (option pyval) :=
        match payload with
        | PDict d =>
            match dict_get d (py "payload") with
            | None => Some None
            | Some (PDict p) => Some (dict_get p (py "to_id"))
            | Some (PStr inner) =>
                if str_contains inner (py "to_id") then None else Some None
            | Some (PList l) =>
                if existsb (fun x => py_eq x (PStr (py "to_id"))) l then None else Some None
            | Some _ => None
            end
        | _ => Some None
        end in
      let payload_str :=
        match payload with
        | PStr _ | PDict _ => payload
        | other => PStr (py_str other)
        end in
      match lookup with
      | None => ret false
      | Some None => r <- publish response_channel payload_str ;; ret (published r)
      | Some (Some to_id) =>
          if negb (py_eq to_id (PStr (py "broadcast"))) && truthy to_id then
            match to_id with
            | PStr t' =>
                let user_suffix := if startswith t' [bang] then t' else bang :: t' in
                let channel :=
                  if N.eqb (last response_channel 0%N) slash
                  then response_channel ++ user_suffix
                  else response_channel ++ [slash] ++ user_suffix in
                r <- publish channel payload_str ;; ret (published r)
            | _ => ret false
            end
          else r <- publish response_channel payload_str ;; ret (published r)
      end
  | _ => ret false
  end.

(** [_process_message(self, message)], with [self.message_callback]
    passed as [cb]. *)
Definition _process_message (cb : option (message -> M (option pystr))) (m : message)
  : M unit :=
  (* the log line evaluates text[:50]; a TypeError is caught and logged *)
  if negb (sliceable (text m)) then ret tt else
  if negb (truthy (text m)) then ret tt else
  s <- get ;;
  if py_eq (from_id m) (mqtt_my_node_id s) || py_eq (from_id m) (PStr (py "llm_agent"))
  then ret tt else
  match cb with
  | None => ret tt
  | Some callback =>
      response <- callback m ;;
      match response with
      | None | Some [] => ret tt
      | Some response =>
          if is_llm_channel m then
            publish_to_llm_response_channel
              (PDict [(py "from", PInt 1234567890);
                      (py "type", PStr (py "sendtext"));
                      (py "payload",
                       PDict [(py "text", PStr response);
                              (py "from_id", PStr (py "llm_agent"));
                              (py "to_id",
                               if is_direct m then from_id m else PStr (py "broadcast"))])]) ;;
            ret tt
          else if private_mode cfg || is_direct m then
            send_direct_message (from_id m) response ;; ret tt
          else
            send_broadcast_message response ;; ret tt
      end
  end.

(** [is_llm_channel] of lines 185-193 *)
Definition is_llm_topic (topic : pystr) : bool :=
  use_llm_channel cfg &&
  match llm_channel cfg with
  | Some (c :: t) => startswith topic (rstrip_slash (c :: t)) || startswith topic (c :: t)
  | _ => false
  end.

(** Sender taken from the last part of the topic when it starts with '!'. *)
Definition topic_sender (topic : pystr) : pyval :=
  let last_part := last (split_slash topic) [] in
  if startswith last_part [bang] then PStr last_part else PStr (py "unknown").

(** First key of [keys] whose entry in [d] passes [ok]. *)
Fixpoint first_entry (ok : pyval -> bool) (d : list (pystr * pyval)) (keys : list pystr)
  : option pyval :=
  match keys with
  | [] => None
  | k :: keys' =>
      match dict_get d k with
      | Some v => if ok v then Some v else first_entry ok d keys'
      | None => first_entry ok d keys'
      end
  end.

Definition is_str (v : pyval) : bool :=
  match v with PStr _ => true | _ => false end.

(** Lines 259-288: any other JSON object. *)
Definition extract_generic (topic payload : pystr) (d : list (pystr * pyval)) : extracted :=
  let text :=
    match first_entry is_str d [py "text"; py "message"; py "content"; py "body"] with
    | Some v => v
    | None => PNone
    end in
  let text := if truthy text then text else PStr payload in
  let from_id :=
    match first_entry (fun _ => true) d
            [py "from"; py "from_id"; py "sender"; py "user"; py "userId"] with
    | Some v => PStr (py_str v)
    | None => PNone
    end in
  let from_id := if truthy from_id then from_id else topic_sender topic in
  Fields text from_id PNone.

(** Lines 204-288: the payload parsed as JSON.  Anything but an object
    has no [get] and raises. *)
Definition extract_json (topic payload : pystr) (data : pyval) : extracted :=
  match data with
  | PDict d =>
      let message_type := get_or d (py "type") (PStr []) in
      let sender_or_from :=
        py_or (get_or d (py "sender") PNone) (PStr (py_str (get_or d (py "from") (PStr [])))) in
      let to_str := PStr (py_str (get_or d (py "to") (PStr (py "broadcast")))) in
      let top_level :=
        if has_key d (py "text") then
          (* case 4 *)
          let text := get_or d (py "text") (PStr []) in
          if sliceable text then
            Fields text
              (py_or (get_or d (py "from_id") PNone) (get_or d (py "sender") (PStr (py "unknown"))))
              (py_or (get_or d (py "to_id") PNone) (get_or d (py "to") (PStr (py "broadcast"))))
          else Dropped
        else
          (* case 5 *)
          extract_generic topic payload d in
      match dict_get d (py "payload") with
      | Some (PDict p) =>
          if py_eq message_type (PStr (py "text")) then
            (* case 1 *)
            let text := get_or p (py "text") (PStr []) in
            if negb (sliceable text) then Dropped
            else if truthy text then
              Native {| text := text; from_id := sender_or_from; to_id := to_str;
                        sender := sender_or_from; channel := PNone; packet_id := PNone;
                        is_direct := negb (py_eq to_str (PStr (py "broadcast")))
                                     && negb (py_eq to_str (PInt 4294967295));
                        is_llm_channel := true |}
            else Dropped
          else if py_eq message_type (PStr (py "sendtext")) then
            (* case 2 *)
            let text := get_or p (py "text") (PStr []) in
            if sliceable text then
              Fields text
                (py_or (get_or p (py "from_id") PNone)
                       (PStr (py_str (get_or d (py "from") (PStr [])))))
                (get_or p (py "to_id") PNone)
            else Dropped
          else if has_key p (py "text") then
            (* case 3 *)
            let text := get_or p (py "text") PNone in
            if sliceable text then Fields text sender_or_from to_str else Dropped
          else top_level
      | _ => top_level
      end
  | _ => Dropped
  end.

(** Lines 197-304 *)
Definition extract (msg : mqtt_message) : extracted :=
  match msg_json msg with
  | Some data => extract_json (msg_topic msg) (msg_payload msg) data
  | None => Fields (PStr (msg_payload msg)) (topic_sender (msg_topic msg)) PNone
  end.

(** Lines 197-329: the message object the dedicated-channel branch
    hands to [_process_message], if any. *)
Definition llm_message (msg : mqtt_message) : option message :=
  match extract msg with
  | Dropped => None
  | Native m => Some m
  | Fields text from_id to_id =>
      if negb (truthy text) then None
      else match text with
           | PStr t =>
               if startswith t startup_marker then None
               else Some {| text := text; from_id := from_id;
                            to_id := py_or to_id (PStr (py "broadcast"));
                            sender := from_id; channel := PNone; packet_id := PNone;
                            is_direct := true; is_llm_channel := true |}
           | _ => None    (* no startswith on a list: AttributeError *)
           end
  end.

(** Lines 339-376: the message object put on the queue, if any. *)
Definition rx_message (my_node_id : pyval) (msg : mqtt_message) : option message :=
  match msg_json msg with
  | Some (PDict d) =>
      let from_node_id := get_or d (py "fromId") (PStr (py "unknown")) in
      let to_node_id := get_or d (py "toId") (PStr (py "broadcast")) in
      if py_eq from_node_id my_node_id then None
      else Some {| text := get_or d (py "text") (PStr []);
                   from_id := from_node_id; to_id := to_node_id; sender := from_node_id;
                   channel := get_or d (py "channel") (PInt 0);
                   packet_id := get_or d (py "id") (PStr (py "unknown"));
                   is_direct := negb (py_eq to_node_id (PStr (py "broadcast")));
                   is_llm_channel := false |}
  | _ => None
  end.

(** Lines 379-407: a node-info event: the registry entry and whether it
    is our own node. *)
Definition nodeinfo (msg : mqtt_message) : option (pyval * pyval) :=
  match msg_json msg with
  | Some (PDict d) =>
      let node_id := get_or d (py "num") (PStr (py "unknown")) in
      match get_or d (py "user") (PDict []) with
      | PDict u =>
          if hashable node_id
          then Some (node_id, get_or u (py "longName") (PStr (py "unknown")))
          else None
      | _ => None
      end
  | _ => None
  end.

(** [self.nodes[node_id] = ...] on the items of the registry, of which
    the name is kept: an entry under an equal key is replaced where it
    stands and keeps its key, a new key is added. *)
Fixpoint nodes_set (nodes : list (pyval * pyval)) (node_id node_name : pyval)
  : list (pyval * pyval) :=
  match nodes with
  | [] => [(node_id, node_name)]
  | (k, v) :: rest =>
      if py_eq node_id k then (k, node_name) :: rest
      else (k, v) :: nodes_set rest node_id node_name
  end.


(** [_on_message(self, client, userdata, msg)] *)
Definition _on_message (cb : option (message -> M (option pystr))) (msg : mqtt_message)
  : M unit :=
  if is_llm_topic (msg_topic msg) then
    match llm_message msg with
    | Some m => _process_message cb m
    | None => ret tt
    end
  else if startswith (msg_topic msg) rx_topic_prefix then
    s <- get ;;
    match rx_message (mqtt_my_node_id s) msg with
    | Some m => modify (fun s => set_mqtt_queue (mqtt_queue s ++ [m]) s)
    | None => ret tt
    end
  else if startswith (msg_topic msg) nodeinfo_topic_prefix then
    match nodeinfo msg with
    | Some (node_id, node_name) =>
        modify (fun s => set_mqtt_nodes (nodes_set (mqtt_nodes s) node_id node_name) s) ;;
        if py_eq node_name (PStr (py "llm_agent"))
        then modify (set_mqtt_my_node_id node_id)
        else ret tt
    | None => ret tt
    end
  else ret tt.

(** One turn of the [while self.running] loop of [_process_queue]. *)
Definition _process_queue (cb : option (message -> M (option pystr))) : M unit :=
  s <- get ;;
  match mqtt_queue s with
  | [] => ret tt
  | m :: rest =>
      modify (set_mqtt_queue rest) ;;
      _process_message cb m
  end.

(** [send_message(self, text, to_id=None)]; [None] for a missing [to_id]. *)
Definition send_message (text : pystr) (to_id : option pyval) : M bool :=
  s <- get ;;
  if negb (mqtt_connected s) then ret false else
  match to_id with
  | None => send_broadcast text
  | Some to_id =>
      r <- match mqtt_my_node_id s with
           | PNone => publish tx_topic (PDict [(py "text", PStr text); (py "to", to_id)])
           | me => publish (py "msh/" ++ py_str me ++ py "/c/" ++ py_str to_id ++ py "/txt")
                           (PStr text)
           end ;;
      ret (published r)
  end.

End Inbound.

End Mqtt.

(** * Router / Bridge: [MeshtasticHybridClient] *)

Module Hybrid.

(** The first four characters of the literal of line 327, as the file
    has them: U+00F0, U+0178, U+201C, U+00A2. *)
Definition banner_lead : pystr := [240%N; 376%N; 8220%N; 162%N].

Section Bridge.

Variable str_lower : pystr -> pystr.
Variable py_repr : pyval -> pystr.
Variable cfg : config.

(** [_send_response_via_mqtt_llm_channel(self, response, from_id)].
    The TCP client has a [my_node_id] attribute and no
    [my_node_id_num]. *)
Definition _send_response_via_mqtt_llm_channel (response : pystr) (from_id : pyval)
  : M unit :=
  s <- get ;;
  let response_data :=
    PDict [(py "from", PInt 1234567890);
           (py "type", PStr (py "sendtext"));
           (py "payload",
            PDict [(py "text", PStr response);
                   (py "from_id", tcp_my_node_id s);
                   (py "to_id", if private_mode cfg then from_id else PStr (py "broadcast"));
                   (py "is_response", PBool true)])] in
  success <- Mqtt.publish_to_llm_response_channel cfg response_data ;;
  emit (EvMqttFallback success).

(** Last non-empty part of the response topic, else "llmres". *)
Definition channel_name_of (response_channel : pystr) : pystr :=
  last (filter (fun part => match part with [] => false | _ => true end)
               (split_slash response_channel))
       (py "llmres").

(** Lines 233-261 *)
Definition send_to_response_channel (response : pystr) (from_id : pyval)
    (is_llm_channel : bool) : M unit :=
  if is_llm_channel && use_llm_channel cfg then
    match llm_response_channel cfg with
    | Some (c :: t) =>
        let channel_name := channel_name_of (c :: t) in
        channel_success <- Tcp.send_to_channel str_lower response channel_name ;;
        emit (EvChannelResponse channel_name channel_success) ;;
        if channel_success then ret tt
        else _send_response_via_mqtt_llm_channel response from_id
    | _ => ret tt
    end
  else ret tt.

(** The body of [for attempt in range(max_retries + 1)] with
    [max_retries = 2].  The two TCP calls catch what they raise, so the
    handler of lines 266-275 is not reached. *)
Fixpoint send_response_loop (attempts : list nat) (response : pystr)
    (from_id to_id : pyval) (is_direct is_llm_channel : bool) : M unit :=
  match attempts with
  | [] => ret tt
  | attempt :: rest =>
      success <- (if private_mode cfg || is_direct
                  then Tcp.send_message response from_id
                  else Tcp.send_message response PNone) ;;
      emit (EvTcpResponse success) ;;
      if negb success && (attempt <? 2)
      then send_response_loop rest response from_id to_id is_direct is_llm_channel
      else send_to_response_channel response from_id is_llm_channel
  end.

(** [_send_response_via_tcp(self, response, from_id, to_id, is_direct, is_llm_channel)] *)
Definition _send_response_via_tcp (response : pystr) (from_id to_id : pyval)
    (is_direct is_llm_channel : bool) : M unit :=
  send_response_loop (seq 0 3) response from_id to_id is_direct is_llm_channel.

(** [_handle_mqtt_message(self, message)]: always returns [None].  A
    Responder that raises is caught here and counts as no reply, so the
    Responder is a function to an optional text. *)
Definition _handle_mqtt_message (m : message) : M (option pystr) :=
  s <- get ;;
  match hyb_callback s with
  | None => ret None
  | Some message_callback =>
      if negb (sliceable (text m)) then ret None else
      emit (EvRespond m) ;;
      match message_callback m with
      | None | Some [] => ret None
      | Some response =>
          _send_response_via_tcp response (from_id m) (to_id m) (is_direct m)
            (is_llm_channel m) ;;
          ret None
      end
  end.

(** The callback the Inbound Link holds: none before [connect]
    installs [_handle_mqtt_message]. *)
Definition installed_callback (s : state) : option (message -> M (option pystr)) :=
  if mqtt_callback s then Some _handle_mqtt_message else None.

(** A broker message arriving at the Bridge. *)
Definition on_message (msg : Mqtt.mqtt_message) : M unit :=
  s <- get ;;
  Mqtt._on_message py_repr cfg (installed_callback s) msg.

(** One turn of the Inbound Link's queue worker inside the Bridge. *)
Definition process_queue : M unit :=
  s <- get ;;
  Mqtt._process_queue py_repr cfg (installed_callback s).

(** [startup_message] of [send_startup_messages] *)
Definition startup_message : pystr :=
  banner_lead ++ py " LLM Agent is now online and ready for conversations!"
  ++ (if private_mode cfg
      then py " (Private mode: only responding to direct messages)" else [])
  ++ (if use_llm_channel cfg
      then py " (Listening on channel: "
           ++ match llm_channel cfg with Some ch => ch | None => py "None" end
           ++ py ")"
      else []).

(** [send_startup_messages(self)] *)
Definition send_startup_messages : M unit :=
  Tcp.send_message startup_message PNone ;;
  if use_llm_channel cfg then
    Mqtt.send_to_llm_channel py_repr cfg
      (PDict [(py "from", PInt 1234567890);
              (py "type", PStr (py "sendtext"));
              (py "payload",
               PDict [(py "text", PStr startup_message);
                      (py "from_id", PStr (py "llm_agent"));
                      (py "to_id", PStr (py "broadcast"))])]) ;;
    ret tt
  else ret tt.

(** [connect(self)] *)
Definition connect : M bool :=
  mqtt_connected <- Mqtt.connect ;;
  if negb mqtt_connected then ret false else
  tcp_connected <- Tcp.connect 4 2%Q ;;
  modify (set_hyb_connected (mqtt_connected && tcp_connected)) ;;
  (if mqtt_connected && negb tcp_connected
   then modify (set_hyb_connected true) else ret tt) ;;
  modify (set_mqtt_callback true) ;;
  (if send_startup_message cfg then send_startup_messages else ret tt) ;;
  s <- get ;;
  ret (hyb_connected s).

(** [disconnect(self)] *)
Definition disconnect (mqtt_raises tcp_raises : bool) : M unit :=
  Mqtt.disconnect mqtt_raises ;;
  Tcp.disconnect tcp_raises ;;
  modify (set_hyb_connected false).

(** [send_message(self, text, to_id=None)] *)
Definition send_message (text : pystr) (to_id : pyval) : M bool :=
  Tcp.send_message text to_id.

(** [request_node_info(self)] *)
Definition request_node_info : M unit :=
  Mqtt.request_node_info ;; ret tt.

End Bridge.

(** [set_message_callback(self, callback)] *)
Definition set_message_callback (callback : message -> option pystr) : M unit :=
  modify (fun s =>
    {| w_opens := w_opens s; w_sends := w_sends s; w_mqtt_connects := w_mqtt_connects s;
       w_publishes := w_publishes s; w_channels := w_channels s;
       tcp_interface := tcp_interface s; tcp_connected := tcp_connected s;
       tcp_my_node_id := tcp_my_node_id s; mqtt_connected := mqtt_connected s;
     mqtt_client := mqtt_client s;
       mqtt_my_node_id := mqtt_my_node_id s; mqtt_nodes := mqtt_nodes s;
       mqtt_queue := mqtt_queue s; mqtt_callback := mqtt_callback s;
       hyb_connected := hyb_connected s; hyb_callback := Some callback |}).

End Hybrid.

(** * The Responder: [Agent] (agent.py) *)

Module Agent.

Inductive role : Type := System | User | Assistant.

(** An entry of a conversation: [{"role": ..., "content": ...}]. *)
Record turn : Type := { turn_role : role; content : pystr }.

(** What [model_loader.generate_response(conversation)] does: it
    returns a text, returns nothing, or raises. *)
Inductive generation : Type :=
| Generated (response : option pystr)
| GenerationRaises.

(** [self.conversations]: user id to history, in insertion order. *)
Definition conversations := list (pyval * list turn).

(** The characters [str.strip()] removes: those with [str.isspace()]. *)
Definition is_space (c : codepoint) : bool :=
  ((9 <=? c) && (c <=? 13) || (28 <=? c) && (c <=? 32) || (c =? 133) || (c =? 160)
   || (c =? 5760) || (8192 <=? c) && (c <=? 8202) || (c =? 8232) || (c =? 8233)
   || (c =? 8239) || (c =? 8287) || (c =? 12288))%N.

(** [s.strip()] *)
Definition strip (s : pystr) : pystr :=
  rev (dropwhile is_space (rev (dropwhile is_space s))).

(** The tests both methods make before anything else: too short once
    stripped, or a system message (the banner symbol as the file has
    it, or "System:"). *)
Definition too_short (message : pystr) : bool := List.length (strip message) <? 2.

Definition system_message (message : pystr) : bool :=
  startswith message Hybrid.banner_lead || startswith message (py "System:").

(** [user_id in self.conversations] and [self.conversations[user_id]] *)
Fixpoint history_of (convs : conversations) (user_id : pyval) : option (list turn) :=
  match convs with
  | [] => None
  | (k, h) :: rest => if py_eq user_id k then Some h else history_of rest user_id
  end.

(** [self.conversations[user_id] = h] *)
Fixpoint store (convs : conversations) (user_id : pyval) (h : list turn) : conversations :=
  match convs with
  | [] => [(user_id, h)]
  | (k, h') :: rest =>
      if py_eq user_id k then (k, h) :: rest else (k, h') :: store rest user_id h
  end.

(** [l[start:]] for any integer [start] *)
Definition tail_from (l : list turn) (start : Z) : list turn :=
  if (start <? 0)%Z
  then skipn (Z.to_nat (Z.of_nat (List.length l) + start)) l
  else skipn (Z.to_nat start) l.

Definition sorry_error : pystr :=
  py "I'm sorry, I encountered an error processing your message.".

Definition sorry_no_response : pystr :=
  py "I'm sorry, I couldn't generate a response at this time.".

Definition error_try_again : pystr :=
  py "I encountered an error processing your message. Please try again.".

Section Responder.

Variable model : list turn -> generation.
Variable system_prompt : pystr.
Variable max_conversation_length : Z.

(** The truncation of lines 121-127, on a history that has just been
    appended to. *)
Definition truncate (history : list turn) : list turn :=
  if (max_conversation_length <? Z.of_nat (List.length history))%Z then
    match history with
    | {| turn_role := System; content := c |} :: _ =>
        {| turn_role := System; content := c |}
        :: tail_from history (- (max_conversation_length - 1))
    | _ => tail_from history (- max_conversation_length)
    end
  else history.

(** Lines 129-134: the conversation handed to the model. *)
Definition prepare (history : list turn) : list turn :=
  match history with
  | {| turn_role := System; content := _ |} :: _ => history
  | _ => {| turn_role := System; content := system_prompt |} :: history
  end.

(** [generate_response(self, message, user_id=None)] on a text: the
    reply and the conversations afterwards.  An unhashable [user_id]
    raises at the dictionary lookup, before anything is stored. *)
Definition generate_response (convs : conversations) (message : pystr) (user_id : pyval)
  : option pystr * conversations :=
  match message with
  | [] => (None, convs)
  | _ =>
      if too_short message then (None, convs)
      else if system_message message then (None, convs)
      else
        let user_id := match user_id with PNone => PStr (py "default") | u => u end in
        if negb (hashable user_id) then (Some sorry_error, convs)
        else
          let old := match history_of convs user_id with Some h => h | None => [] end in
          let history :=
            truncate (old ++ [{| turn_role := User; content := message |}]) in
          match model (prepare history) with
          | GenerationRaises => (Some sorry_error, store convs user_id history)
          | Generated (Some (c :: r)) =>
              (Some (c :: r),
               store convs user_id
                 (history ++ [{| turn_role := Assistant; content := c :: r |}]))
          | Generated response => (response, store convs user_id history)
          end
  end.

(** [process_message(self, message)] *)
Definition process_message (convs : conversations) (m : message)
  : option pystr * conversations :=
  if negb (truthy (text m)) then (None, convs)
  else match text m with
       | PStr t =>
           if too_short t then (None, convs)
           else if system_message t then (None, convs)
           else
             let '(response, convs') := generate_response convs t (from_id m) in
             (Some match response with
                   | Some (c :: r) => c :: r
                   | _ => sorry_no_response
                   end,
              convs')
       | _ => (Some error_try_again, convs)     (* no strip on it: AttributeError *)
       end.

End Responder.

End Agent.

(** * Concrete worlds used in the examples *)

(** ASCII lowering, standing in for [str.lower] on the ASCII names of the examples. *)
Definition ascii_lower (s : pystr) : pystr :=
  map (fun c => if (65 <=? c)%N && (c <=? 90)%N then (c + 32)%N else c) s.

(** [repr] is not exercised by the examples. *)
Definition no_repr (_ : pyval) : pystr := py "<repr>".

(** The topics of config.py. *)
Definition cfg0 : config :=
  {| private_mode := false; send_startup_message := false; use_llm_channel := true;
     llm_channel := Some (py "msh/US/2/json/llm/");
     llm_response_channel := Some (py "msh/US/2/json/llmres/") |}.

(** Nothing connected, every script empty. *)
Definition st0 : state :=
  {| w_opens := []; w_sends := []; w_mqtt_connects := []; w_publishes := [];
     w_channels := None;
     tcp_interface := None; tcp_connected := false; tcp_my_node_id := PNone;
     mqtt_connected := false; mqtt_client := None; mqtt_my_node_id := PNone; mqtt_nodes := [];
     mqtt_queue := []; mqtt_callback := false;
     hyb_connected := false; hyb_callback := None |}.

(** A device session that is up. *)
Definition st_up : state := set_tcp_connected true (set_tcp_interface (Some (SessReady None)) st0).

(** Both links up, with local channels (0, "Primary"), an unnamed
    channel 1 and (2, "LLM"); no Responder registered. *)
Definition st_llm : state :=
  {| w_opens := []; w_sends := []; w_mqtt_connects := []; w_publishes := [];
     w_channels := Some [Some (py "Primary"); None; Some (py "LLM")];
     tcp_interface := Some (SessReady None); tcp_connected := true; tcp_my_node_id := PNone;
     mqtt_connected := true; mqtt_client := Some true;
     mqtt_my_node_id := PNone; mqtt_nodes := [];
     mqtt_queue := []; mqtt_callback := true;
     hyb_connected := true; hyb_callback := None |}.

(** * Observations on event logs *)

(** The waits of [connect] before the next attempt, in order. *)
Definition backoff_waits (ev : list event) : list Q :=
  flat_map (fun e => match e with EvSleep Backoff d => [d] | _ => [] end) ev.

(** An attempt of [connect] fails when the session does not open or
    its metadata cannot be read. *)
Definition outcome_fails (o : open_outcome) : bool :=
  match o with
  | Opened (SessReady _) => false
  | _ => true
  end.

(** Does the [i]-th session opening from state [s] on fail? *)
Definition attempt_fails (s : state) (i : nat) : bool :=
  outcome_fails (nth i (w_opens s) OpenRaises).

(** What is observed of a run of [connect]: its backoff waits and its result. *)
Definition connect_view (r : bool * state * list event) : list Q * bool :=
  (backoff_waits (events r), result r).

(** The texts handed to [sendText], in order. *)
Definition sent_texts (ev : list event) : list pystr :=
  flat_map (fun e => match e with EvSendText c _ _ => [c] | _ => [] end) ev.

(** The frames [send_message] means to send for [message]: its chunks,
    each prefixed when there is more than one. *)
Definition frames (message : pystr) : list pystr :=
  let chunks := Tcp.split_chunks message in
  map (fun ic => Tcp.frame (List.length chunks) (fst ic) (snd ic))
      (combine (seq 0 (List.length chunks)) chunks).

(** How a run of [send_message] ends when the retry reads [o]. *)
Definition retry_result (o : send_outcome) : bool :=
  match o with SendOk => true | _ => false end.

(** Events of the device session (Outbound Link). *)
Definition is_tcp_event (e : event) : bool :=
  match e with
  | EvOpen | EvClose | EvSleep _ _ | EvSendText _ _ _ => true
  | _ => false
  end.

(** Events of the broker session (Inbound Link). *)
Definition is_mqtt_event (e : event) : bool :=
  match e with
  | EvMqttConnect | EvPublish _ _ => true
  | _ => false
  end.

(** The Router's own record of a reply: what each call returned. *)
Definition is_router_event (e : event) : bool :=
  match e with
  | EvTcpResponse _ | EvChannelResponse _ _ | EvMqttFallback _ => true
  | _ => false
  end.

Definition router_log (ev : list event) : list event := filter is_router_event ev.

(** The messages the Responder was called on, in order. *)
Definition responder_calls (ev : list event) : list message :=
  flat_map (fun e => match e with EvRespond m => [m] | _ => [] end) ev.

(** The fallback runs from the device session to the broker session:
    once the broker session has been used for a reply, the device
    session is not used again. *)
Fixpoint never_reversed (ev : list event) : bool :=
  match ev with
  | [] => true
  | e :: rest =>
      (if is_mqtt_event e then forallb (fun e' => negb (is_tcp_event e')) rest else true)
      && never_reversed rest
  end.

(** A computation all of whose events satisfy [p], from any state. *)
Definition only (p : event -> bool) {A : Type} (m : M A) : Prop :=
  forall s, forallb p (events (m s)) = true.

(** The payload shape of case 1: [type == 'text'] with a [payload] object. *)
Definition native_text_shape (msg : Mqtt.mqtt_message) : bool :=
  match Mqtt.msg_json msg with
  | Some (PDict d) =>
      py_eq (get_or d (py "type") (PStr [])) (PStr (py "text"))
      && match dict_get d (py "payload") with Some (PDict _) => true | _ => false end
  | _ => false
  end.

(** The shape of the Router's record of one reply: the results [sends]
    of its direct or broadcast sends; then, for a dedicated-channel
    message with a response topic configured, a channel send, followed
    by the broker fallback exactly when the channel send failed. *)
Definition policy_shape (cfg : config) (is_llm_channel : bool) (log : list event)
    (sends : list bool) : Prop :=
  match (if is_llm_channel && use_llm_channel cfg
         then llm_response_channel cfg else None) with
  | Some (c :: t) =>
      log = map EvTcpResponse sends ++ [EvChannelResponse (Hybrid.channel_name_of (c :: t)) true]
      \/ exists b,
          log = map EvTcpResponse sends
                ++ [EvChannelResponse (Hybrid.channel_name_of (c :: t)) false;
                    EvMqttFallback b]
  | _ => log = map EvTcpResponse sends
  end.

(** A computation that leaves the observation [f] of the state as it was. *)
Definition keeps {X A : Type} (f : state -> X) (m : M A) : Prop :=
  forall s, f (final (m s)) = f s.

(** The dedicated channel enabled, no response topic configured. *)
Definition cfg_no_response : config :=
  {| private_mode := false; send_startup_message := false; use_llm_channel := true;
     llm_channel := Some (py "msh/US/2/json/llm/");
     llm_response_channel := None |}.

(** Both links up, the Bridge's handler installed, and a Responder
    that answers "ok" to everything. *)
Definition st_bridge : state :=
  {| w_opens := []; w_sends := []; w_mqtt_connects := []; w_publishes := [];
     w_channels := Some [Some (py "Primary"); None; Some (py "LLM")];
     tcp_interface := Some (SessReady None); tcp_connected := true; tcp_my_node_id := PNone;
     mqtt_connected := true; mqtt_client := Some true;
     mqtt_my_node_id := PNone; mqtt_nodes := [];
     mqtt_queue := []; mqtt_callback := true;
     hyb_connected := true; hyb_callback := Some (fun _ => Some (py "ok")) |}.

(** Anything but a call of the Responder. *)
Definition not_respond (e : event) : bool :=
  match e with EvRespond _ => false | _ => true end.

(** A JSON string literal: the text between two quotation marks (U+0022). *)
Definition quoted (s : string) : pystr := 34%N :: py s ++ [34%N].

(** A native text message with no [to] field, from node 42. *)
Definition scenario1 : Mqtt.mqtt_message :=
  {| Mqtt.msg_topic := py "msh/US/2/json/llm/";
     Mqtt.msg_payload :=
       py "{" ++ quoted "type" ++ py ":" ++ quoted "text" ++ py ","
       ++ quoted "payload" ++ py ":{" ++ quoted "text" ++ py ":" ++ quoted "hi" ++ py "},"
       ++ quoted "from" ++ py ":42}";
     Mqtt.msg_json :=
       Some (PDict [(py "type", PStr (py "text"));
                    (py "payload", PDict [(py "text", PStr (py "hi"))]);
                    (py "from", PInt 42)]) |}.

(** A message from the node "!me" on the dedicated topic (shape (d)),
    and what it is classified as. *)
Definition raw_self : Mqtt.mqtt_message :=
  {| Mqtt.msg_topic := py "msh/US/2/json/llm/";
     Mqtt.msg_payload := py "{...}";
     Mqtt.msg_json :=
       Some (PDict [(py "text", PStr (py "hi")); (py "from_id", PStr (py "!me"))]) |}.

Definition msg_self : message :=
  {| text := PStr (py "hi"); from_id := PStr (py "!me");
     to_id := PStr (py "broadcast"); sender := PStr (py "!me");
     channel := PNone; packet_id := PNone;
     is_direct := true; is_llm_channel := true |}.

(** The Bridge after a node-info event has recorded "!me" as its own
    node, with [msg_self] waiting in the queue. *)
Definition st_self : state :=
  set_mqtt_queue [msg_self] (set_mqtt_my_node_id (PStr (py "!me")) st_bridge).

(** A call of [sendText]. *)
Definition is_send (e : event) : bool :=
  match e with EvSendText _ _ _ => true | _ => false end.

Definition not_send (e : event) : bool := negb (is_send e).

(** An attempt to open a device session. *)
Definition is_open (e : event) : bool :=
  match e with EvOpen => true | _ => false end.

(** A settle wait of [connect] lies between 2 and 5 seconds. *)
Definition settle_in_range (e : event) : bool :=
  match e with
  | EvSleep Settle d => Qle_bool 2 d && Qle_bool d 5
  | _ => true
  end.

(** The number of session openings in a log. *)
Definition opens (ev : list event) : nat := List.length (filter is_open ev).

(** Handing a text to the session, or pausing between two chunks. *)
Definition is_transmit (e : event) : bool :=
  match e with
  | EvSendText _ _ _ | EvSleep ChunkPause _ => true
  | _ => false
  end.

(** A computation that, started where [I] holds, ends where [I] holds
    and logs only events satisfying [p]. *)
Definition inv_only (I : state -> Prop) (p : event -> bool) {A : Type} (m : M A) : Prop :=
  forall s, I s -> I (final (m s)) /\ forallb p (events (m s)) = true.

(** The calls of [sendText] with their arguments, in order. *)
Definition send_calls (ev : list event) : list (pystr * option pyval * option nat) :=
  flat_map (fun e => match e with EvSendText c d i => [(c, d, i)] | _ => [] end) ev.

(** The interface object is there and has a [myInfo]. *)
Definition alive (s : state) : Prop := Tcp.interface_alive s = true.

(** The channel names a channel list holds, by index. *)
Definition channel_name_at (chs : channel_list) (i : nat) : option pystr :=
  nth i chs None.

(** What the Inbound Link and the Bridge remember between messages,
    the queue apart: the recorded identity, the node registry, and
    the two callbacks. *)
Definition inbound_view (s : state)
  : pyval * list (pyval * pyval) * bool * option (message -> option pystr) :=
  (mqtt_my_node_id s, mqtt_nodes s, mqtt_callback s, hyb_callback s).

(** The publishes with their arguments, in order. *)
Definition publishes (ev : list event) : list (pystr * pyval) :=
  flat_map (fun e => match e with EvPublish t p => [(t, p)] | _ => [] end) ev.

(** A list of zero or one element. *)
Definition opt_list {A : Type} (o : option A) : list A :=
  match o with Some a => [a] | None => [] end.

(** What [_process_message] checks before it calls the Responder:
    a text that can be sliced and is not empty, from a sender other
    than "llm_agent". *)
Definition answerable (m : message) : bool :=
  sliceable (text m) && truthy (text m)
  && negb (py_eq (from_id m) (PStr (py "llm_agent"))).

(** A regular-topic message from "!abc" under a real region name. *)
Definition msg_region : Mqtt.mqtt_message :=
  {| Mqtt.msg_topic := py "msh/US/rx/!abc";
     Mqtt.msg_payload := py "{...}";
     Mqtt.msg_json :=
       Some (PDict [(py "text", PStr (py "hello")); (py "fromId", PStr (py "!abc"))]) |}.


(** The broker answers the first connection attempt. *)
Definition st_broker_up : state := set_w_mqtt_connects [true] st0.

(** No '/' in a string. *)
Definition no_slash (s : pystr) : bool := forallb (fun c => negb (N.eqb c slash)) s.

(** A stored history as [generate_response] leaves it: no system
    entry, and at most [max + 1] entries. *)
Definition well_kept (max : Z) (h : list Agent.turn) : bool :=
  forallb (fun t => match Agent.turn_role t with Agent.System => false | _ => true end) h
  && (Z.of_nat (List.length h) <=? max + 1)%Z.

(** A model that answers "ok" to everything. *)
Definition model_ok (_ : list Agent.turn) : Agent.generation :=
  Agent.Generated (Some (py "ok")).

(** The Bridge's own banner under [cfg0], arriving as a message. *)
Definition msg_banner : message :=
  {| text := PStr (Hybrid.startup_message cfg0); from_id := PStr (py "!abc");
     to_id := PStr (py "broadcast"); sender := PStr (py "!abc");
     channel := PNone; packet_id := PNone;
     is_direct := false; is_llm_channel := true |}.

(** [k] calls of [m] one after the other, each from the state the one
    before it left: what each returned, left and logged. *)
Fixpoint calls_in_a_row {A : Type} (m : M A) (k : nat) (s : state)
  : list (A * state * list event) :=
  match k with
  | O => []
  | S k' => m s :: calls_in_a_row m k' (final (m s))
  end.

(** The state [k] calls of [m] in a row leave. *)
Fixpoint state_after_calls {A : Type} (m : M A) (k : nat) (s : state) : state :=
  match k with
  | O => s
  | S k' => state_after_calls m k' (final (m s))
  end.

(** Where the reply to a message goes after the direct or broadcast
    sends: to the response topic, for a message of dedicated-channel
    origin when the channel is enabled and the topic is configured. *)
Definition response_route (cfg : config) (dedicated : bool) : option pystr :=
  if dedicated && use_llm_channel cfg
  then match llm_response_channel cfg with
       | Some (c :: t) => Some (c :: t)
       | _ => None
       end
  else None.

(** The channel part of the reply policy in the specification's words,
    as the log it predicts from state [s]: on a route, Outbound
    [send_to_channel] is attempted and its result recorded, and when it
    failed the reply is published through the Inbound Link's
    response-topic publish path from the state the attempt left, and
    that result is recorded.  Off a route nothing happens. *)
Definition channel_reply_log (str_lower : pystr -> pystr) (cfg : config)
    (response : pystr) (sender_id : pyval) (route : option pystr) (s : state)
  : list event :=
  match route with
  | None => []
  | Some topic =>
      let name := Hybrid.channel_name_of topic in
      let attempt := Tcp.send_to_channel str_lower response name s in
      events attempt ++ [EvChannelResponse name (result attempt)]
      ++ (if result attempt then []
          else
            let reply :=
              PDict [(py "from", PInt 1234567890);
                     (py "type", PStr (py "sendtext"));
                     (py "payload",
                      PDict [(py "text", PStr response);
                             (py "from_id", tcp_my_node_id (final attempt));
                             (py "to_id",
                              if private_mode cfg then sender_id
                              else PStr (py "broadcast"));
                             (py "is_response", PBool true)])] in
            let fallback :=
              Mqtt.publish_to_llm_response_channel cfg reply (final attempt) in
            events fallback ++ [EvMqttFallback (result fallback)])
  end.

(** The whole reply: [k] direct or broadcast sends [send], each with
    the record of its result, then the channel part from the state they
    leave. *)
Definition reply_policy_log (str_lower : pystr -> pystr) (cfg : config)
    (response : pystr) (sender_id : pyval) (dedicated : bool) (send : M bool)
    (k : nat) (s : state) : list event :=
  flat_map (fun r => events r ++ [EvTcpResponse (result r)]) (calls_in_a_row send k s)
  ++ channel_reply_log str_lower cfg response sender_id (response_route cfg dedicated)
       (state_after_calls send k s).

(** Neither a send on a channel index nor any use of the broker session. *)
Definition no_channel_traffic (e : event) : bool :=
  match e with
  | EvSendText _ _ (Some _) | EvPublish _ _ | EvMqttConnect => false
  | _ => true
  end.

(** * Outbound Link: connection and backoff *)

Lemma nth_tl {A : Type} (l : list A) (i : nat) (d : A) :
  nth i (tl l) d = nth (S i) l d.
Proof. destruct l; simpl; [destruct i|]; reflexivity. Qed.

Lemma open_interface_run (s : state) :
  Tcp.open_interface s =
  (nth 0 (w_opens s) OpenRaises, set_w_opens (tl (w_opens s)) s, [EvOpen]).
Proof.
  unfold Tcp.open_interface. destruct s as [ops ? ? ? ? ? ? ? ? ? ? ? ? ? ? ?].
  destruct ops; reflexivity.
Qed.

(** The loop of [connect] from attempt [a] on, with [n] attempts left of
    which the first [k] fail. *)
Lemma connect_loop_spec (max_retries : Z) (retry_delay : Q) :
  forall (n a : nat) (s : state) (k : nat),
    Z.of_nat (a + n) = (max_retries + 1)%Z ->
    (forall i, i < k -> attempt_fails s i = true) ->
    (k < n -> attempt_fails s k = false) ->
    k <= n ->
    connect_view (Tcp.connect_loop max_retries retry_delay (seq a n) s)
    = (map (Tcp.current_delay retry_delay) (seq a (Nat.min k (n - 1))), k <? n).
Proof.
  induction n as [|n IH]; intros a s k Han Hfail Hok Hk.
  - assert (k = 0) by lia. subst k. reflexivity.
  - cbn [seq Tcp.connect_loop]. unfold bind at 1. rewrite open_interface_run.
    set (s1 := set_w_opens (tl (w_opens s)) s).
    assert (Hs1 : forall i, attempt_fails s1 i = attempt_fails s (S i)).
    { intro i. unfold attempt_fails, s1. cbn [w_opens set_w_opens]. now rewrite nth_tl. }
    assert (Hlt : (Z.of_nat a <? max_retries)%Z = negb (n =? 0)).
    { destruct (Nat.eqb_spec n 0); cbn [negb].
      - apply Z.ltb_ge. lia.
      - apply Z.ltb_lt. lia. }
    destruct k as [|k].
    + (* this attempt succeeds *)
      assert (H0 : attempt_fails s 0 = false) by (apply Hok; lia).
      unfold attempt_fails in H0.
      destruct (nth 0 (w_opens s) OpenRaises) as [|[| |my_id]]; try discriminate.
      destruct my_id; reflexivity.
    + (* this attempt fails; the remaining ones are covered by the hypothesis *)
      assert (H0 : attempt_fails s 0 = true) by (apply Hfail; lia).
      assert (Hrec : forall s2, (forall i, attempt_fails s2 i = attempt_fails s (S i)) ->
                connect_view (Tcp.connect_loop max_retries retry_delay (seq (S a) n) s2)
                = (map (Tcp.current_delay retry_delay) (seq (S a) (Nat.min k (n - 1))),
                   k <? n)).
      { intros s2 Hs2. apply IH.
        - lia.
        - intros i Hi. rewrite Hs2. apply Hfail. lia.
        - intros Hi. rewrite Hs2. apply Hok. lia.
        - lia. }
      assert (Hstep : forall (s2 : state) (pre : list event),
                (forall i, attempt_fails s2 i = attempt_fails s (S i)) ->
                backoff_waits pre = [] ->
                connect_view
                  (let '(b, s3, ev) :=
                     (if (Z.of_nat a <? max_retries)%Z
                      then sleep Backoff (Tcp.current_delay retry_delay a) ;;
                           Tcp.connect_loop max_retries retry_delay (seq (S a) n)
                      else ret false) s2 in
                   (b, s3, pre ++ ev))
                = (map (Tcp.current_delay retry_delay) (seq a (Nat.min (S k) (S n - 1))),
                   S k <? S n)).
      { intros s2 pre Hs2 Hpre. rewrite Hlt.
        destruct (Nat.eqb_spec n 0) as [->|Hn]; cbn [negb].
        - unfold connect_view, ret, events, result. cbn [fst snd].
          rewrite app_nil_r, Hpre. reflexivity.
        - specialize (Hrec s2 Hs2).
          unfold bind, sleep, emit.
          destruct (Tcp.connect_loop max_retries retry_delay (seq (S a) n) s2)
            as [[b s3] ev] eqn:E.
          unfold connect_view, events, result in Hrec |- *. cbn [fst snd] in Hrec |- *.
          injection Hrec as Hw Hr.
          unfold backoff_waits in *. rewrite flat_map_app, Hpre. cbn [app flat_map].
          rewrite Hw, Hr. replace (S n - 1) with (S (n - 1)) by lia.
          reflexivity. }
      unfold attempt_fails in H0.
      destruct (nth 0 (w_opens s) OpenRaises) as [|sess].
      * apply (Hstep s1 [EvOpen] Hs1). reflexivity.
      * set (s2 := set_tcp_interface (Some sess) s1).
        assert (Hs2 : forall i, attempt_fails s2 i = attempt_fails s (S i))
          by (intro i; rewrite <- Hs1; reflexivity).
        destruct sess as [| |my_id]; [| |discriminate].
        -- specialize (Hstep s2 [EvOpen; EvSleep Settle (Tcp.wait_time a); EvClose] Hs2 eq_refl).
           revert Hstep. destruct (Z.of_nat a <? max_retries)%Z.
           ++ unfold bind, sleep, emit, modify. fold s2.
              destruct (Tcp.connect_loop max_retries retry_delay (seq (S a) n) s2)
                as [[b s3] ev]. exact (fun H => H).
           ++ unfold bind, sleep, emit, modify, ret. fold s2.
              unfold connect_view, events, result. cbn [fst snd app backoff_waits flat_map].
              exact (fun H => H).
        -- specialize (Hstep s2 [EvOpen; EvSleep Settle (Tcp.wait_time a); EvClose] Hs2 eq_refl).
           revert Hstep. destruct (Z.of_nat a <? max_retries)%Z.
           ++ unfold bind, sleep, emit, modify. fold s2.
              destruct (Tcp.connect_loop max_retries retry_delay (seq (S a) n) s2)
                as [[b s3] ev]. exact (fun H => H).
           ++ unfold bind, sleep, emit, modify, ret. fold s2.
              unfold connect_view, events, result. cbn [fst snd app backoff_waits flat_map].
              exact (fun H => H).
Qed.




(** [connect] leaves the send script and the channel list alone, and a
    successful return leaves a live interface behind. *)
Lemma connect_loop_inv (max_retries : Z) (retry_delay : Q) :
  forall (attempts : list nat) (s s' : state) (b : bool) (ev : list event),
    Tcp.connect_loop max_retries retry_delay attempts s = (b, s', ev) ->
    w_sends s' = w_sends s
    /\ w_channels s' = w_channels s
    /\ (b = true -> Tcp.interface_alive s' = true).
Proof.
  induction attempts as [|a rest IH]; intros s s' b ev H.
  - cbn in H. injection H as <- <- <-. repeat split; discriminate.
  - cbn [Tcp.connect_loop] in H. unfold bind at 1 in H. rewrite open_interface_run in H.
    destruct (nth 0 (w_opens s) OpenRaises) as [|[| |my_id]];
      try destruct (Z.of_nat a <? max_retries)%Z;
      unfold bind, sleep, emit, modify, ret in H;
      try (match type of H with
           | context [Tcp.connect_loop ?m ?d ?l ?s2] =>
               destruct (Tcp.connect_loop m d l s2) as [[b0 s3] e3] eqn:E;
               injection H as <- <- <-; apply IH in E; exact E
           end);
      try (injection H as <- <- <-; repeat split; discriminate).
    all: destruct my_id; injection H as <- <- <-; repeat split; reflexivity.
Qed.

Lemma ensure_connected_alive (s : state) (n : Z) :
  Tcp.interface_alive s = true -> Tcp._ensure_connected n s = (true, s, []).
Proof.
  intros H. unfold Tcp._ensure_connected, bind, get. rewrite H. reflexivity.
Qed.

Lemma ensure_connected_inv (s s' : state) (n : Z) (b : bool) (ev : list event) :
  Tcp._ensure_connected n s = (b, s', ev) ->
  w_sends s' = w_sends s
  /\ w_channels s' = w_channels s
  /\ (b = true -> Tcp.interface_alive s' = true).
Proof.
  destruct (Tcp.interface_alive s) eqn:Ha.
  - rewrite ensure_connected_alive by exact Ha. intros H. injection H as <- <- <-. auto.
  - unfold Tcp._ensure_connected, bind, get. rewrite Ha. unfold Tcp.connect.
    destruct (Tcp.connect_loop n 2%Q (seq 0 (Z.to_nat (n + 1))) s) as [[b0 s3] e3] eqn:E.
    intros H. injection H as <- <- <-. apply connect_loop_inv in E. exact E.
Qed.

(** * Outbound Link: sending *)

Lemma sendText_run (s : state) (sess : session) (c : pystr) (d : option pyval)
    (i : option nat) :
  tcp_interface s = Some sess ->
  Tcp.sendText c d i s
  = (nth 0 (w_sends s) SendOk, set_w_sends (tl (w_sends s)) s, [EvSendText c d i]).
Proof.
  intros H. unfold Tcp.sendText. rewrite H.
  destruct s as [? sends ? ? ? ? ? ? ? ? ? ? ? ? ? ?]. destruct sends; reflexivity.
Qed.

(** The chunk loop of [send_message] when the [j+1]-th [sendText]
    raises: it stops there, having handed the first [j+1] frames to
    the session, and reports what was raised. *)
Lemma send_chunks_stops (n : nat) (to_id : pyval) (sess : session) (o : send_outcome) :
  o <> SendOk ->
  forall (j : nat) (ichunks : list (nat * pystr)) (s : state) (rest : list send_outcome),
    tcp_interface s = Some sess ->
    w_sends s = repeat SendOk j ++ o :: rest ->
    j < List.length ichunks ->
    exists s' ev,
      Tcp.send_chunks n to_id ichunks s = (o, s', ev)
      /\ w_sends s' = rest
      /\ tcp_interface s' = Some sess
      /\ sent_texts ev
         = map (fun ic => Tcp.frame n (fst ic) (snd ic)) (firstn (S j) ichunks).
Proof.
  intros Ho.
  induction j as [|j IH]; intros ichunks s rest Hi Hs Hj;
    destruct ichunks as [|[i chunk] ichunks]; cbn [List.length] in Hj; try lia.
  - cbn [Tcp.send_chunks]. unfold bind. rewrite (@sendText_run _ sess _ _ _ Hi), Hs.
    cbn [repeat app nth tl].
    destruct o; [contradiction | |]; eexists _, _; repeat split; exact Hi.
  - cbn [Tcp.send_chunks]. unfold bind at 1. rewrite (@sendText_run _ sess _ _ _ Hi), Hs.
    cbn [repeat app nth tl].
    set (s1 := set_w_sends (repeat SendOk j ++ o :: rest) s).
    destruct (IH ichunks s1 rest) as (s' & ev & E & Hw & Ht & Hev);
      [exact Hi | reflexivity | lia |].
    unfold bind.
    destruct ((1 <? n) && (i <? n - 1)); unfold sleep, emit, ret; rewrite E;
      eexists _, _; (split; [reflexivity|]); repeat split; auto;
      cbn [app sent_texts flat_map firstn map fst snd];
      fold (sent_texts ev); rewrite Hev; reflexivity.
Qed.

(** C10: when a [sendText] of the chunk loop of [send_message] raises a
    transport reset (the first [j] having succeeded) and
    [_ensure_connected] holds again, the retry is one single [sendText]
    of the whole original text: the last event of the call, after the
    [j+1] frames the loop had handed over, with no chunk prefix and no
    re-splitting however long the text is.  The call returns what that
    one retry yields. *)
Theorem send_message_retry_unsplit (s s1 : state) (ev1 : list event)
    (message : pystr) (to_id : pyval) (j : nat) (rest : list send_outcome) :
  Tcp._ensure_connected 2 s = (true, s1, ev1) ->
  w_sends s = repeat SendOk j ++ SendReset :: rest ->
  j < List.length (Tcp.split_chunks message) ->
  exists loop_events,
    events (Tcp.send_message message to_id s)
    = ev1 ++ loop_events ++ [EvSendText message (Tcp.retry_target to_id) None]
    /\ sent_texts loop_events = firstn (S j) (frames message)
    /\ result (Tcp.send_message message to_id s) = retry_result (nth 0 rest SendOk).
Proof.
  intros He Hs Hj.
  destruct (@ensure_connected_inv _ _ _ _ _ He) as (Hw & _ & Ha). specialize (Ha eq_refl).
  assert (Hi : exists sess, tcp_interface s1 = Some sess).
  { unfold Tcp.interface_alive in Ha. destruct (tcp_interface s1); [eauto | discriminate]. }
  destruct Hi as [sess Hi].
  set (chunks := Tcp.split_chunks message) in *.
  destruct (@send_chunks_stops (List.length chunks) to_id sess SendReset
              ltac:(discriminate) j
              (combine (seq 0 (List.length chunks)) chunks) s1 rest)
    as (s2 & ev2 & E & Hw2 & Hi2 & Hev2).
  { exact Hi. }
  { rewrite Hw. exact Hs. }
  { rewrite length_combine, length_seq, Nat.min_id. exact Hj. }
  assert (Ha2 : Tcp.interface_alive s2 = true).
  { unfold Tcp.interface_alive in Ha |- *. rewrite Hi in Ha. rewrite Hi2. exact Ha. }
  exists ev2.
  assert (Erun : Tcp.send_message message to_id s
                 = (retry_result (nth 0 rest SendOk), set_w_sends (tl rest) s2,
                    ev1 ++ ev2 ++ [EvSendText message (Tcp.retry_target to_id) None])).
  { unfold Tcp.send_message. unfold bind at 1. rewrite He. cbn [negb].
    fold chunks. unfold bind at 1. rewrite E.
    unfold bind at 1. rewrite (@ensure_connected_alive s2 2%Z Ha2).
    unfold bind. rewrite (@sendText_run _ sess _ _ _ Hi2), Hw2.
    destruct (nth 0 rest SendOk); unfold ret; cbn [app retry_result];
      rewrite ?app_nil_r; reflexivity. }
  rewrite Erun. cbn [events result fst snd]. repeat split.
  rewrite Hev2. unfold frames. fold chunks. rewrite firstn_map. reflexivity.
Qed.

(** A 400-character text to a named node: the first frame is reset, the
    retry carries all 400 characters in one call. *)
Lemma send_message_retry_unsplit_witness :
  let message := repeat 97%N 400 in
  let to_id := PStr (py "!abc") in
  let s := set_w_sends [SendReset; SendOk] st_up in
  Tcp._ensure_connected 2 s = (true, s, [])
  /\ 0 < List.length (Tcp.split_chunks message)
  /\ exists loop_events,
      events (Tcp.send_message message to_id s)
      = [] ++ loop_events ++ [EvSendText message (Some to_id) None]
      /\ sent_texts loop_events = firstn 1 (frames message)
      /\ result (Tcp.send_message message to_id s) = true.
Proof.
  cbn zeta. split; [reflexivity|]. split; [vm_compute; lia|].
  apply (@send_message_retry_unsplit
           (set_w_sends [SendReset; SendOk] st_up)
           (set_w_sends [SendReset; SendOk] st_up) []
           (repeat 97%N 400) (PStr (py "!abc")) 0 [SendOk]).
  - reflexivity.
  - reflexivity.
  - vm_compute. lia.
Defined.

(** ** Chunking *)

Lemma firstn_add_skipn {A : Type} (a b : nat) (l : list A) :
  firstn (a + b) l = firstn a l ++ firstn b (skipn a l).
Proof.
  revert l. induction a as [|a IH]; intros l; [reflexivity|].
  destruct l as [|x l]; cbn [Nat.add firstn skipn app].
  - now rewrite firstn_nil.
  - now rewrite IH.
Qed.

(** Consecutive slices of width [c] from position [a * c] on put the text back together. *)
Lemma concat_slices {A : Type} (c : nat) (l : list A) :
  forall n a,
    List.concat (map (fun k => firstn c (skipn (k * c) l)) (seq a n))
    = firstn (n * c) (skipn (a * c) l).
Proof.
  induction n as [|n IH]; intros a; [reflexivity|].
  cbn [seq map List.concat]. rewrite IH. cbn [Nat.mul].
  rewrite firstn_add_skipn, skipn_skipn.
  replace (c + a * c) with (S a * c) by (cbn; lia). reflexivity.
Qed.

(** The chunks of a text: one when it has at most 190 characters,
    otherwise ceil(L/190); each of at most 190 characters; together
    they are the text. *)
Lemma split_chunks_spec (message : pystr) :
  let L := List.length message in
  List.length (Tcp.split_chunks message) = (if L <=? 190 then 1 else (L + 189) / 190)
  /\ Forall (fun chunk => List.length chunk <= 190) (Tcp.split_chunks message)
  /\ List.concat (Tcp.split_chunks message) = message.
Proof.
  cbn zeta. unfold Tcp.split_chunks, Tcp.max_chunk_size.
  destruct (Nat.leb_spec (List.length message) 190) as [Hle|Hgt].
  - repeat split.
    + constructor; [exact Hle | constructor].
    + cbn. apply app_nil_r.
  - unfold Tcp.range_step. rewrite map_map. repeat split.
    + rewrite length_map, length_seq.
      replace (List.length message + 190 - 1) with (List.length message + 189) by lia.
      reflexivity.
    + apply Forall_forall. intros chunk Hin. apply in_map_iff in Hin.
      destruct Hin as (k & <- & _). unfold slice.
      replace (k * 190 + 190 - k * 190) with 190 by lia. apply firstn_le_length.
    + erewrite map_ext.
      * rewrite (concat_slices 190 message _ 0). cbn [Nat.mul skipn].
        apply firstn_all2.
        pose proof (Nat.div_mod_eq (List.length message + 190 - 1) 190) as Hd.
        pose proof (Nat.mod_upper_bound (List.length message + 190 - 1) 190) as Hm.
        lia.
      * intros k. cbn beta. unfold slice.
        replace (k * 190 + 190 - k * 190) with 190 by lia. reflexivity.
Qed.

(** A frame carries the chunk behind a prefix exactly when there is
    more than one chunk. *)
Lemma frame_spec (n i : nat) (chunk : pystr) :
  Tcp.frame n i chunk
  = if 1 <? n
    then py "[" ++ str_of_nat (i + 1) ++ py "/" ++ str_of_nat n ++ py "] " ++ chunk
    else chunk.
Proof.
  unfold Tcp.frame, Tcp.chunk_prefix. destruct (1 <? n); [|reflexivity].
  now rewrite <- !app_assoc.
Qed.

(** The chunk loop of [send_message] when every [sendText] succeeds. *)
Lemma send_chunks_ok (n : nat) (to_id : pyval) (sess : session) :
  forall (ichunks : list (nat * pystr)) (s : state),
    tcp_interface s = Some sess ->
    (forall i, i < List.length ichunks -> nth i (w_sends s) SendOk = SendOk) ->
    exists s' ev,
      Tcp.send_chunks n to_id ichunks s = (SendOk, s', ev)
      /\ sent_texts ev = map (fun ic => Tcp.frame n (fst ic) (snd ic)) ichunks.
Proof.
  induction ichunks as [|[i chunk] ichunks IH]; intros s Hi Hs.
  - eexists _, _. split; reflexivity.
  - cbn [Tcp.send_chunks]. unfold bind at 1. rewrite (@sendText_run _ sess _ _ _ Hi).
    rewrite (Hs 0) by (cbn; lia).
    set (s1 := set_w_sends (tl (w_sends s)) s).
    destruct (IH s1) as (s' & ev & E & Hev).
    + exact Hi.
    + intros k Hk. unfold s1. cbn [w_sends set_w_sends]. rewrite nth_tl.
      apply Hs. cbn. lia.
    + unfold bind.
      destruct ((1 <? n) && (i <? n - 1)); unfold sleep, emit, ret; rewrite E;
        eexists _, _; (split; [reflexivity|]);
        cbn [app sent_texts flat_map map fst snd];
        fold (sent_texts ev); rewrite Hev; reflexivity.
Qed.

(** [send_message] on a live session that accepts every frame: the
    frames of the text are sent in order, one [sendText] each, and the
    call succeeds. *)
Lemma send_message_sends_frames (s : state) (message : pystr) (to_id : pyval) :
  Tcp.interface_alive s = true ->
  (forall i, i < List.length (Tcp.split_chunks message) -> nth i (w_sends s) SendOk = SendOk) ->
  sent_texts (events (Tcp.send_message message to_id s)) = frames message
  /\ result (Tcp.send_message message to_id s) = true.
Proof.
  intros Ha Hs.
  assert (Hi : exists sess, tcp_interface s = Some sess).
  { unfold Tcp.interface_alive in Ha. destruct (tcp_interface s); [eauto | discriminate]. }
  destruct Hi as [sess Hi].
  destruct (@send_chunks_ok (List.length (Tcp.split_chunks message)) to_id sess
              (combine (seq 0 (List.length (Tcp.split_chunks message)))
                       (Tcp.split_chunks message)) s Hi)
    as (s' & ev & E & Hev).
  { intros i. rewrite length_combine, length_seq, Nat.min_id. apply Hs. }
  assert (Erun : Tcp.send_message message to_id s = (true, s', ev)).
  { unfold Tcp.send_message. unfold bind at 1.
    rewrite (@ensure_connected_alive s 2%Z Ha). cbn [negb].
    unfold bind. rewrite E. cbn [app ret]. rewrite app_nil_r. reflexivity. }
  rewrite Erun. split; [exact Hev | reflexivity].
Qed.

(** C5 at a failing input: 200 copies of U+00E9.  The text has 200
    characters and 400 bytes.  It goes out as two frames, "[1/2] " with
    the first 190 characters and "[2/2] " with the last 10: the first
    chunk is 380 bytes on the wire, twice the 190 bytes a chunk may
    carry, and there are two chunks where a split by bytes makes
    three. *)
Theorem send_message_chunk_exceeds_190_bytes :
  let message := repeat 233%N 200 in
  utf8_len message = 400
  /\ sent_texts (events (Tcp.send_message message PNone st_up))
     = [py "[1/2] " ++ repeat 233%N 190; py "[2/2] " ++ repeat 233%N 10]
  /\ utf8_len (repeat 233%N 190) = 380.
Proof. vm_compute. repeat split. Qed.

(** ** Transport resets *)

(** [send_message]: an exception that is not a transport reset ends the
    call at once with failure; nothing is sent after it. *)
Lemma send_message_error_no_retry (s : state) (message : pystr) (to_id : pyval)
    (j : nat) (rest : list send_outcome) :
  Tcp.interface_alive s = true ->
  w_sends s = repeat SendOk j ++ SendError :: rest ->
  j < List.length (Tcp.split_chunks message) ->
  sent_texts (events (Tcp.send_message message to_id s)) = firstn (S j) (frames message)
  /\ result (Tcp.send_message message to_id s) = false.
Proof.
  intros Ha Hs Hj.
  assert (Hi : exists sess, tcp_interface s = Some sess).
  { unfold Tcp.interface_alive in Ha. destruct (tcp_interface s); [eauto | discriminate]. }
  destruct Hi as [sess Hi].
  set (chunks := Tcp.split_chunks message) in *.
  destruct (@send_chunks_stops (List.length chunks) to_id sess SendError
              ltac:(discriminate) j
              (combine (seq 0 (List.length chunks)) chunks) s rest)
    as (s2 & ev2 & E & _ & _ & Hev2).
  { exact Hi. }
  { exact Hs. }
  { rewrite length_combine, length_seq, Nat.min_id. exact Hj. }
  assert (Erun : Tcp.send_message message to_id s = (false, s2, ev2)).
  { unfold Tcp.send_message. unfold bind at 1.
    rewrite (@ensure_connected_alive s 2%Z Ha). cbn [negb].
    fold chunks. unfold bind. rewrite E. cbn [app ret]. rewrite app_nil_r. reflexivity. }
  rewrite Erun. cbn [events result fst snd]. split; [|reflexivity].
  rewrite Hev2. unfold frames. fold chunks. rewrite firstn_map. reflexivity.
Qed.

Section ChannelSend.

Variable str_lower : pystr -> pystr.

(** The chunk loop of [send_to_channel] never lengthens the send
    script, and a transport reset has been read from it. *)
Lemma send_channel_chunks_script (n channel_num : nat) :
  forall (ichunks : list (nat * pystr)) (s s' : state) (r : send_outcome)
         (ev : list event),
    Tcp.send_channel_chunks n channel_num ichunks s = (r, s', ev) ->
    List.length (w_sends s') <= List.length (w_sends s)
    /\ (r = SendReset -> List.length (w_sends s') < List.length (w_sends s)).
Proof.
  induction ichunks as [|[i chunk] ichunks IH]; intros s s' r ev H.
  - cbn in H. injection H as <- <- <-. split; [lia | discriminate].
  - cbn [Tcp.send_channel_chunks] in H. unfold bind at 1 in H.
    unfold Tcp.sendText in H.
    destruct (tcp_interface s) as [sess|].
    + destruct (w_sends s) as [|o sends] eqn:Hs.
      * unfold bind in H.
        destruct (i <? n - 1); unfold sleep, emit, ret in H;
          destruct (Tcp.send_channel_chunks n channel_num ichunks s)
            as [[r0 s0] ev0] eqn:E;
          injection H as <- <- <-; apply IH in E; rewrite Hs in E; exact E.
      * destruct o.
        -- unfold bind in H.
           destruct (i <? n - 1); unfold sleep, emit, ret in H;
             destruct (Tcp.send_channel_chunks n channel_num ichunks (set_w_sends sends s))
               as [[r0 s0] ev0] eqn:E;
             injection H as <- <- <-; apply IH in E;
             cbn [w_sends set_w_sends List.length] in E |- *; split; intros; lia.
        -- unfold bind, ret in H. injection H as <- <- <-.
           cbn [w_sends set_w_sends List.length]. split; intros; lia.
        -- unfold bind, ret in H. injection H as <- <- <-.
           cbn [w_sends set_w_sends List.length]. split; [lia | discriminate].
    + unfold bind, ret in H. injection H as <- <- <-. split; [lia | discriminate].
Qed.

(** [send_to_channel] returns: with more fuel than the send script is
    long, the recursion ends before the fuel does. *)
Lemma send_to_channel_rec_total (message channel_name : pystr) :
  forall (fuel : nat) (s : state),
    List.length (w_sends s) < fuel ->
    exists b s' ev,
      Tcp.send_to_channel_rec str_lower fuel message channel_name s = (Some b, s', ev).
Proof.
  induction fuel as [|fuel IH]; intros s Hlen; [lia|].
  cbn [Tcp.send_to_channel_rec]. unfold bind at 1.
  destruct (Tcp._ensure_connected 2 s) as [[ok s1] ev1] eqn:E1.
  destruct (@ensure_connected_inv _ _ _ _ _ E1) as (Hw1 & _ & _).
  destruct ok; cbn [negb]; [|unfold ret; eauto].
  unfold bind at 1, get. unfold bind at 1.
  destruct (Tcp.send_channel_chunks _ _ _ s1) as [[r s2] ev2] eqn:E2.
  destruct (send_channel_chunks_script _ _ _ _ E2) as (Hle & Hlt).
  destruct r; try (unfold ret; eauto).
  unfold bind at 1.
  destruct (Tcp._ensure_connected 2 s2) as [[ok' s3] ev3] eqn:E3.
  destruct (@ensure_connected_inv _ _ _ _ _ E3) as (Hw3 & _ & _).
  destruct ok'; [|unfold ret; eauto].
  destruct (IH s3) as (b & s4 & ev4 & E4).
  { specialize (Hlt eq_refl). rewrite Hw3. rewrite Hw1 in Hlt. lia. }
  rewrite E4. eauto.
Qed.

(** [send_to_channel] on a live session whose [sendText] raises a
    transport reset [k] times before it accepts: the call goes round
    [k] times, so a short text is handed to the session [k + 1] times,
    and the call succeeds.  Nothing bounds [k]. *)
Lemma send_to_channel_rec_resets (message channel_name : pystr) :
  List.length message <= 190 ->
  forall (k fuel : nat) (s : state),
    k < fuel ->
    Tcp.interface_alive s = true ->
    w_sends s = repeat SendReset k ->
    exists s',
      Tcp.send_to_channel_rec str_lower fuel message channel_name s
      = (Some true, s',
         repeat (EvSendText message None
                   (Some (Tcp.resolve_channel str_lower (w_channels s) channel_name)))
                (S k)).
Proof.
  intros Hlen.
  assert (Hchunks : Tcp.split_chunks message = [message]).
  { unfold Tcp.split_chunks, Tcp.max_chunk_size.
    destruct (Nat.leb_spec (List.length message) 190); [reflexivity | lia]. }
  induction k as [|k IH]; intros fuel s Hf Ha Hs;
    (destruct fuel as [|fuel]; [lia|]);
    assert (Hi : exists sess, tcp_interface s = Some sess)
      by (unfold Tcp.interface_alive in Ha; destruct (tcp_interface s);
          [eauto | discriminate]);
    destruct Hi as [sess Hi];
    cbn [Tcp.send_to_channel_rec]; unfold bind at 1;
    rewrite (@ensure_connected_alive s 2%Z Ha); cbn [negb];
    unfold bind at 1, get; rewrite Hchunks; cbn [List.length seq combine];
    cbn [Tcp.send_channel_chunks]; unfold bind at 1; unfold bind at 1;
    rewrite (@sendText_run _ sess _ _ _ Hi), Hs; cbn [repeat nth tl].
  - cbn. eexists. reflexivity.
  - unfold ret at 1. unfold bind at 1.
    set (s1 := set_w_sends (repeat SendReset k) s).
    assert (Ha1 : Tcp.interface_alive s1 = true) by exact Ha.
    rewrite (@ensure_connected_alive s1 2%Z Ha1).
    destruct (IH fuel s1) as (s' & E); [lia | exact Ha1 | reflexivity |].
    rewrite E. eexists. reflexivity.
Qed.

(** The same for the call itself: the fuel it starts with covers every
    reset of the script. *)
Lemma send_to_channel_retries_every_reset (message channel_name : pystr) (k : nat)
    (s : state) :
  List.length message <= 190 ->
  Tcp.interface_alive s = true ->
  w_sends s = repeat SendReset k ->
  result (Tcp.send_to_channel str_lower message channel_name s) = true
  /\ sent_texts (events (Tcp.send_to_channel str_lower message channel_name s))
     = repeat message (S k).
Proof.
  intros Hlen Ha Hs. unfold Tcp.send_to_channel.
  destruct (@send_to_channel_rec_resets message channel_name Hlen k
              (S (List.length (w_sends s))) s) as (s' & E);
    [rewrite Hs, repeat_length; lia | exact Ha | exact Hs |].
  rewrite E. cbn [result events fst snd]. split; [reflexivity|].
  generalize (S k). intros n. induction n as [|n IH]; [reflexivity|].
  cbn [repeat sent_texts flat_map app]. fold (sent_texts
    (repeat (EvSendText message None
               (Some (Tcp.resolve_channel str_lower (w_channels s) channel_name))) n)).
  now rewrite IH.
Qed.

End ChannelSend.

(** C4 at a failing input: [send_to_channel("reply", "LLM")] on a live
    session with channels [(0, "Primary"), (2, "LLM")] whose [sendText]
    raises a transport reset twice and then accepts.  The call retries
    twice, three [sendText] calls in all, and reports success, where a
    retry bounded to one would have reported failure after the second
    reset. *)
Theorem send_to_channel_retries_twice :
  let s := set_w_sends [SendReset; SendReset] st_llm in
  result (Tcp.send_to_channel ascii_lower (py "reply") (py "LLM") s) = true
  /\ events (Tcp.send_to_channel ascii_lower (py "reply") (py "LLM") s)
     = [EvSendText (py "reply") None (Some 2);
        EvSendText (py "reply") None (Some 2);
        EvSendText (py "reply") None (Some 2)].
Proof. vm_compute. split; reflexivity. Qed.

(** * Which link an operation uses *)

Section Only.

Variable p : event -> bool.

Lemma only_ret {A : Type} (a : A) : only p (ret a).
Proof. intros s. reflexivity. Qed.

Lemma only_get : only p get.
Proof. intros s. reflexivity. Qed.

Lemma only_modify (f : state -> state) : only p (modify f).
Proof. intros s. reflexivity. Qed.

Lemma only_emit (e : event) : p e = true -> only p (emit e).
Proof. intros H s. cbn. now rewrite H. Qed.

Lemma only_bind {A B : Type} (m : M A) (f : A -> M B) :
  only p m -> (forall a, only p (f a)) -> only p (bind m f).
Proof.
  intros Hm Hf s. unfold bind. specialize (Hm s).
  destruct (m s) as [[a s1] e1]. specialize (Hf a s1).
  destruct (f a s1) as [[b s2] e2]. cbn [events snd] in *.
  rewrite forallb_app, Hm, Hf. reflexivity.
Qed.

End Only.

(** Goals of the form [only p m], by the shape of [m]. *)
Ltac only_step :=
  match goal with
  | |- only _ (bind _ _) => apply only_bind
  | |- only _ (ret _) => apply only_ret
  | |- only _ get => apply only_get
  | |- only _ (modify _) => apply only_modify
  | |- only _ (emit _) => apply only_emit; reflexivity
  | |- only _ (sleep _ _) => apply only_emit; reflexivity
  | |- only _ (if ?b then _ else _) => destruct b
  | |- only _ (match ?x with _ => _ end) => destruct x
  | |- forall _, _ => intro
  end.

Lemma only_open_interface : only is_tcp_event Tcp.open_interface.
Proof. intros s. unfold Tcp.open_interface. destruct (w_opens s); reflexivity. Qed.

Lemma only_sendText (c : pystr) (d : option pyval) (i : option nat) :
  only is_tcp_event (Tcp.sendText c d i).
Proof.
  intros s. unfold Tcp.sendText.
  destruct (tcp_interface s); [destruct (w_sends s)|]; reflexivity.
Qed.

Lemma only_connect_loop (max_retries : Z) (retry_delay : Q) (attempts : list nat) :
  only is_tcp_event (Tcp.connect_loop max_retries retry_delay attempts).
Proof.
  induction attempts as [|a rest IH]; cbn [Tcp.connect_loop].
  - apply only_ret.
  - apply only_bind; [apply only_open_interface|].
    repeat first [exact IH | only_step].
Qed.

Lemma only_ensure_connected (n : Z) : only is_tcp_event (Tcp._ensure_connected n).
Proof.
  unfold Tcp._ensure_connected, Tcp.connect.
  repeat first [apply only_connect_loop | only_step].
Qed.

Lemma only_send_chunks (n : nat) (to_id : pyval) (ichunks : list (nat * pystr)) :
  only is_tcp_event (Tcp.send_chunks n to_id ichunks).
Proof.
  induction ichunks as [|[i chunk] rest IH]; cbn [Tcp.send_chunks].
  - apply only_ret.
  - apply only_bind; [apply only_sendText|].
    repeat first [exact IH | only_step].
Qed.

Lemma only_send_message (message : pystr) (to_id : pyval) :
  only is_tcp_event (Tcp.send_message message to_id).
Proof.
  unfold Tcp.send_message.
  repeat first [apply only_ensure_connected | apply only_send_chunks
               | apply only_sendText | only_step].
Qed.

Lemma only_send_channel_chunks (n channel_num : nat) (ichunks : list (nat * pystr)) :
  only is_tcp_event (Tcp.send_channel_chunks n channel_num ichunks).
Proof.
  induction ichunks as [|[i chunk] rest IH]; cbn [Tcp.send_channel_chunks].
  - apply only_ret.
  - apply only_bind; [apply only_sendText|].
    repeat first [exact IH | only_step].
Qed.

Lemma only_send_to_channel_rec (str_lower : pystr -> pystr) (message channel_name : pystr)
    (fuel : nat) :
  only is_tcp_event (Tcp.send_to_channel_rec str_lower fuel message channel_name).
Proof.
  induction fuel as [|fuel IH]; cbn [Tcp.send_to_channel_rec].
  - apply only_ret.
  - repeat first [exact IH | apply only_ensure_connected
                 | apply only_send_channel_chunks | only_step].
Qed.

Lemma only_send_to_channel (str_lower : pystr -> pystr) (message channel_name : pystr) :
  only is_tcp_event (Tcp.send_to_channel str_lower message channel_name).
Proof.
  intros s. unfold Tcp.send_to_channel.
  pose proof (@only_send_to_channel_rec str_lower message channel_name
                (S (List.length (w_sends s))) s) as H.
  destruct (Tcp.send_to_channel_rec _ _ _ _ s) as [[r s'] ev]. exact H.
Qed.

Lemma only_publish (py_topic : pystr) (payload : pyval) :
  only is_mqtt_event (Mqtt.publish py_topic payload).
Proof.
  intros s. unfold Mqtt.publish.
  destruct (mqtt_client s); [destruct (w_publishes s)|]; reflexivity.
Qed.

Lemma only_on_connect_accepted (startup : bool) :
  only is_mqtt_event (Mqtt.on_connect_accepted startup).
Proof.
  unfold Mqtt.on_connect_accepted, Mqtt.request_node_info, Mqtt.send_broadcast.
  repeat first [apply only_publish | only_step].
Qed.

Lemma only_mqtt_connect : only is_mqtt_event Mqtt.connect.
Proof.
  intros s. unfold Mqtt.connect.
  destruct (w_mqtt_connects s) as [|[|] rest]; try reflexivity.
  pose proof (only_on_connect_accepted false
                (set_mqtt_client (Some true) (set_w_mqtt_connects rest s))) as H.
  destruct (Mqtt.on_connect_accepted false _) as [[u s'] ev]. exact H.
Qed.

Lemma only_publish_to_llm_response_channel (cfg : config) (data : pyval) :
  only is_mqtt_event (Mqtt.publish_to_llm_response_channel cfg data).
Proof.
  unfold Mqtt.publish_to_llm_response_channel.
  repeat first [apply only_publish | apply only_mqtt_connect | only_step].
Qed.

(** * Router: the reply policy *)

Lemma forallb_weaken {A : Type} (p q : A -> bool) (l : list A) :
  (forall x, p x = true -> q x = true) -> forallb p l = true -> forallb q l = true.
Proof.
  intros Hpq. induction l as [|x l IH]; [reflexivity|]. cbn.
  intros H. apply andb_prop in H. destruct H as [Hx Hl].
  now rewrite (Hpq _ Hx), IH.
Qed.

Lemma only_run {A : Type} (p : event -> bool) (m : M A) (s s' : state) (a : A)
    (ev : list event) :
  only p m -> m s = (a, s', ev) -> forallb p ev = true.
Proof. intros H E. specialize (H s). now rewrite E in H. Qed.

Lemma router_log_quiet (p : event -> bool) (ev : list event) :
  (forall e, p e = true -> is_router_event e = false) ->
  forallb p ev = true -> router_log ev = [].
Proof.
  intros Hp. induction ev as [|e ev IH]; [reflexivity|]. cbn [forallb].
  intros H. apply andb_prop in H. destruct H as [He Hev].
  unfold router_log. cbn [filter]. rewrite (Hp _ He). exact (IH Hev).
Qed.

Lemma tcp_not_router (e : event) : is_tcp_event e = true -> is_router_event e = false.
Proof. destruct e; cbn; congruence. Qed.

Lemma mqtt_not_router (e : event) : is_mqtt_event e = true -> is_router_event e = false.
Proof. destruct e; cbn; congruence. Qed.

Lemma tcp_not_mqtt (e : event) : is_tcp_event e = true -> negb (is_mqtt_event e) = true.
Proof. destruct e; cbn; congruence. Qed.

Lemma mqtt_not_tcp (e : event) : is_mqtt_event e = true -> negb (is_tcp_event e) = true.
Proof. destruct e; cbn; congruence. Qed.

Lemma never_reversed_no_tcp (ev : list event) :
  forallb (fun e => negb (is_tcp_event e)) ev = true -> never_reversed ev = true.
Proof.
  induction ev as [|e ev IH]; [reflexivity|]. cbn.
  intros H. apply andb_prop in H. destruct H as [_ Hev].
  rewrite (IH Hev), Hev. now destruct (is_mqtt_event e).
Qed.

Lemma never_reversed_app (a b : list event) :
  forallb (fun e => negb (is_mqtt_event e)) a = true ->
  never_reversed b = true ->
  never_reversed (a ++ b) = true.
Proof.
  induction a as [|e a IH]; [auto|]. cbn.
  intros H Hb. apply andb_prop in H. destruct H as [He Ha].
  rewrite (IH Ha Hb). apply negb_true_iff in He. now rewrite He.
Qed.

Section Policy.

Variable str_lower : pystr -> pystr.
Variable cfg : config.

(** The broker fallback: broker events only, closed by the Router's
    record of how the publish went. *)
Lemma mqtt_fallback_events (response : pystr) (from_id : pyval) (s : state) :
  exists ev_pub b,
    events (Hybrid._send_response_via_mqtt_llm_channel cfg response from_id s)
    = ev_pub ++ [EvMqttFallback b]
    /\ forallb is_mqtt_event ev_pub = true.
Proof.
  unfold Hybrid._send_response_via_mqtt_llm_channel, bind at 1, get. unfold bind.
  match goal with
  | |- context [Mqtt.publish_to_llm_response_channel cfg ?d s] =>
      destruct (Mqtt.publish_to_llm_response_channel cfg d s) as [[b s1] ev1] eqn:E
  end.
  exists ev1, b. unfold emit. cbn [events snd app]. split; [reflexivity|].
  exact (@only_run _ _ _ _ _ _ _ (@only_publish_to_llm_response_channel cfg _) E).
Qed.

(** The part of the reply policy that follows the direct or broadcast
    send: nothing unless the message came from the dedicated channel
    and a response topic is configured; otherwise a channel send, and
    the broker fallback exactly when that send failed. *)
Lemma send_to_response_channel_events (response : pystr) (from_id : pyval)
    (is_llm_channel : bool) (s : state) :
  let ev := events (Hybrid.send_to_response_channel str_lower cfg response from_id
                      is_llm_channel s) in
  never_reversed ev = true
  /\ match (if is_llm_channel && use_llm_channel cfg
            then llm_response_channel cfg else None) with
     | Some (c :: t) =>
         router_log ev = [EvChannelResponse (Hybrid.channel_name_of (c :: t)) true]
         \/ exists b,
             router_log ev
             = [EvChannelResponse (Hybrid.channel_name_of (c :: t)) false; EvMqttFallback b]
     | _ => router_log ev = []
     end.
Proof.
  cbn zeta. unfold Hybrid.send_to_response_channel.
  destruct (is_llm_channel && use_llm_channel cfg); [|split; reflexivity].
  destruct (llm_response_channel cfg) as [[|c t]|]; try (split; reflexivity).
  set (name := Hybrid.channel_name_of (c :: t)).
  unfold bind, emit.
  destruct (Tcp.send_to_channel str_lower response name s) as [[ok s1] ev1] eqn:E1.
  pose proof (@only_run _ _ _ _ _ _ _ (@only_send_to_channel str_lower response name) E1) as Htcp.
  destruct ok.
  - unfold ret. cbn [events snd app]. split.
    + apply never_reversed_app; [|reflexivity].
      exact (@forallb_weaken _ _ _ _ tcp_not_mqtt Htcp).
    + left. unfold router_log. rewrite filter_app.
      fold (router_log ev1). rewrite (@router_log_quiet _ _ tcp_not_router Htcp).
      reflexivity.
  - destruct (mqtt_fallback_events response from_id s1) as (ev_pub & b & E2 & Hpub).
    destruct (Hybrid._send_response_via_mqtt_llm_channel cfg response from_id s1)
      as [[u s2] ev2].
    cbn [events snd] in E2. subst ev2. cbn [events snd app]. split.
    + apply never_reversed_app.
      * exact (@forallb_weaken _ _ _ _ tcp_not_mqtt Htcp).
      * apply never_reversed_no_tcp. cbn [forallb is_tcp_event negb andb].
        rewrite forallb_app. cbn [forallb is_tcp_event negb andb].
        rewrite (@forallb_weaken _ _ _ _ mqtt_not_tcp Hpub). reflexivity.
    + right. exists b. unfold router_log. rewrite filter_app.
      fold (router_log ev1). rewrite (@router_log_quiet _ _ tcp_not_router Htcp).
      cbn [app filter is_router_event]. rewrite filter_app.
      fold (router_log ev_pub). rewrite (@router_log_quiet _ _ mqtt_not_router Hpub).
      reflexivity.
Qed.

End Policy.

Section Replies.

Variable str_lower : pystr -> pystr.
Variable cfg : config.

(** The retry loop around the direct or broadcast send, from attempt
    [a] on with [n] attempts left. *)
Lemma send_response_loop_events (response : pystr) (from_id to_id : pyval)
    (is_direct is_llm_channel : bool) :
  forall (n a : nat) (s : state),
    a + n = 3 -> 1 <= n ->
    exists ev sends,
      events (Hybrid.send_response_loop str_lower cfg (seq a n) response from_id to_id
                is_direct is_llm_channel s) = ev
      /\ never_reversed ev = true
      /\ 1 <= List.length sends <= n
      /\ policy_shape cfg is_llm_channel (router_log ev) sends.
Proof.
  induction n as [|n IH]; intros a s Han Hn; [lia|].
  cbn [seq Hybrid.send_response_loop].
  set (target := if private_mode cfg || is_direct then from_id else PNone).
  replace (if private_mode cfg || is_direct
           then Tcp.send_message response from_id
           else Tcp.send_message response PNone)
    with (Tcp.send_message response target)
    by (unfold target; destruct (private_mode cfg || is_direct); reflexivity).
  unfold bind, emit.
  destruct (Tcp.send_message response target s) as [[ok s1] ev1] eqn:E1.
  pose proof (@only_run _ _ _ _ _ _ _ (@only_send_message response target) E1) as Htcp.
  assert (Hlog : forall rest,
             router_log (ev1 ++ EvTcpResponse ok :: rest)
             = EvTcpResponse ok :: router_log rest).
  { intros rest. unfold router_log. rewrite filter_app.
    fold (router_log ev1). rewrite (@router_log_quiet _ _ tcp_not_router Htcp).
    reflexivity. }
  assert (Hrev : forall rest, never_reversed rest = true ->
                              never_reversed (ev1 ++ EvTcpResponse ok :: rest) = true).
  { intros rest Hrest. apply never_reversed_app.
    - exact (@forallb_weaken _ _ _ _ tcp_not_mqtt Htcp).
    - cbn [never_reversed is_mqtt_event andb]. exact Hrest. }
  destruct (negb ok && (a <? 2)) eqn:Hretry.
  - (* another attempt *)
    apply andb_prop in Hretry. destruct Hretry as [_ Ha]. apply Nat.ltb_lt in Ha.
    destruct (IH (S a) s1) as (ev & sends & E & Hr & Hlen & Hshape); [lia | lia |].
    destruct (Hybrid.send_response_loop _ _ _ _ _ _ _ _ s1) as [[u s2] ev2].
    cbn [events snd] in E. subst ev2.
    exists (ev1 ++ EvTcpResponse ok :: ev), (ok :: sends).
    cbn [events snd app List.length]. repeat split.
    + apply Hrev. exact Hr.
    + lia.
    + lia.
    + rewrite Hlog. unfold policy_shape in *.
      destruct (if is_llm_channel && use_llm_channel cfg
                then llm_response_channel cfg else None) as [[|c t]|];
        cbn [map app].
      * now rewrite Hshape.
      * destruct Hshape as [Hs|[b Hs]]; [left | right; exists b]; now rewrite Hs.
      * now rewrite Hshape.
  - (* on to the response channel *)
    pose proof (@send_to_response_channel_events str_lower cfg response from_id
                  is_llm_channel s1) as Hch.
    cbn zeta in Hch. destruct Hch as [Hr Hshape].
    destruct (Hybrid.send_to_response_channel _ _ _ _ _ s1) as [[u s2] ev2].
    cbn [events snd] in Hr, Hshape.
    exists (ev1 ++ EvTcpResponse ok :: ev2), [ok].
    cbn [events snd app List.length]. repeat split.
    + apply Hrev. exact Hr.
    + lia.
    + lia.
    + rewrite Hlog. unfold policy_shape.
      destruct (if is_llm_channel && use_llm_channel cfg
                then llm_response_channel cfg else None) as [[|c t]|];
        cbn [map app].
      * now rewrite Hshape.
      * destruct Hshape as [Hs|[b Hs]]; [left | right; exists b]; now rewrite Hs.
      * now rewrite Hshape.
Qed.

(** The channel part as the code runs it is the channel part as the
    policy words it. *)
Lemma send_to_response_channel_log (response : pystr) (from_id : pyval)
    (is_llm_channel : bool) (s : state) :
  events (Hybrid.send_to_response_channel str_lower cfg response from_id is_llm_channel s)
  = channel_reply_log str_lower cfg response from_id
      (response_route cfg is_llm_channel) s.
Proof.
  unfold Hybrid.send_to_response_channel, response_route, channel_reply_log.
  destruct (is_llm_channel && use_llm_channel cfg); [|reflexivity].
  destruct (llm_response_channel cfg) as [[|c t]|]; try reflexivity.
  cbv zeta. unfold bind at 1.
  destruct (Tcp.send_to_channel str_lower response (Hybrid.channel_name_of (c :: t)) s)
    as [[ok s1] ev1].
  cbn [result final events fst snd]. unfold bind at 1, emit.
  destruct ok.
  - reflexivity.
  - unfold Hybrid._send_response_via_mqtt_llm_channel, bind, get, emit.
    match goal with
    | |- context [Mqtt.publish_to_llm_response_channel cfg ?d s1] =>
        destruct (Mqtt.publish_to_llm_response_channel cfg d s1) as [[b s2] ev2]
    end.
    cbn [result final events fst snd app]. reflexivity.
Qed.

(** The retry loop, from attempt [a] on with [n] attempts left: some
    number of sends in a row, all failed but possibly the last, and the
    last one successful when attempts were left; then the channel
    part. *)
Lemma send_response_loop_log (response : pystr) (from_id to_id : pyval)
    (is_direct is_llm_channel : bool) :
  forall (n a : nat) (s : state),
    a + n = 3 -> 1 <= n ->
    exists k last_ok,
      1 <= k <= n
      /\ map result
           (calls_in_a_row
              (Tcp.send_message response
                 (if private_mode cfg || is_direct then from_id else PNone)) k s)
         = repeat false (k - 1) ++ [last_ok]
      /\ (k < n -> last_ok = true)
      /\ events (Hybrid.send_response_loop str_lower cfg (seq a n) response from_id to_id
                   is_direct is_llm_channel s)
         = reply_policy_log str_lower cfg response from_id is_llm_channel
             (Tcp.send_message response
                (if private_mode cfg || is_direct then from_id else PNone)) k s.
Proof.
  set (send := Tcp.send_message response
                 (if private_mode cfg || is_direct then from_id else PNone)).
  induction n as [|n IH]; intros a s Han Hn; [lia|].
  cbn [seq Hybrid.send_response_loop].
  replace (if private_mode cfg || is_direct
           then Tcp.send_message response from_id
           else Tcp.send_message response PNone)
    with send
    by (unfold send; destruct (private_mode cfg || is_direct); reflexivity).
  unfold bind, emit.
  destruct (send s) as [[ok s1] ev1] eqn:E1.
  destruct (negb ok && (a <? 2)) eqn:Hretry.
  - (* another attempt *)
    apply andb_prop in Hretry. destruct Hretry as [Hok Ha].
    apply Nat.ltb_lt in Ha. apply negb_true_iff in Hok. subst ok.
    destruct (IH (S a) s1) as (k & b & Hk & Hres & Hlast & Hev); [lia | lia |].
    destruct (Hybrid.send_response_loop _ _ _ _ _ _ _ _ s1) as [[u s2] ev2].
    cbn [events snd] in Hev. subst ev2.
    exists (S k), b. split; [lia|]. split; [|split].
    + cbn [calls_in_a_row map]. rewrite E1. cbn [final result fst snd]. rewrite Hres.
      destruct k as [|k]; [lia|]. cbn [Nat.sub repeat app].
      rewrite Nat.sub_0_r. reflexivity.
    + intros H. apply Hlast. lia.
    + unfold reply_policy_log.
      cbn [calls_in_a_row state_after_calls flat_map]. rewrite E1.
      cbn [final result events fst snd]. rewrite <- !app_assoc. reflexivity.
  - (* on to the response channel *)
    pose proof (@send_to_response_channel_log response from_id is_llm_channel s1) as Hch.
    destruct (Hybrid.send_to_response_channel _ _ _ _ _ s1) as [[u s2] ev2].
    cbn [events snd] in Hch. subst ev2.
    exists 1, ok. split; [lia|]. split; [|split].
    + cbn [calls_in_a_row map]. rewrite E1. reflexivity.
    + intros H. assert (Ha : (a <? 2) = true) by (apply Nat.ltb_lt; lia).
      rewrite Ha, andb_true_r in Hretry. now apply negb_false_iff in Hretry.
    + unfold reply_policy_log.
      cbn [calls_in_a_row state_after_calls flat_map]. rewrite E1.
      cbn [final result events fst snd app]. rewrite app_nil_r, <- !app_assoc.
      reflexivity.
Qed.

Lemma quiet_open_interface : only no_channel_traffic Tcp.open_interface.
Proof. intros s. unfold Tcp.open_interface. destruct (w_opens s); reflexivity. Qed.

Lemma quiet_sendText (c : pystr) (d : option pyval) :
  only no_channel_traffic (Tcp.sendText c d None).
Proof.
  intros s. unfold Tcp.sendText.
  destruct (tcp_interface s); [destruct (w_sends s)|]; reflexivity.
Qed.

Lemma quiet_connect_loop (max_retries : Z) (retry_delay : Q) (attempts : list nat) :
  only no_channel_traffic (Tcp.connect_loop max_retries retry_delay attempts).
Proof.
  induction attempts as [|a rest IH]; cbn [Tcp.connect_loop].
  - apply only_ret.
  - apply only_bind; [apply quiet_open_interface|].
    repeat first [exact IH | only_step].
Qed.

Lemma quiet_ensure_connected (n : Z) : only no_channel_traffic (Tcp._ensure_connected n).
Proof.
  unfold Tcp._ensure_connected, Tcp.connect.
  repeat first [apply quiet_connect_loop | only_step].
Qed.

Lemma quiet_send_chunks (n : nat) (to_id : pyval) (ichunks : list (nat * pystr)) :
  only no_channel_traffic (Tcp.send_chunks n to_id ichunks).
Proof.
  induction ichunks as [|[i chunk] rest IH]; cbn [Tcp.send_chunks].
  - apply only_ret.
  - apply only_bind; [apply quiet_sendText|].
    repeat first [exact IH | only_step].
Qed.

(** [send_message] names no channel index and leaves the broker alone. *)
Lemma quiet_send_message (message : pystr) (to_id : pyval) :
  only no_channel_traffic (Tcp.send_message message to_id).
Proof.
  unfold Tcp.send_message.
  repeat first [apply quiet_ensure_connected | apply quiet_send_chunks
               | apply quiet_sendText | only_step].
Qed.

Lemma quiet_send_response_loop (response : pystr) (from_id to_id : pyval)
    (is_direct is_llm_channel : bool) :
  response_route cfg is_llm_channel = None ->
  forall attempts : list nat,
    only no_channel_traffic
      (Hybrid.send_response_loop str_lower cfg attempts response from_id to_id
         is_direct is_llm_channel).
Proof.
  intros Hroute.
  assert (Hch : only no_channel_traffic
                  (Hybrid.send_to_response_channel str_lower cfg response from_id
                     is_llm_channel)).
  { unfold Hybrid.send_to_response_channel. unfold response_route in Hroute.
    destruct (is_llm_channel && use_llm_channel cfg); [|apply only_ret].
    destruct (llm_response_channel cfg) as [[|c t]|];
      [apply only_ret | discriminate Hroute | apply only_ret]. }
  induction attempts as [|a rest IH]; cbn [Hybrid.send_response_loop].
  - apply only_ret.
  - repeat first [exact IH | exact Hch | apply quiet_send_message | only_step].
Qed.

Lemma quiet_log (ev : list event) :
  forallb no_channel_traffic ev = true ->
  publishes ev = [] /\ Forall (fun call => snd call = None) (send_calls ev).
Proof.
  induction ev as [|e ev IH]; [split; [reflexivity | constructor]|].
  cbn [forallb]. intros H. apply andb_prop in H. destruct H as [He Hev].
  destruct (IH Hev) as [Hp Hs].
  unfold publishes, send_calls in *. cbn [flat_map].
  destruct e as [| | | chunk dest [idx|] | | | | | |];
    try discriminate He; cbn [app]; split; try assumption.
  constructor; [reflexivity | assumption].
Qed.

End Replies.

(** C1 (as the code has it): for every reply, on a device session that
    stops resetting, the Router first makes between one and three
    direct or broadcast sends over the Outbound Link, stopping at the
    first that succeeds.  Then, if the message came from the dedicated
    channel, the channel is enabled and a response topic is configured,
    it attempts Outbound [send_to_channel] with the reply, and exactly
    when that attempt fails it falls back to the Inbound Link's
    response-topic publish, to which it hands the reply: the log of the
    reply is the log of these calls, each followed by the Router's
    record of its result, and of nothing else.  With no response topic
    configured, and for a message of any other origin, neither
    happens: nothing is published and no send names a channel.  The
    broker session is never followed by the device session: the
    fallback is not reversed. *)
Theorem reply_policy (str_lower : pystr -> pystr) (cfg : config) (response : pystr)
    (sender_id recipient_id : pyval) (direct dedicated : bool) (s : state) :
  let run := Hybrid._send_response_via_tcp str_lower cfg response
               sender_id recipient_id direct dedicated s in
  let send := Tcp.send_message response
                (if private_mode cfg || direct then sender_id else PNone) in
  (exists sends,
      1 <= List.length sends <= 3
      /\ policy_shape cfg dedicated (router_log (events run)) sends)
  /\ never_reversed (events run) = true
  /\ (exists k last_ok,
        1 <= k <= 3
        /\ map result (calls_in_a_row send k s) = repeat false (k - 1) ++ [last_ok]
        /\ (k < 3 -> last_ok = true)
        /\ events run
           = reply_policy_log str_lower cfg response sender_id dedicated send k s)
  /\ (response_route cfg dedicated = None ->
      publishes (events run) = []
      /\ Forall (fun call => snd call = None) (send_calls (events run))).
Proof.
  cbv zeta. unfold Hybrid._send_response_via_tcp.
  destruct (@send_response_loop_events str_lower cfg response sender_id recipient_id
              direct dedicated 3 0 s) as (ev & sends & E & Hr & Hlen & Hshape);
    [reflexivity | lia |].
  split; [exists sends; rewrite E; auto|]. split; [rewrite E; exact Hr|]. split.
  - destruct (@send_response_loop_log str_lower cfg response sender_id recipient_id
                direct dedicated 3 0 s eq_refl ltac:(lia))
      as (k & b & Hk & Hres & Hlast & Hev).
    exists k, b. auto.
  - intros Hroute. apply quiet_log.
    apply (@quiet_send_response_loop str_lower cfg response sender_id recipient_id
             direct dedicated Hroute (seq 0 3) s).
Qed.

(** C1 (as stated) fails: a message arrives on the dedicated topic, the
    Responder answers "ok", and the Bridge, which has the dedicated
    channel enabled and no response topic, replies with one direct send
    and stops: no [send_to_channel], no fallback. *)
Lemma reply_without_response_topic :
  let msg := {| Mqtt.msg_topic := py "msh/US/2/json/llm/";
                Mqtt.msg_payload := py "hello";
                Mqtt.msg_json := None |} in
  events (Hybrid.on_message ascii_lower no_repr cfg_no_response msg st_bridge)
  = [EvRespond {| text := PStr (py "hello"); from_id := PStr (py "unknown");
                  to_id := PStr (py "broadcast"); sender := PStr (py "unknown");
                  channel := PNone; packet_id := PNone;
                  is_direct := true; is_llm_channel := true |};
     EvSendText (py "ok") (Some (PStr (py "unknown"))) None;
     EvTcpResponse true].
Proof. vm_compute. reflexivity. Qed.

(** * Bridge: connecting *)

Section Keeps.

Variable X : Type.
Variable f : state -> X.

Lemma keeps_ret {A : Type} (a : A) : keeps f (ret a).
Proof. intros s. reflexivity. Qed.

Lemma keeps_get : keeps f get.
Proof. intros s. reflexivity. Qed.

Lemma keeps_emit (e : event) : keeps f (emit e).
Proof. intros s. reflexivity. Qed.

Lemma keeps_modify (g : state -> state) : (forall s, f (g s) = f s) -> keeps f (modify g).
Proof. intros H s. apply H. Qed.

Lemma keeps_bind {A B : Type} (m : M A) (k : A -> M B) :
  keeps f m -> (forall a, keeps f (k a)) -> keeps f (bind m k).
Proof.
  intros Hm Hk s. unfold bind. specialize (Hm s).
  destruct (m s) as [[a s1] e1]. specialize (Hk a s1).
  destruct (k a s1) as [[b s2] e2]. cbn [final fst snd] in *. congruence.
Qed.

End Keeps.

Ltac keeps_step :=
  match goal with
  | |- keeps _ (bind _ _) => apply keeps_bind
  | |- keeps _ (ret _) => apply keeps_ret
  | |- keeps _ get => apply keeps_get
  | |- keeps _ (emit _) => apply keeps_emit
  | |- keeps _ (sleep _ _) => apply keeps_emit
  | |- keeps _ (modify _) => apply keeps_modify; intro; reflexivity
  | |- keeps _ (if ?b then _ else _) => destruct b
  | |- keeps _ (match ?x with _ => _ end) => destruct x
  | |- forall _, _ => intro
  end.

Lemma keeps_open_interface : keeps hyb_connected Tcp.open_interface.
Proof. intros s. unfold Tcp.open_interface. destruct (w_opens s); reflexivity. Qed.

Lemma keeps_sendText (c : pystr) (d : option pyval) (i : option nat) :
  keeps hyb_connected (Tcp.sendText c d i).
Proof.
  intros s. unfold Tcp.sendText.
  destruct (tcp_interface s); [destruct (w_sends s)|]; reflexivity.
Qed.

Lemma keeps_connect_loop (max_retries : Z) (retry_delay : Q) (attempts : list nat) :
  keeps hyb_connected (Tcp.connect_loop max_retries retry_delay attempts).
Proof.
  induction attempts as [|a rest IH]; cbn [Tcp.connect_loop].
  - apply keeps_ret.
  - apply keeps_bind; [apply keeps_open_interface|].
    repeat first [exact IH | keeps_step].
Qed.

Lemma keeps_ensure_connected (n : Z) : keeps hyb_connected (Tcp._ensure_connected n).
Proof.
  unfold Tcp._ensure_connected, Tcp.connect.
  repeat first [apply keeps_connect_loop | keeps_step].
Qed.

Lemma keeps_send_chunks (n : nat) (to_id : pyval) (ichunks : list (nat * pystr)) :
  keeps hyb_connected (Tcp.send_chunks n to_id ichunks).
Proof.
  induction ichunks as [|[i chunk] rest IH]; cbn [Tcp.send_chunks].
  - apply keeps_ret.
  - apply keeps_bind; [apply keeps_sendText|].
    repeat first [exact IH | keeps_step].
Qed.

Lemma keeps_send_message (message : pystr) (to_id : pyval) :
  keeps hyb_connected (Tcp.send_message message to_id).
Proof.
  unfold Tcp.send_message.
  repeat first [apply keeps_ensure_connected | apply keeps_send_chunks
               | apply keeps_sendText | keeps_step].
Qed.

Lemma keeps_publish (py_topic : pystr) (payload : pyval) :
  keeps hyb_connected (Mqtt.publish py_topic payload).
Proof.
  intros s. unfold Mqtt.publish.
  destruct (mqtt_client s); [destruct (w_publishes s)|]; reflexivity.
Qed.

Lemma keeps_send_to_llm_channel (py_repr : pyval -> pystr) (cfg : config) (payload : pyval) :
  keeps hyb_connected (Mqtt.send_to_llm_channel py_repr cfg payload).
Proof.
  unfold Mqtt.send_to_llm_channel.
  repeat first [apply keeps_publish | keeps_step].
Qed.

Lemma keeps_send_startup_messages (py_repr : pyval -> pystr) (cfg : config) :
  keeps hyb_connected (Hybrid.send_startup_messages py_repr cfg).
Proof.
  unfold Hybrid.send_startup_messages.
  repeat first [apply keeps_send_message | apply keeps_send_to_llm_channel | keeps_step].
Qed.

(** C7: the Bridge's [connect] returns what the Inbound Link's
    [connect] returns: failure whenever the Inbound Link fails to
    connect, success whenever it connects, whatever the Outbound Link
    does (its scripts are part of [s] and do not show in the result). *)
Theorem bridge_connect_follows_inbound (py_repr : pyval -> pystr) (cfg : config)
    (s : state) :
  result (Hybrid.connect py_repr cfg s) = result (Mqtt.connect s).
Proof.
  assert (K : keeps hyb_connected
                (if send_startup_message cfg
                 then Hybrid.send_startup_messages py_repr cfg else ret tt)).
  { destruct (send_startup_message cfg);
      [apply keeps_send_startup_messages | apply keeps_ret]. }
  unfold Hybrid.connect. unfold bind at 1.
  destruct (Mqtt.connect s) as [[up s1] ev1]. cbn [result fst].
  destruct up; cbn [negb]; [|reflexivity].
  unfold bind at 1.
  destruct (Tcp.connect 4 2%Q s1) as [[tcp_up s2] ev2].
  unfold keeps in K.
  destruct tcp_up; unfold bind, modify, ret, get in K |- *; cbn [andb negb];
    match goal with
    | |- context [(if send_startup_message cfg then _ else _) ?s5] =>
        specialize (K s5);
        destruct ((if send_startup_message cfg
                   then Hybrid.send_startup_messages py_repr cfg
                   else fun s0 : state => (tt, s0, [])) s5) as [[u s6] ev6]
    end;
    cbn [final fst snd] in K |- *; rewrite K; reflexivity.
Qed.

(** Degraded mode: the broker answers, the device never does, and
    [connect] still reports success. *)
Example bridge_connect_degraded :
  let s := set_w_mqtt_connects [true] st0 in
  result (Tcp.connect 4 2%Q s) = false
  /\ result (Hybrid.connect no_repr cfg0 s) = true.
Proof. vm_compute. split; reflexivity. Qed.

(** * Bridge: the startup banner *)

(** The banner of [send_startup_messages] has the marker's wording
    after its first characters, and goes on after it. *)
Lemma startup_banner_wording (cfg : config) :
  exists notes,
    Hybrid.startup_message cfg
    = Hybrid.banner_lead ++ py " LLM Agent is now online"
      ++ py " and ready for conversations!" ++ notes.
Proof.
  eexists. unfold Hybrid.startup_message.
  change (py " LLM Agent is now online and ready for conversations!")
    with (py " LLM Agent is now online" ++ py " and ready for conversations!").
  rewrite <- !app_assoc. reflexivity.
Qed.

(** C9 at a failing input: the Bridge's own banner.  The filter of line
    312 tests [text.startswith(marker)], and the marker is the symbol
    U+1F4E2 followed by " LLM Agent is now online".  The banner has the
    same wording, but its literal starts with the four characters
    U+00F0 U+0178 U+201C U+00A2 where the symbol should be, so under no
    configuration does the banner start with the marker, let alone
    equal it; arriving as plain text on the dedicated topic, the banner
    of config.py passes the filter and the Responder is called on
    it.  The startup broadcast of the Inbound Link itself (line 159)
    is the marker as it stands. *)
Theorem startup_banner_escapes_echo_filter :
  let banner := Hybrid.startup_message cfg0 in
  let echo := {| Mqtt.msg_topic := py "msh/US/2/json/llm/";
                 Mqtt.msg_payload := banner;
                 Mqtt.msg_json := None |} in
  Mqtt.startup_marker = [128226%N] ++ py " LLM Agent is now online"
  /\ banner
     = [240%N; 376%N; 8220%N; 162%N]
       ++ py " LLM Agent is now online"
       ++ py " and ready for conversations! (Listening on channel: msh/US/2/json/llm/)"
  /\ (forall cfg : config,
        startswith (Hybrid.startup_message cfg) Mqtt.startup_marker = false
        /\ Hybrid.startup_message cfg <> Mqtt.startup_marker)
  /\ responder_calls (events (Hybrid.on_message ascii_lower no_repr cfg0 echo st_bridge))
     = [{| text := PStr banner; from_id := PStr (py "unknown");
           to_id := PStr (py "broadcast"); sender := PStr (py "unknown");
           channel := PNone; packet_id := PNone;
           is_direct := true; is_llm_channel := true |}]
  /\ publishes (events (Mqtt.on_connect_accepted true st_bridge))
     = [(py "msh/request/nodeinfo", PStr []); (Mqtt.tx_topic, PStr Mqtt.startup_marker)].
Proof.
  cbv zeta. split; [reflexivity|]. split; [reflexivity|]. split; [|split].
  - intros cfg.
    assert (Hs : startswith (Hybrid.startup_message cfg) Mqtt.startup_marker = false)
      by reflexivity.
    split; [exact Hs|].
    intros E. rewrite E in Hs. vm_compute in Hs. discriminate Hs.
  - vm_compute. reflexivity.
  - reflexivity.
Qed.

(** * Inbound Link: classification on the dedicated channel *)

Section Classification.

Variable py_repr : pyval -> pystr.

(** What lines 306-325 make of the extracted fields. *)
Lemma fields_message (txt sender_id recipient : pyval) (m : message) :
  (if negb (truthy txt) then None
   else match txt with
        | PStr t =>
            if startswith t Mqtt.startup_marker then None
            else Some {| text := txt; from_id := sender_id;
                         to_id := py_or recipient (PStr (py "broadcast"));
                         sender := sender_id; channel := PNone; packet_id := PNone;
                         is_direct := true; is_llm_channel := true |}
        | _ => None
        end) = Some m ->
  is_llm_channel m = true
  /\ is_direct m = true
  /\ exists t, text m = PStr t /\ startswith t Mqtt.startup_marker = false.
Proof.
  destruct (negb (truthy txt)); [discriminate|].
  destruct txt as [| | | |t| |]; try discriminate.
  destruct (startswith t Mqtt.startup_marker) eqn:Hs; [discriminate|].
  intros H. injection H as <-. cbn. eauto.
Qed.

(** Case 1 is taken exactly on the native text shape, and computes
    [is_direct] from the [to] field. *)
Lemma extract_native (msg : Mqtt.mqtt_message) (m : message) :
  Mqtt.extract py_repr msg = Mqtt.Native m ->
  native_text_shape msg = true
  /\ is_llm_channel m = true
  /\ is_direct m = negb (py_eq (to_id m) (PStr (py "broadcast")))
  /\ to_id m
     = PStr (match Mqtt.msg_json msg with
             | Some (PDict d) => Mqtt.py_str py_repr (get_or d (py "to") (PStr (py "broadcast")))
             | _ => []
             end).
Proof.
  unfold Mqtt.extract, native_text_shape.
  destruct (Mqtt.msg_json msg) as [[| | | | | |d]|]; try discriminate.
  unfold Mqtt.extract_json, Mqtt.extract_generic.
  destruct (dict_get d (py "payload")) as [[| | | | | |pl]|];
    try (destruct (has_key d (py "text"));
         [destruct (sliceable (get_or d (py "text") (PStr [])))|]; discriminate).
  destruct (py_eq (get_or d (py "type") (PStr [])) (PStr (py "text"))).
  - destruct (negb (sliceable (get_or pl (py "text") (PStr [])))); [discriminate|].
    destruct (truthy (get_or pl (py "text") (PStr []))); [|discriminate].
    intros H. injection H as <-. cbn [is_llm_channel is_direct to_id andb].
    repeat split.
    set (to_str := Mqtt.py_str py_repr (get_or d (py "to") (PStr (py "broadcast")))).
    change (py_eq (PStr to_str) (PInt 4294967295)) with false.
    cbn [negb]. apply andb_true_r.
  - destruct (py_eq (get_or d (py "type") (PStr [])) (PStr (py "sendtext"))).
    + destruct (sliceable (get_or pl (py "text") (PStr []))); discriminate.
    + destruct (has_key pl (py "text")).
      * destruct (sliceable (get_or pl (py "text") PNone)); discriminate.
      * destruct (has_key d (py "text"));
          [destruct (sliceable (get_or d (py "text") (PStr [])))|]; discriminate.
Qed.

(** Cases 2 to 5 and the plain-text fallback are the other shapes. *)
Lemma extract_fields (msg : Mqtt.mqtt_message) (txt sender_id recipient : pyval) :
  Mqtt.extract py_repr msg = Mqtt.Fields txt sender_id recipient ->
  native_text_shape msg = false.
Proof.
  unfold Mqtt.extract, native_text_shape.
  destruct (Mqtt.msg_json msg) as [[| | | | | |d]|]; try reflexivity.
  unfold Mqtt.extract_json.
  destruct (dict_get d (py "payload")) as [[| | | | | |pl]|];
    try (intros _; apply andb_false_r).
  destruct (py_eq (get_or d (py "type") (PStr [])) (PStr (py "text"))); [|reflexivity].
  destruct (negb (sliceable (get_or pl (py "text") (PStr [])))); [discriminate|].
  destruct (truthy (get_or pl (py "text") (PStr []))); discriminate.
Qed.

End Classification.

(** Where [is_direct] comes from: matchers (b) to (e) and the
    plain-text path go through the message of line 316, which sets it;
    the native text shape (a) builds its own message at line 224 and
    computes the field from [to]. *)
Lemma dedicated_is_direct (py_repr : pyval -> pystr) (msg : Mqtt.mqtt_message)
    (m : message) :
  Mqtt.llm_message py_repr msg = Some m ->
  is_llm_channel m = true
  /\ is_direct m
     = if native_text_shape msg
       then negb (py_eq (to_id m) (PStr (py "broadcast")))
       else true.
Proof.
  unfold Mqtt.llm_message.
  destruct (Mqtt.extract py_repr msg) as [|m'|txt sender_id recipient] eqn:E.
  - discriminate.
  - intros H. injection H as <-.
    destruct (extract_native _ _ E) as (Hs & Hl & Hd & _).
    rewrite Hs. auto.
  - intros H. apply fields_message in H. destruct H as (Hl & Hd & _).
    rewrite (extract_fields _ _ E). auto.
Qed.

(** C6 at a failing input: Scenario 1, a native text message with no
    [to] field on the dedicated topic.  Case 1 builds its own message
    (line 224) with [is_direct] computed from [to], and classifies the
    scenario as not direct, where the message every other shape goes
    through (line 316) sets the field, "Treat LLM channel messages as
    direct": the same text and sender without the [type] field
    (matcher (c)) are direct.  The second test of line 230 compares the
    string [to_id] with the number 4294967295 and never fails: the
    numeric broadcast address counts as direct. *)
Theorem scenario1_is_not_direct :
  let on_topic json := {| Mqtt.msg_topic := py "msh/US/2/json/llm/";
                          Mqtt.msg_payload := py "{...}";
                          Mqtt.msg_json := Some (PDict json) |} in
  Mqtt.llm_message no_repr scenario1
  = Some {| text := PStr (py "hi"); from_id := PStr (py "42");
            to_id := PStr (py "broadcast"); sender := PStr (py "42");
            channel := PNone; packet_id := PNone;
            is_direct := false; is_llm_channel := true |}
  /\ Mqtt.llm_message no_repr
       (on_topic [(py "payload", PDict [(py "text", PStr (py "hi"))]);
                  (py "from", PInt 42)])
     = Some {| text := PStr (py "hi"); from_id := PStr (py "42");
               to_id := PStr (py "broadcast"); sender := PStr (py "42");
               channel := PNone; packet_id := PNone;
               is_direct := true; is_llm_channel := true |}
  /\ Mqtt.llm_message no_repr
       (on_topic [(py "type", PStr (py "text"));
                  (py "payload", PDict [(py "text", PStr (py "hi"))]);
                  (py "from", PInt 42); (py "to", PInt 4294967295)])
     = Some {| text := PStr (py "hi"); from_id := PStr (py "42");
               to_id := PStr (py "4294967295"); sender := PStr (py "42");
               channel := PNone; packet_id := PNone;
               is_direct := true; is_llm_channel := true |}.
Proof. vm_compute. repeat split; reflexivity. Qed.

(** Cases 2 to 5 and plain text: a text that starts with the marker is
    dropped before [_process_message]. *)
Lemma marker_dropped_outside_case1 (py_repr : pyval -> pystr) (msg : Mqtt.mqtt_message)
    (m : message) :
  native_text_shape msg = false ->
  Mqtt.llm_message py_repr msg = Some m ->
  exists t, text m = PStr t /\ startswith t Mqtt.startup_marker = false.
Proof.
  unfold Mqtt.llm_message. intros Hshape.
  destruct (Mqtt.extract py_repr msg) as [|m'|txt sender_id recipient] eqn:E.
  - discriminate.
  - destruct (extract_native _ _ E) as (Hs & _). congruence.
  - intros H. apply fields_message in H. tauto.
Qed.

(** C3 at a failing input: the banner marker itself, as the text of a
    native text message (case 1) on the dedicated topic.  Case 1 hands
    its message to [_process_message] and returns before the echo
    filter of line 312, so the Responder is called on the marker. *)
Theorem native_banner_echo_reaches_responder :
  let msg := {| Mqtt.msg_topic := py "msh/US/2/json/llm/";
                Mqtt.msg_payload :=
                  py "{" ++ quoted "type" ++ py ":" ++ quoted "text" ++ py ","
                  ++ quoted "payload" ++ py ":{" ++ quoted "text" ++ py ":"
                  ++ [34%N] ++ Mqtt.startup_marker ++ [34%N] ++ py "},"
                  ++ quoted "from" ++ py ":42}";
                Mqtt.msg_json :=
                  Some (PDict [(py "type", PStr (py "text"));
                               (py "payload", PDict [(py "text", PStr Mqtt.startup_marker)]);
                               (py "from", PInt 42)]) |} in
  startswith Mqtt.startup_marker Mqtt.startup_marker = true
  /\ responder_calls (events (Hybrid.on_message ascii_lower no_repr cfg0 msg st_bridge))
     = [{| text := PStr Mqtt.startup_marker; from_id := PStr (py "42");
           to_id := PStr (py "broadcast"); sender := PStr (py "42");
           channel := PNone; packet_id := PNone;
           is_direct := false; is_llm_channel := true |}].
Proof. vm_compute. split; reflexivity. Qed.

(** * Feedback suppression *)

Lemma only_weaken {A : Type} (p q : event -> bool) (m : M A) :
  (forall e, p e = true -> q e = true) -> only p m -> only q m.
Proof. intros Hpq H s. exact (@forallb_weaken _ _ _ _ Hpq (H s)). Qed.

Lemma tcp_not_respond (e : event) : is_tcp_event e = true -> not_respond e = true.
Proof. destruct e; cbn; congruence. Qed.

Lemma mqtt_not_respond (e : event) : is_mqtt_event e = true -> not_respond e = true.
Proof. destruct e; cbn; congruence. Qed.

Lemma responder_calls_quiet (ev : list event) :
  forallb not_respond ev = true -> responder_calls ev = [].
Proof.
  induction ev as [|e ev IH]; [reflexivity|]. cbn [forallb].
  intros H. apply andb_prop in H. destruct H as [He Hev].
  unfold responder_calls. cbn [flat_map]. fold (responder_calls ev).
  rewrite (IH Hev). destruct e; try reflexivity; discriminate.
Qed.

Section Feedback.

Variable str_lower : pystr -> pystr.
Variable py_repr : pyval -> pystr.
Variable cfg : config.

(** Sending a reply does not call the Responder. *)
Lemma only_send_response_via_tcp (response : pystr) (sender_id recipient : pyval)
    (direct dedicated : bool) :
  only not_respond
       (Hybrid._send_response_via_tcp str_lower cfg response sender_id recipient
          direct dedicated).
Proof.
  unfold Hybrid._send_response_via_tcp. generalize (seq 0 3).
  induction l as [|a rest IH]; cbn [Hybrid.send_response_loop].
  - apply only_ret.
  - apply only_bind.
    + destruct (private_mode cfg || direct);
        exact (@only_weaken _ is_tcp_event not_respond _ tcp_not_respond (@only_send_message _ _)).
    + intros ok. apply only_bind; [apply only_emit; reflexivity|]. intros _.
      destruct (negb ok && (a <? 2)); [exact IH|].
      unfold Hybrid.send_to_response_channel,
        Hybrid._send_response_via_mqtt_llm_channel.
      repeat first
        [ exact (@only_weaken _ is_tcp_event not_respond _ tcp_not_respond
                   (@only_send_to_channel _ _ _))
        | exact (@only_weaken _ is_mqtt_event not_respond _ mqtt_not_respond
                   (@only_publish_to_llm_response_channel _ _))
        | only_step ].
Qed.

(** The Bridge's handler: it returns [None], and calls the Responder
    at most once, on the message it was given. *)
Lemma handle_mqtt_message_run (m : message) (s : state) :
  exists s' ev,
    Hybrid._handle_mqtt_message str_lower cfg m s = (None, s', ev)
    /\ (responder_calls ev = [] \/ responder_calls ev = [m]).
Proof.
  unfold Hybrid._handle_mqtt_message, bind at 1, get.
  destruct (hyb_callback s) as [message_callback|].
  - destruct (negb (sliceable (text m))).
    + unfold ret. eexists _, _. split; [reflexivity | left; reflexivity].
    + unfold bind at 1, emit.
      destruct (message_callback m) as [[|c response]|].
      * unfold ret. eexists _, _. split; [reflexivity | right; reflexivity].
      * unfold bind.
        pose proof (@only_send_response_via_tcp (c :: response) (from_id m) (to_id m)
                      (is_direct m) (is_llm_channel m) s) as Hq.
        destruct (Hybrid._send_response_via_tcp _ _ _ _ _ _ _ s) as [[u s1] ev1].
        cbn [events snd] in Hq. unfold ret. eexists _, _. split; [reflexivity|].
        right. cbn [app]. unfold responder_calls at 1. cbn [flat_map app].
        rewrite app_nil_r. fold (responder_calls ev1).
        now rewrite (responder_calls_quiet _ Hq).
      * unfold ret. eexists _, _. split; [reflexivity | right; reflexivity].
  - unfold ret. eexists _, _. split; [reflexivity | left; reflexivity].
Qed.

(** [_process_message] inside the Bridge: the Responder is called at
    most once, on the message at hand, and only when its sender is not
    the recorded identity. *)
Lemma process_message_calls (installed : state) (m : message) (s : state) :
  let calls := responder_calls
                 (events (Mqtt._process_message py_repr cfg
                            (Hybrid.installed_callback str_lower cfg installed) m s)) in
  calls = []
  \/ (calls = [m] /\ py_eq (from_id m) (mqtt_my_node_id s) = false).
Proof.
  cbn zeta. unfold Mqtt._process_message.
  destruct (negb (sliceable (text m))); [left; reflexivity|].
  destruct (negb (truthy (text m))); [left; reflexivity|].
  unfold bind, get. cbv beta iota zeta.
  destruct (py_eq (from_id m) (mqtt_my_node_id s)) eqn:Hown;
    [left; reflexivity|].
  destruct (py_eq (from_id m) (PStr (py "llm_agent"))); cbn [orb];
    [left; reflexivity|].
  unfold Hybrid.installed_callback.
  destruct (mqtt_callback installed); [|left; reflexivity].
  destruct (handle_mqtt_message_run m s) as (s' & ev & E & Hcalls).
  rewrite E. unfold ret. cbn [events snd app]. rewrite app_nil_r.
  destruct Hcalls as [-> | ->]; [left; reflexivity | right; split; reflexivity].
Qed.

(** What the Inbound Link hands on is decided before any state changes. *)
Lemma on_message_calls (msg : Mqtt.mqtt_message) (s : state) :
  let calls := responder_calls
                 (events (Hybrid.on_message str_lower py_repr cfg msg s)) in
  calls = []
  \/ exists m, calls = [m] /\ py_eq (from_id m) (mqtt_my_node_id s) = false.
Proof.
  cbn zeta. unfold Hybrid.on_message, bind, get. cbv beta iota zeta.
  cbn [app]. unfold Mqtt._on_message.
  destruct (Mqtt.is_llm_topic cfg (Mqtt.msg_topic msg)).
  - destruct (Mqtt.llm_message py_repr msg) as [m|].
    + pose proof (process_message_calls s m s) as H. cbn zeta in H.
      destruct (Mqtt._process_message _ _ _ m s) as [[u s1] ev1].
      cbn [events snd app] in H |- *.
      destruct H as [H | H]; [left; exact H | right; exists m; exact H].
    + left. reflexivity.
  - destruct (startswith (Mqtt.msg_topic msg) Mqtt.rx_topic_prefix).
    + unfold bind, get, modify.
      destruct (Mqtt.rx_message (mqtt_my_node_id s) msg); left; reflexivity.
    + destruct (startswith (Mqtt.msg_topic msg) Mqtt.nodeinfo_topic_prefix);
        [|left; reflexivity].
      destruct (Mqtt.nodeinfo msg) as [[node_id node_name]|]; [|left; reflexivity].
      unfold bind, modify.
      destruct (py_eq node_name (PStr (py "llm_agent"))); left; reflexivity.
Qed.

Lemma process_queue_calls (s : state) :
  let calls := responder_calls
                 (events (Hybrid.process_queue str_lower py_repr cfg s)) in
  calls = []
  \/ exists m, calls = [m] /\ py_eq (from_id m) (mqtt_my_node_id s) = false.
Proof.
  cbn zeta. unfold Hybrid.process_queue, bind, get. cbv beta iota zeta.
  unfold Mqtt._process_queue, bind, get. cbv beta iota zeta.
  destruct (mqtt_queue s) as [|m rest]; [left; reflexivity|].
  unfold modify. cbv beta iota zeta. cbn [app].
  pose proof (process_message_calls s m (set_mqtt_queue rest s)) as H. cbn zeta in H.
  destruct (Mqtt._process_message _ _ _ m (set_mqtt_queue rest s)) as [[u s1] ev1].
  cbn [events snd app] in H |- *.
  destruct H as [H | H]; [left; exact H | right; exists m; exact H].
Qed.

End Feedback.

(** C8: a message whose [from_id] equals the recorded self-identity
    never reaches the Responder, neither straight from the network
    callback (dedicated channel) nor from the queue worker (regular
    topic): in both the Responder is not called on it. *)
Theorem own_messages_never_reach_responder (str_lower : pystr -> pystr)
    (py_repr : pyval -> pystr) (cfg : config) (s : state) (msg : Mqtt.mqtt_message)
    (m : message) :
  py_eq (from_id m) (mqtt_my_node_id s) = true ->
  ~ In m (responder_calls (events (Hybrid.on_message str_lower py_repr cfg msg s)))
  /\ ~ In m (responder_calls (events (Hybrid.process_queue str_lower py_repr cfg s))).
Proof.
  intros Hown. split; intros Hin.
  - destruct (on_message_calls str_lower py_repr cfg msg s) as [H | (m' & H & Hm')];
      cbn zeta in H; rewrite H in Hin; [exact Hin|].
    destruct Hin as [<- | []]. congruence.
  - destruct (process_queue_calls str_lower py_repr cfg s) as [H | (m' & H & Hm')];
      cbn zeta in H; rewrite H in Hin; [exact Hin|].
    destruct Hin as [<- | []]. congruence.
Qed.

(** The identity "!me" is recorded; a message from "!me" arrives on the
    dedicated topic and another one waits in the queue: the Responder
    sees neither. *)
Lemma own_messages_never_reach_responder_witness :
  py_eq (from_id msg_self) (mqtt_my_node_id st_self) = true
  /\ ~ In msg_self
        (responder_calls
           (events (Hybrid.on_message ascii_lower no_repr cfg0 raw_self st_self)))
  /\ ~ In msg_self
        (responder_calls (events (Hybrid.process_queue ascii_lower no_repr cfg0 st_self))).
Proof.
  split; [reflexivity|].
  apply (@own_messages_never_reach_responder ascii_lower no_repr cfg0 st_self raw_self
           msg_self).
  reflexivity.
Defined.

(** A node-info event whose name is the Bridge's label records the
    node id as the self-identity. *)
Example nodeinfo_records_identity :
  let msg := {| Mqtt.msg_topic := py "msh/+/nodeinfo";
                Mqtt.msg_payload := py "{...}";
                Mqtt.msg_json :=
                  Some (PDict [(py "num", PStr (py "!me"));
                               (py "user", PDict [(py "longName", PStr (py "llm_agent"))])]) |} in
  mqtt_my_node_id (final (Hybrid.on_message ascii_lower no_repr cfg0 msg st_bridge))
  = PStr (py "!me").
Proof. reflexivity. Qed.

(** The same message from another sender does reach the Responder. *)
Example other_sender_reaches_responder :
  responder_calls (events (Hybrid.on_message ascii_lower no_repr cfg0 raw_self st_bridge))
  = [msg_self].
Proof. vm_compute. reflexivity. Qed.

(** * Further properties of the Outbound Link *)

Lemma sent_texts_app (a b : list event) :
  sent_texts (a ++ b) = sent_texts a ++ sent_texts b.
Proof. unfold sent_texts. apply flat_map_app. Qed.

Lemma sent_texts_quiet (ev : list event) :
  forallb not_send ev = true -> sent_texts ev = [].
Proof.
  induction ev as [|e ev IH]; [reflexivity|]. cbn [forallb].
  intros H. apply andb_prop in H. destruct H as [He Hev].
  unfold sent_texts. cbn [flat_map]. fold (sent_texts ev). rewrite (IH Hev).
  destruct e; try reflexivity; discriminate.
Qed.

Lemma only_connect_loop_gen (p : event -> bool) (max_retries : Z) (retry_delay : Q) :
  p EvOpen = true -> p EvClose = true ->
  (forall a, p (EvSleep Settle (Tcp.wait_time a)) = true) ->
  (forall d, p (EvSleep Backoff d) = true) ->
  forall attempts, only p (Tcp.connect_loop max_retries retry_delay attempts).
Proof.
  intros Ho Hc Hs Hb.
  assert (Hopen : only p Tcp.open_interface).
  { intros s. unfold Tcp.open_interface.
    destruct (w_opens s); cbn; rewrite Ho; reflexivity. }
  induction attempts as [|a rest IH]; cbn [Tcp.connect_loop].
  - apply only_ret.
  - apply only_bind; [exact Hopen|].
    repeat first
      [ exact IH
      | apply only_emit; first [exact Hc | apply Hs | apply Hb]
      | only_step ].
Qed.

Lemma only_ensure_connected_gen (p : event -> bool) (n : Z) :
  p EvOpen = true -> p EvClose = true ->
  (forall a, p (EvSleep Settle (Tcp.wait_time a)) = true) ->
  (forall d, p (EvSleep Backoff d) = true) ->
  only p (Tcp._ensure_connected n).
Proof.
  intros Ho Hc Hs Hb. unfold Tcp._ensure_connected, Tcp.connect.
  repeat first [apply only_connect_loop_gen; assumption | only_step].
Qed.

Lemma ensure_connected_no_send (n : Z) (s s' : state) (b : bool) (ev : list event) :
  Tcp._ensure_connected n s = (b, s', ev) -> sent_texts ev = [].
Proof.
  intros E. apply sent_texts_quiet.
  refine (@only_run _ not_send _ _ _ _ _ _ E).
  apply only_ensure_connected_gen; reflexivity.
Qed.

(** Position [i] of the chunk list. *)
Lemma split_chunks_nth (message : pystr) (i : nat) :
  190 < List.length message ->
  i < (List.length message + 189) / 190 ->
  nth i (Tcp.split_chunks message) [] = firstn 190 (skipn (i * 190) message).
Proof.
  intros HL Hi. unfold Tcp.split_chunks, Tcp.max_chunk_size, Tcp.range_step.
  destruct (Nat.leb_spec (List.length message) 190); [lia|].
  rewrite map_map.
  replace (List.length message + 190 - 1) with (List.length message + 189) by lia.
  rewrite (nth_indep _ [] ((fun k => slice message (k * 190) (k * 190 + 190)) 0))
    by (rewrite length_map, length_seq; exact Hi).
  rewrite (map_nth (fun k => slice message (k * 190) (k * 190 + 190))).
  rewrite seq_nth by exact Hi. unfold slice. cbn [Nat.add].
  replace (i * 190 + 190 - i * 190) with 190 by lia. reflexivity.
Qed.

(** X1: the chunks of a text put together are the text; every chunk
    but the last has exactly 190 characters, none has more, and a chunk
    is empty only when the whole text is (the empty text is one empty
    chunk). *)
Theorem split_chunks_partition (message : pystr) :
  List.concat (Tcp.split_chunks message) = message
  /\ Forall (fun chunk => List.length chunk <= 190) (Tcp.split_chunks message)
  /\ (forall i, S i < List.length (Tcp.split_chunks message) ->
       List.length (nth i (Tcp.split_chunks message) []) = 190)
  /\ (forall chunk, In chunk (Tcp.split_chunks message) -> chunk = [] -> message = []).
Proof.
  destruct (split_chunks_spec message) as (Hlen & Hall & Hcat). cbn zeta in Hlen.
  split; [exact Hcat|]. split; [exact Hall|].
  destruct (Nat.leb_spec (List.length message) 190) as [Hle|Hgt].
  - split.
    + intros i Hi. rewrite Hlen in Hi. lia.
    + unfold Tcp.split_chunks, Tcp.max_chunk_size.
      destruct (Nat.leb_spec (List.length message) 190) as [_|Hbad]; [|lia].
      intros chunk [<-|[]] Hnil. exact Hnil.
  - pose proof (Nat.div_mod_eq (List.length message + 189) 190) as Hd.
    pose proof (Nat.mod_upper_bound (List.length message + 189) 190
                  ltac:(discriminate)) as Hm.
    split.
    + intros i Hi.
      assert (Hi' : S i < (List.length message + 189) / 190)
        by exact (eq_ind _ (fun n => S i < n) Hi _ Hlen).
      rewrite split_chunks_nth by lia.
      rewrite length_firstn, length_skipn. lia.
    + intros chunk Hin Hnil. exfalso.
      apply (In_nth _ _ []) in Hin. destruct Hin as (i & Hi & Hnth).
      assert (Hi' : i < (List.length message + 189) / 190)
        by exact (eq_ind _ (fun n => i < n) Hi _ Hlen).
      rewrite split_chunks_nth in Hnth by lia.
      apply (f_equal (@List.length codepoint)) in Hnth.
      rewrite length_firstn, length_skipn, Hnil in Hnth.
      cbn [List.length] in Hnth. lia.
Qed.

Lemma combine_map_self {A B : Type} (h : A -> B) (l : list A) :
  combine l (map h l) = map (fun i => (i, h i)) l.
Proof. induction l as [|x l IH]; [reflexivity|]. cbn. now rewrite IH. Qed.

(** The frames of a text, written out. *)
Lemma frames_explicit (message : pystr) :
  frames message
  = if List.length message <=? 190 then [message]
    else map (fun i =>
                py "[" ++ str_of_nat (i + 1) ++ py "/"
                ++ str_of_nat ((List.length message + 189) / 190) ++ py "] "
                ++ firstn 190 (skipn (i * 190) message))
             (seq 0 ((List.length message + 189) / 190)).
Proof.
  unfold frames, Tcp.split_chunks, Tcp.max_chunk_size, Tcp.range_step.
  destruct (Nat.leb_spec (List.length message) 190) as [Hle|Hgt]; [reflexivity|].
  replace (List.length message + 190 - 1) with (List.length message + 189) by lia.
  set (n := (List.length message + 189) / 190).
  assert (Hn : 2 <= n).
  { unfold n.
    pose proof (Nat.div_mod_eq (List.length message + 189) 190) as Hd.
    pose proof (Nat.mod_upper_bound (List.length message + 189) 190) as Hm. lia. }
  rewrite map_map, length_map, length_seq.
  rewrite combine_map_self, map_map. apply map_ext. intros i. cbn [fst snd].
  rewrite frame_spec. destruct (Nat.ltb_spec 1 n) as [_|]; [|lia].
  unfold slice. replace (i * 190 + 190 - i * 190) with 190 by lia. reflexivity.
Qed.

(** X2: on a session that is up (or comes up) and accepts every frame,
    [send_message] returns True and hands [sendText] exactly this, in
    order: the text itself when it has at most 190 characters, else its
    ceil(L/190) slices of 190 characters, slice [i] behind the prefix
    "[i+1/n] ". *)
Theorem send_message_delivers_frames (s s1 : state) (ev1 : list event)
    (message : pystr) (to_id : pyval) :
  Tcp._ensure_connected 2 s = (true, s1, ev1) ->
  (forall i, i < List.length (Tcp.split_chunks message) ->
             nth i (w_sends s) SendOk = SendOk) ->
  result (Tcp.send_message message to_id s) = true
  /\ sent_texts (events (Tcp.send_message message to_id s))
     = if List.length message <=? 190 then [message]
       else map (fun i =>
                   py "[" ++ str_of_nat (i + 1) ++ py "/"
                   ++ str_of_nat ((List.length message + 189) / 190) ++ py "] "
                   ++ firstn 190 (skipn (i * 190) message))
                (seq 0 ((List.length message + 189) / 190)).
Proof.
  intros He Hs.
  destruct (@ensure_connected_inv _ _ _ _ _ He) as (Hw & _ & Ha). specialize (Ha eq_refl).
  assert (Hi : exists sess, tcp_interface s1 = Some sess).
  { unfold Tcp.interface_alive in Ha. destruct (tcp_interface s1); [eauto | discriminate]. }
  destruct Hi as [sess Hi].
  destruct (@send_chunks_ok (List.length (Tcp.split_chunks message)) to_id sess
              (combine (seq 0 (List.length (Tcp.split_chunks message)))
                       (Tcp.split_chunks message)) s1 Hi)
    as (s' & ev & E & Hev).
  { intros i. rewrite length_combine, length_seq, Nat.min_id, Hw. apply Hs. }
  assert (Erun : Tcp.send_message message to_id s = (true, s', ev1 ++ ev)).
  { unfold Tcp.send_message. unfold bind at 1. rewrite He. cbn [negb].
    unfold bind. rewrite E. cbn [app ret]. rewrite app_nil_r. reflexivity. }
  rewrite Erun. cbn [result events fst snd]. split; [reflexivity|].
  rewrite sent_texts_app, (ensure_connected_no_send _ _ He), Hev. cbn [app].
  exact (frames_explicit message).
Qed.

(** A 200-character text on a live session: two prefixed frames. *)
Lemma send_message_delivers_frames_witness :
  let message := repeat 97%N 200 in
  Tcp._ensure_connected 2 st_up = (true, st_up, [])
  /\ result (Tcp.send_message message PNone st_up) = true
  /\ sent_texts (events (Tcp.send_message message PNone st_up))
     = [py "[1/2] " ++ repeat 97%N 190; py "[2/2] " ++ repeat 97%N 10].
Proof.
  cbn zeta. split; [reflexivity|].
  apply (@send_message_delivers_frames st_up st_up [] (repeat 97%N 200) PNone).
  - reflexivity.
  - intros i _. destruct i; reflexivity.
Defined.

Lemma sendText_count (c : pystr) (d : option pyval) (i : option nat) (s : state) :
  List.length (sent_texts (events (Tcp.sendText c d i s))) <= 1.
Proof.
  unfold Tcp.sendText.
  destruct (tcp_interface s); [destruct (w_sends s)|]; cbn; lia.
Qed.

Lemma send_chunks_count (n : nat) (to_id : pyval) :
  forall (ichunks : list (nat * pystr)) (s s' : state) (r : send_outcome)
         (ev : list event),
    Tcp.send_chunks n to_id ichunks s = (r, s', ev) ->
    List.length (sent_texts ev) <= List.length ichunks.
Proof.
  induction ichunks as [|[i chunk] rest IH]; intros s s' r ev H.
  - cbn in H. injection H as <- <- <-. cbn. lia.
  - cbn [Tcp.send_chunks] in H. unfold bind at 1 in H.
    pose proof (sendText_count (Tcp.frame n i chunk) (Tcp.direct_target to_id) None s) as Hc.
    destruct (Tcp.sendText _ _ _ s) as [[o s1] ev1]. cbn [events snd] in Hc.
    destruct o.
    + unfold bind in H.
      destruct ((1 <? n) && (i <? n - 1)); unfold sleep, emit, ret in H;
        destruct (Tcp.send_chunks n to_id rest s1) as [[r0 s0] ev0] eqn:E;
        injection H as <- <- <-; apply IH in E;
        rewrite !sent_texts_app, !length_app; cbn [sent_texts flat_map List.length app];
        fold (sent_texts ev0); fold (sent_texts ev1); lia.
    + unfold ret in H. injection H as <- <- <-. rewrite app_nil_r. cbn [List.length]. lia.
    + unfold ret in H. injection H as <- <- <-. rewrite app_nil_r. cbn [List.length]. lia.
Qed.

(** X3: whatever the session does, one call of [send_message] calls
    [sendText] at most once per chunk plus once more: there is never a
    second retry. *)
Theorem send_message_send_bound (s : state) (message : pystr) (to_id : pyval) :
  List.length (sent_texts (events (Tcp.send_message message to_id s)))
  <= List.length (Tcp.split_chunks message) + 1.
Proof.
  unfold Tcp.send_message. unfold bind at 1.
  destruct (Tcp._ensure_connected 2 s) as [[ok s1] ev1] eqn:E1.
  pose proof (ensure_connected_no_send _ _ E1) as H1.
  destruct ok; cbn [negb].
  - unfold bind at 1.
    destruct (Tcp.send_chunks _ _ _ s1) as [[r s2] ev2] eqn:E2.
    pose proof (send_chunks_count _ _ _ _ E2) as H2.
    rewrite length_combine, length_seq, Nat.min_id in H2.
    destruct r.
    + unfold ret. cbn [events snd]. rewrite !sent_texts_app, H1, !length_app.
      change (sent_texts []) with (@nil pystr). cbn [app List.length]. lia.
    + unfold bind at 1.
      destruct (Tcp._ensure_connected 2 s2) as [[ok' s3] ev3] eqn:E3.
      pose proof (ensure_connected_no_send _ _ E3) as H3.
      destruct ok'.
      * unfold bind.
        pose proof (sendText_count message (Tcp.retry_target to_id) None s3) as H4.
        destruct (Tcp.sendText message (Tcp.retry_target to_id) None s3) as [[r' s4] ev4].
        cbn [events snd] in H4 |- *.
        destruct r'; unfold ret; cbn [events snd];
          rewrite !sent_texts_app, H1, H3, !length_app;
          cbn [app List.length]; change (sent_texts []) with (@nil pystr);
          cbn [List.length]; lia.
      * unfold ret. cbn [events snd]. rewrite !sent_texts_app, H1, H3, !length_app.
        change (sent_texts []) with (@nil pystr). cbn [app List.length]. lia.
    + unfold ret. cbn [events snd]. rewrite !sent_texts_app, H1, !length_app.
      change (sent_texts []) with (@nil pystr). cbn [app List.length]. lia.
  - unfold ret. cbn [events snd]. rewrite app_nil_r, H1. cbn. lia.
Qed.

(** X4: with no interface object and a device that cannot be reached
    in the three attempts of [_ensure_connected], [send_message] gives
    up: it returns False after waits of 2 and 4 seconds and [sendText]
    is never called. *)
Theorem send_message_unreachable (s : state) (message : pystr) (to_id : pyval) :
  tcp_interface s = None ->
  (forall i, i < 3 -> attempt_fails s i = true) ->
  result (Tcp.send_message message to_id s) = false
  /\ sent_texts (events (Tcp.send_message message to_id s)) = []
  /\ backoff_waits (events (Tcp.send_message message to_id s)) = [2%Q; 4%Q].
Proof.
  intros Hi Hfail.
  assert (Hc : connect_view (Tcp.connect_loop 2 2%Q (seq 0 3) s)
               = (map (Tcp.current_delay 2%Q) (seq 0 (Nat.min 3 (3 - 1))), 3 <? 3)).
  { apply connect_loop_spec; [reflexivity | exact Hfail | lia | lia]. }
  assert (He : Tcp._ensure_connected 2 s = Tcp.connect_loop 2 2%Q (seq 0 3) s).
  { unfold Tcp._ensure_connected, bind, get, Tcp.interface_alive. rewrite Hi.
    unfold Tcp.connect. change (Z.to_nat (2 + 1)) with 3.
    destruct (Tcp.connect_loop 2 2%Q (seq 0 3) s) as [[b s'] ev]. reflexivity. }
  destruct (Tcp.connect_loop 2 2%Q (seq 0 3) s) as [[b s'] ev] eqn:E.
  unfold connect_view in Hc. cbn [events result fst snd] in Hc.
  injection Hc as Hw Hb. subst b. change (3 <? 3) with false in *.
  assert (Erun : Tcp.send_message message to_id s = (false, s', ev)).
  { unfold Tcp.send_message, bind. rewrite He. cbn [negb ret]. rewrite app_nil_r.
    reflexivity. }
  rewrite Erun. cbn [events result fst snd]. repeat split.
  - exact (ensure_connected_no_send _ _ He).
  - exact Hw.
Qed.

(** Nothing connected, nothing answering. *)
Lemma send_message_unreachable_witness :
  tcp_interface st0 = None
  /\ (forall i, i < 3 -> attempt_fails st0 i = true)
  /\ result (Tcp.send_message (py "hello") PNone st0) = false
  /\ sent_texts (events (Tcp.send_message (py "hello") PNone st0)) = []
  /\ backoff_waits (events (Tcp.send_message (py "hello") PNone st0)) = [2%Q; 4%Q].
Proof.
  assert (Hfail : forall i, i < 3 -> attempt_fails st0 i = true)
    by (intros [|i] _; reflexivity).
  split; [reflexivity|]. split; [exact Hfail|].
  apply (@send_message_unreachable st0 (py "hello") PNone); [reflexivity | exact Hfail].
Defined.

(** X5: when a [sendText] of [send_message] raises anything but a
    transport reset, the call ends there with False: the frames up to
    and including the failing one have been handed over and nothing is
    sent after it, and the outcomes that follow in the script are left
    unread. *)
Theorem send_message_other_error_is_final (s s1 : state) (ev1 : list event)
    (message : pystr) (to_id : pyval) (j : nat) (rest : list send_outcome) :
  Tcp._ensure_connected 2 s = (true, s1, ev1) ->
  w_sends s = repeat SendOk j ++ SendError :: rest ->
  j < List.length (Tcp.split_chunks message) ->
  result (Tcp.send_message message to_id s) = false
  /\ sent_texts (events (Tcp.send_message message to_id s)) = firstn (S j) (frames message)
  /\ w_sends (final (Tcp.send_message message to_id s)) = rest.
Proof.
  intros He Hs Hj.
  destruct (@ensure_connected_inv _ _ _ _ _ He) as (Hw & _ & Ha). specialize (Ha eq_refl).
  assert (Hi : exists sess, tcp_interface s1 = Some sess).
  { unfold Tcp.interface_alive in Ha. destruct (tcp_interface s1); [eauto | discriminate]. }
  destruct Hi as [sess Hi].
  set (chunks := Tcp.split_chunks message) in *.
  destruct (@send_chunks_stops (List.length chunks) to_id sess SendError
              ltac:(discriminate) j
              (combine (seq 0 (List.length chunks)) chunks) s1 rest)
    as (s2 & ev2 & E & Hw2 & _ & Hev2).
  { exact Hi. }
  { rewrite Hw. exact Hs. }
  { rewrite length_combine, length_seq, Nat.min_id. exact Hj. }
  assert (Erun : Tcp.send_message message to_id s = (false, s2, ev1 ++ ev2)).
  { unfold Tcp.send_message. unfold bind at 1. rewrite He. cbn [negb].
    fold chunks. unfold bind. rewrite E. cbn [app ret]. rewrite app_nil_r. reflexivity. }
  rewrite Erun. cbn [events result final fst snd]. repeat split.
  - rewrite sent_texts_app, (ensure_connected_no_send _ _ He), Hev2. cbn [app].
    unfold frames. fold chunks. rewrite firstn_map. reflexivity.
  - exact Hw2.
Qed.

(** A 400-character text whose second frame fails: two frames out, the
    third never tried. *)
Lemma send_message_other_error_is_final_witness :
  let s := set_w_sends [SendOk; SendError; SendOk] st_up in
  let message := repeat 97%N 400 in
  Tcp._ensure_connected 2 s = (true, s, [])
  /\ 1 < List.length (Tcp.split_chunks message)
  /\ result (Tcp.send_message message PNone s) = false
  /\ sent_texts (events (Tcp.send_message message PNone s)) = firstn 2 (frames message)
  /\ w_sends (final (Tcp.send_message message PNone s)) = [SendOk].
Proof.
  cbn zeta. split; [reflexivity|]. split; [vm_compute; lia|].
  apply (@send_message_other_error_is_final
           (set_w_sends [SendOk; SendError; SendOk] st_up)
           (set_w_sends [SendOk; SendError; SendOk] st_up) []
           (repeat 97%N 400) PNone 1 [SendOk]).
  - reflexivity.
  - reflexivity.
  - vm_compute. lia.
Defined.

(** ** Attempts and waits of [connect] *)

Lemma connect_loop_counts (max_retries : Z) (retry_delay : Q) :
  forall (n a : nat) (s s' : state) (b : bool) (ev : list event),
    Z.of_nat (a + n) = (max_retries + 1)%Z ->
    Tcp.connect_loop max_retries retry_delay (seq a n) s = (b, s', ev) ->
    opens ev <= n /\ List.length (backoff_waits ev) <= n - 1.
Proof.
  induction n as [|n IH]; intros a s s' b ev Han H.
  - cbn in H. injection H as <- <- <-. cbn. lia.
  - cbn [seq Tcp.connect_loop] in H. unfold bind at 1 in H.
    rewrite open_interface_run in H.
    destruct (nth 0 (w_opens s) OpenRaises) as [|[| |my_id]];
      try destruct (Z.ltb_spec (Z.of_nat a) max_retries);
      unfold bind, sleep, emit, modify, ret in H;
      try (match type of H with
           | context [Tcp.connect_loop ?m ?d ?l ?s2] =>
               destruct (Tcp.connect_loop m d l s2) as [[b0 s3] e3] eqn:E;
               apply IH in E; [|lia]; destruct E as [IH1 IH2]
           end);
      try destruct my_id; injection H as <- <- <-;
      unfold opens, backoff_waits in *; cbn in *; lia.
Qed.

(** X6: [connect] opens at most [max_retries + 1] sessions and waits
    at most [max_retries] times between them; with a negative
    [max_retries] it does neither. *)
Theorem connect_attempts_bounded (max_retries : Z) (retry_delay : Q) (s : state) :
  opens (events (Tcp.connect max_retries retry_delay s)) <= Z.to_nat (max_retries + 1)
  /\ List.length (backoff_waits (events (Tcp.connect max_retries retry_delay s)))
     <= Z.to_nat max_retries.
Proof.
  unfold Tcp.connect.
  destruct (Z.ltb_spec (max_retries + 1) 0) as [Hneg|Hpos].
  - replace (Z.to_nat (max_retries + 1)) with 0 by lia. cbn. lia.
  - destruct (Tcp.connect_loop max_retries retry_delay
                (seq 0 (Z.to_nat (max_retries + 1))) s) as [[b s'] ev] eqn:E.
    apply connect_loop_counts in E; [|lia]. cbn [events snd].
    destruct E as [H1 H2]. split; [exact H1 | lia].
Qed.

Lemma wait_time_range (attempt : nat) :
  settle_in_range (EvSleep Settle (Tcp.wait_time attempt)) = true.
Proof.
  cbn [settle_in_range]. apply andb_true_intro. split; apply Qle_bool_iff.
  - unfold Tcp.wait_time. apply Q.min_glb; [|discriminate].
    rewrite <- (Qplus_0_r 2) at 1.
    apply Qplus_le_compat; [apply Qle_refl|].
    apply Qmult_le_0_compat; [|discriminate].
    change 0%Q with (inject_Z 0). rewrite <- Zle_Qle. lia.
  - unfold Tcp.wait_time. apply Q.le_min_r.
Qed.

(** X7: every wait of [connect] for a fresh session to settle lies
    between 2 and 5 seconds, whichever attempt it belongs to. *)
Theorem settle_waits_in_range (max_retries : Z) (retry_delay : Q) (s : state) :
  forallb settle_in_range (events (Tcp.connect max_retries retry_delay s)) = true.
Proof.
  unfold Tcp.connect.
  apply (@only_connect_loop_gen settle_in_range max_retries retry_delay);
    try reflexivity.
  exact wait_time_range.
Qed.

Lemma connect_loop_flag (max_retries : Z) (retry_delay : Q) :
  forall (attempts : list nat) (s s' : state) (b : bool) (ev : list event),
    Tcp.connect_loop max_retries retry_delay attempts s = (b, s', ev) ->
    tcp_connected s' = b || tcp_connected s.
Proof.
  induction attempts as [|a rest IH]; intros s s' b ev H.
  - cbn in H. injection H as <- <- <-. reflexivity.
  - cbn [Tcp.connect_loop] in H. unfold bind at 1 in H. rewrite open_interface_run in H.
    destruct (nth 0 (w_opens s) OpenRaises) as [|[| |my_id]];
      try destruct (Z.of_nat a <? max_retries)%Z;
      unfold bind, sleep, emit, modify, ret in H;
      try (match type of H with
           | context [Tcp.connect_loop ?m ?d ?l ?s2] =>
               destruct (Tcp.connect_loop m d l s2) as [[b0 s3] e3] eqn:E;
               injection H as <- <- <-; apply IH in E; exact E
           end);
      try (injection H as <- <- <-; reflexivity).
    all: destruct my_id; injection H as <- <- <-; reflexivity.
Qed.

(** X8: [connect] sets the [connected] flag when it succeeds and never
    clears it: after the call the flag is the result or what it was
    before.  A successful call leaves an interface object with a
    [myInfo], and the send script is not read. *)
Theorem connect_flag (max_retries : Z) (retry_delay : Q) (s : state) :
  tcp_connected (final (Tcp.connect max_retries retry_delay s))
  = result (Tcp.connect max_retries retry_delay s) || tcp_connected s
  /\ (result (Tcp.connect max_retries retry_delay s) = true ->
      Tcp.interface_alive (final (Tcp.connect max_retries retry_delay s)) = true)
  /\ w_sends (final (Tcp.connect max_retries retry_delay s)) = w_sends s.
Proof.
  unfold Tcp.connect.
  destruct (Tcp.connect_loop max_retries retry_delay
              (seq 0 (Z.to_nat (max_retries + 1))) s) as [[b s'] ev] eqn:E.
  cbn [final result fst snd].
  destruct (connect_loop_inv _ _ _ _ E) as (Hw & _ & Ha).
  split; [exact (connect_loop_flag _ _ _ _ E) | split; [exact Ha | exact Hw]].
Qed.

(** ** A live interface object is never reopened *)

Section InvOnly.

Variable I : state -> Prop.
Variable p : event -> bool.

Lemma inv_only_ret {A : Type} (a : A) : inv_only I p (ret a).
Proof. intros s H. split; [exact H | reflexivity]. Qed.

Lemma inv_only_get : inv_only I p get.
Proof. intros s H. split; [exact H | reflexivity]. Qed.

Lemma inv_only_emit (e : event) : p e = true -> inv_only I p (emit e).
Proof. intros He s H. split; [exact H | cbn; now rewrite He]. Qed.

Lemma inv_only_bind {A B : Type} (m : M A) (f : A -> M B) :
  inv_only I p m -> (forall a, inv_only I p (f a)) -> inv_only I p (bind m f).
Proof.
  intros Hm Hf s Hs. unfold bind. destruct (Hm s Hs) as [H1 H2].
  destruct (m s) as [[a s1] e1]. cbn [final events fst snd] in H1, H2.
  destruct (Hf a s1 H1) as [H3 H4].
  destruct (f a s1) as [[b s2] e2]. cbn [final events fst snd] in *.
  split; [exact H3|]. rewrite forallb_app, H2, H4. reflexivity.
Qed.

End InvOnly.

Ltac inv_step :=
  match goal with
  | |- inv_only _ _ (bind _ _) => apply inv_only_bind
  | |- inv_only _ _ (ret _) => apply inv_only_ret
  | |- inv_only _ _ get => apply inv_only_get
  | |- inv_only _ _ (emit _) => apply inv_only_emit; reflexivity
  | |- inv_only _ _ (sleep _ _) => apply inv_only_emit; reflexivity
  | |- inv_only _ _ (if ?b then _ else _) => destruct b
  | |- inv_only _ _ (match ?x with _ => _ end) => destruct x
  | |- forall _, _ => intro
  end.

Lemma alive_sendText (c : pystr) (d : option pyval) (i : option nat) :
  inv_only alive is_transmit (Tcp.sendText c d i).
Proof.
  intros s H. unfold alive, Tcp.sendText, Tcp.interface_alive in *.
  destruct (tcp_interface s) as [sess|] eqn:E; [|discriminate].
  destruct (w_sends s); cbn; rewrite E; split; [exact H | reflexivity | exact H | reflexivity].
Qed.

Lemma alive_ensure_connected (n : Z) : inv_only alive is_transmit (Tcp._ensure_connected n).
Proof.
  intros s H. rewrite (@ensure_connected_alive s n H). split; [exact H | reflexivity].
Qed.

Lemma alive_send_chunks (n : nat) (to_id : pyval) (ichunks : list (nat * pystr)) :
  inv_only alive is_transmit (Tcp.send_chunks n to_id ichunks).
Proof.
  induction ichunks as [|[i chunk] rest IH]; cbn [Tcp.send_chunks].
  - apply inv_only_ret.
  - apply inv_only_bind; [apply alive_sendText|].
    repeat first [exact IH | inv_step].
Qed.

Lemma alive_send_message (message : pystr) (to_id : pyval) :
  inv_only alive is_transmit (Tcp.send_message message to_id).
Proof.
  unfold Tcp.send_message.
  repeat first [apply alive_ensure_connected | apply alive_send_chunks
               | apply alive_sendText | inv_step].
Qed.

Lemma alive_send_channel_chunks (n channel_num : nat) (ichunks : list (nat * pystr)) :
  inv_only alive is_transmit (Tcp.send_channel_chunks n channel_num ichunks).
Proof.
  induction ichunks as [|[i chunk] rest IH]; cbn [Tcp.send_channel_chunks].
  - apply inv_only_ret.
  - apply inv_only_bind; [apply alive_sendText|].
    repeat first [exact IH | inv_step].
Qed.

Lemma alive_send_to_channel_rec (str_lower : pystr -> pystr) (message channel_name : pystr)
    (fuel : nat) :
  inv_only alive is_transmit (Tcp.send_to_channel_rec str_lower fuel message channel_name).
Proof.
  induction fuel as [|fuel IH]; cbn [Tcp.send_to_channel_rec].
  - apply inv_only_ret.
  - repeat first [exact IH | apply alive_ensure_connected
                 | apply alive_send_channel_chunks | inv_step].
Qed.

(** X9: once there is an interface object with a [myInfo], neither
    [send_message] nor [send_to_channel] ever opens or closes a
    session, whatever [sendText] raises: the reconnection after a
    transport reset finds the same object in place and does nothing,
    so the retry goes over the session that was reset.  The only
    events are [sendText] calls and pauses between chunks, and the
    object is still in place afterwards. *)
Theorem live_interface_never_reopened (str_lower : pystr -> pystr) (s : state)
    (message channel_name : pystr) (to_id : pyval) :
  Tcp.interface_alive s = true ->
  forallb is_transmit (events (Tcp.send_message message to_id s)) = true
  /\ Tcp.interface_alive (final (Tcp.send_message message to_id s)) = true
  /\ forallb is_transmit
       (events (Tcp.send_to_channel str_lower message channel_name s)) = true
  /\ Tcp.interface_alive
       (final (Tcp.send_to_channel str_lower message channel_name s)) = true.
Proof.
  intros Ha.
  destruct (@alive_send_message message to_id s Ha) as [H1 H2].
  pose proof (@alive_send_to_channel_rec str_lower message channel_name
                (S (List.length (w_sends s))) s Ha) as [H3 H4].
  unfold Tcp.send_to_channel.
  destruct (Tcp.send_to_channel_rec _ _ _ _ s) as [[r s'] ev].
  cbn [final events fst snd] in *. auto.
Qed.

(** A session that resets on the first frame of a two-frame text. *)
Lemma live_interface_never_reopened_witness :
  let s := set_w_sends [SendReset; SendReset] st_llm in
  Tcp.interface_alive s = true
  /\ forallb is_transmit (events (Tcp.send_message (repeat 97%N 200) PNone s)) = true
  /\ Tcp.interface_alive (final (Tcp.send_message (repeat 97%N 200) PNone s)) = true
  /\ forallb is_transmit
       (events (Tcp.send_to_channel ascii_lower (repeat 97%N 200) (py "LLM") s)) = true
  /\ Tcp.interface_alive
       (final (Tcp.send_to_channel ascii_lower (repeat 97%N 200) (py "LLM") s)) = true.
Proof.
  cbn zeta. split; [reflexivity|].
  apply (@live_interface_never_reopened ascii_lower
           (set_w_sends [SendReset; SendReset] st_llm) (repeat 97%N 200) (py "LLM") PNone).
  reflexivity.
Defined.

(** ** [send_to_channel] *)

Section ChannelFacts.

Variable str_lower : pystr -> pystr.


(** The chunk loop of [send_to_channel] when every [sendText] succeeds. *)
Lemma send_channel_chunks_ok (n channel_num : nat) (sess : session) :
  forall (ichunks : list (nat * pystr)) (s : state),
    tcp_interface s = Some sess ->
    (forall i, i < List.length ichunks -> nth i (w_sends s) SendOk = SendOk) ->
    exists s' ev,
      Tcp.send_channel_chunks n channel_num ichunks s = (SendOk, s', ev)
      /\ send_calls ev = map (fun ic => (snd ic, None, Some channel_num)) ichunks.
Proof.
  induction ichunks as [|[i chunk] ichunks IH]; intros s Hi Hs.
  - eexists _, _. split; reflexivity.
  - cbn [Tcp.send_channel_chunks]. unfold bind at 1. rewrite (@sendText_run _ sess _ _ _ Hi).
    rewrite (Hs 0) by (cbn; lia).
    set (s1 := set_w_sends (tl (w_sends s)) s).
    destruct (IH s1) as (s' & ev & E & Hev).
    + exact Hi.
    + intros k Hk. unfold s1. cbn [w_sends set_w_sends]. rewrite nth_tl.
      apply Hs. cbn. lia.
    + unfold bind.
      destruct (i <? n - 1); unfold sleep, emit, ret; rewrite E;
        eexists _, _; (split; [reflexivity|]);
        cbn [app send_calls flat_map map fst snd];
        fold (send_calls ev); rewrite Hev; reflexivity.
Qed.

Lemma map_snd_combine_seq {A B : Type} (h : A -> B) (l : list A) (a : nat) :
  map (fun ic : nat * A => h (snd ic)) (combine (seq a (List.length l)) l) = map h l.
Proof.
  revert a. induction l as [|x l IH]; intros a; [reflexivity|].
  cbn [List.length seq combine map snd]. now rewrite IH.
Qed.




(** X11: [send_to_channel] on a live interface whose [sendText]
    accepts every chunk: the call succeeds and hands over the chunks
    of the text in order, each as it is (the channel path adds no
    "[i/n]" prefix), with no destination and on the resolved channel
    index. *)
Theorem send_to_channel_delivers_chunks (s : state) (message channel_name : pystr) :
  Tcp.interface_alive s = true ->
  (forall i, i < List.length (Tcp.split_chunks message) ->
             nth i (w_sends s) SendOk = SendOk) ->
  result (Tcp.send_to_channel str_lower message channel_name s) = true
  /\ send_calls (events (Tcp.send_to_channel str_lower message channel_name s))
     = map (fun chunk =>
              (chunk, None,
               Some (Tcp.resolve_channel str_lower (w_channels s) channel_name)))
           (Tcp.split_chunks message).
Proof.
  intros Ha Hs.
  assert (Hi : exists sess, tcp_interface s = Some sess).
  { unfold Tcp.interface_alive in Ha. destruct (tcp_interface s); [eauto | discriminate]. }
  destruct Hi as [sess Hi].
  set (ch := Tcp.resolve_channel str_lower (w_channels s) channel_name).
  destruct (@send_channel_chunks_ok (List.length (Tcp.split_chunks message)) ch sess
              (combine (seq 0 (List.length (Tcp.split_chunks message)))
                       (Tcp.split_chunks message)) s Hi)
    as (s' & ev & E & Hev).
  { intros i. rewrite length_combine, length_seq, Nat.min_id. apply Hs. }
  assert (Erun : Tcp.send_to_channel str_lower message channel_name s = (true, s', ev)).
  { unfold Tcp.send_to_channel. cbn [Tcp.send_to_channel_rec]. unfold bind at 1.
    rewrite (@ensure_connected_alive s 2%Z Ha). cbn [negb].
    unfold bind at 1, get. fold ch. unfold bind. rewrite E.
    cbn [ret app]. rewrite app_nil_r. reflexivity. }
  rewrite Erun. cbn [result events fst snd]. split; [reflexivity|].
  rewrite Hev. apply (map_snd_combine_seq (fun chunk => (chunk, None, Some ch))).
Qed.

End ChannelFacts.

(** A 200-character text for the channel "LLM" of [st_llm]: two bare
    chunks on index 2. *)
Lemma send_to_channel_delivers_chunks_witness :
  Tcp.interface_alive st_llm = true
  /\ result (Tcp.send_to_channel ascii_lower (repeat 97%N 200) (py "LLM") st_llm) = true
  /\ send_calls (events (Tcp.send_to_channel ascii_lower (repeat 97%N 200) (py "LLM") st_llm))
     = [(repeat 97%N 190, None, Some 2); (repeat 97%N 10, None, Some 2)].
Proof.
  split; [reflexivity|].
  apply (@send_to_channel_delivers_chunks ascii_lower st_llm (repeat 97%N 200) (py "LLM"));
    [reflexivity | intros [|[|i]] _; reflexivity].
Defined.


Section ChannelResolution.

Variable str_lower : pystr -> pystr.

Lemma find_channel_some (p : pystr -> bool) :
  forall (chs : channel_list) (idx r : nat),
    Tcp.find_channel p idx chs = Some r ->
    idx <= r
    /\ exists name,
        channel_name_at chs (r - idx) = Some name /\ p name = true
        /\ forall j name', j < r - idx -> channel_name_at chs j = Some name' ->
                           p name' = false.
Proof.
  unfold channel_name_at.
  induction chs as [|[name|] chs IH]; intros idx r H; cbn [Tcp.find_channel] in H.
  - discriminate.
  - destruct (p name) eqn:Hp.
    + injection H as <-. split; [lia|]. rewrite Nat.sub_diag.
      exists name. repeat split; [exact Hp|]. intros j name' Hj. lia.
    + destruct (IH _ _ H) as (Hle & name0 & Hn & Hp0 & Hbefore).
      split; [lia|]. exists name0.
      replace (r - idx) with (S (r - S idx)) by lia. repeat split; [exact Hn | exact Hp0 |].
      intros [|j] name' Hj Hnth; cbn [nth] in Hnth.
      * injection Hnth as <-. exact Hp.
      * apply (Hbefore j); [lia | exact Hnth].
  - destruct (IH _ _ H) as (Hle & name0 & Hn & Hp0 & Hbefore).
    split; [lia|]. exists name0.
    replace (r - idx) with (S (r - S idx)) by lia. repeat split; [exact Hn | exact Hp0 |].
    intros [|j] name' Hj Hnth; cbn [nth] in Hnth.
    * discriminate.
    * apply (Hbefore j); [lia | exact Hnth].
Qed.

Lemma find_channel_none (p : pystr -> bool) :
  forall (chs : channel_list) (idx : nat),
    Tcp.find_channel p idx chs = None ->
    forall j name, channel_name_at chs j = Some name -> p name = false.
Proof.
  unfold channel_name_at.
  induction chs as [|[name|] chs IH]; intros idx H j name' Hnth; cbn [Tcp.find_channel] in H.
  - destruct j; discriminate.
  - destruct (p name) eqn:Hp; [discriminate|].
    destruct j as [|j]; cbn [nth] in Hnth.
    + injection Hnth as <-. exact Hp.
    + exact (IH _ H j name' Hnth).
  - destruct j as [|j]; cbn [nth] in Hnth; [discriminate|].
    exact (IH _ H j name' Hnth).
Qed.

(** X12: the channel index [send_to_channel] sends on.  With
    [same name] for equality of the lowered names and [within name]
    for the lowered wanted name occurring in the lowered channel name:
    the first named channel that is [same], if there is one; else the
    first named channel that is [within]; else the literal 2, whether
    or not the node has a channel 2.  Unnamed channels are skipped. *)
Theorem resolve_channel_priority (chs : channel_list) (channel_name : pystr) :
  let same name := str_eqb (str_lower name) (str_lower channel_name) in
  let within name := str_contains (str_lower name) (str_lower channel_name) in
  let idx := Tcp.resolve_channel str_lower (Some chs) channel_name in
  let first_with (p : pystr -> bool) :=
    exists name,
      channel_name_at chs idx = Some name /\ p name = true
      /\ forall j name', j < idx -> channel_name_at chs j = Some name' -> p name' = false in
  let none_with (p : pystr -> bool) :=
    forall j name, channel_name_at chs j = Some name -> p name = false in
  first_with same
  \/ (none_with same /\ first_with within)
  \/ (none_with within /\ idx = 2).
Proof.
  cbn zeta. unfold Tcp.resolve_channel.
  destruct (Tcp.find_channel
              (fun name => str_eqb (str_lower name) (str_lower channel_name)) 0 chs)
    as [r|] eqn:E1.
  - left. destruct (find_channel_some _ _ _ E1) as (_ & name & Hn & Hp & Hb).
    rewrite Nat.sub_0_r in *. exists name. auto.
  - right. pose proof (find_channel_none _ _ _ E1) as Hnone.
    destruct (Tcp.find_channel
                (fun name => str_contains (str_lower name) (str_lower channel_name)) 0 chs)
      as [r|] eqn:E2.
    + left. split; [exact Hnone|].
      destruct (find_channel_some _ _ _ E2) as (_ & name & Hn & Hp & Hb).
      rewrite Nat.sub_0_r in *. exists name. auto.
    + right. split; [exact (find_channel_none _ _ _ E2) | reflexivity].
Qed.

(** The chunk loop of [send_to_channel] when the [j+1]-th [sendText]
    raises. *)
Lemma send_channel_chunks_stops (n channel_num : nat) (sess : session) (o : send_outcome) :
  o <> SendOk ->
  forall (j : nat) (ichunks : list (nat * pystr)) (s : state) (rest : list send_outcome),
    tcp_interface s = Some sess ->
    w_sends s = repeat SendOk j ++ o :: rest ->
    j < List.length ichunks ->
    exists s' ev,
      Tcp.send_channel_chunks n channel_num ichunks s = (o, s', ev)
      /\ w_sends s' = rest
      /\ tcp_interface s' = Some sess
      /\ w_channels s' = w_channels s
      /\ send_calls ev
         = map (fun ic => (snd ic, None, Some channel_num)) (firstn (S j) ichunks).
Proof.
  intros Ho.
  induction j as [|j IH]; intros ichunks s rest Hi Hs Hj;
    destruct ichunks as [|[i chunk] ichunks]; cbn [List.length] in Hj; try lia.
  - cbn [Tcp.send_channel_chunks]. unfold bind. rewrite (@sendText_run _ sess _ _ _ Hi), Hs.
    cbn [repeat app nth tl].
    destruct o; [contradiction | |]; eexists _, _; repeat split; exact Hi.
  - cbn [Tcp.send_channel_chunks]. unfold bind at 1.
    rewrite (@sendText_run _ sess _ _ _ Hi), Hs.
    cbn [repeat app nth tl].
    set (s1 := set_w_sends (repeat SendOk j ++ o :: rest) s).
    destruct (IH ichunks s1 rest) as (s' & ev & E & Hw & Ht & Hc & Hev);
      [exact Hi | reflexivity | lia |].
    unfold bind.
    destruct (i <? n - 1); unfold sleep, emit, ret; rewrite E;
      eexists _, _; (split; [reflexivity|]); repeat split; auto;
      cbn [app send_calls flat_map firstn map fst snd];
      fold (send_calls ev); rewrite Hev; reflexivity.
Qed.

(** X13: [send_to_channel] after a transport reset starts over from
    the first chunk.  When the [j+1]-th chunk is reset and everything
    after is accepted, the call succeeds and the session has been
    handed the first [j+1] chunks followed by all the chunks again, so
    the first [j] chunks went out twice. *)
Theorem send_to_channel_resends_from_start (s : state) (message channel_name : pystr)
    (j : nat) :
  Tcp.interface_alive s = true ->
  w_sends s = repeat SendOk j ++ [SendReset] ->
  j < List.length (Tcp.split_chunks message) ->
  result (Tcp.send_to_channel str_lower message channel_name s) = true
  /\ sent_texts (events (Tcp.send_to_channel str_lower message channel_name s))
     = firstn (S j) (Tcp.split_chunks message) ++ Tcp.split_chunks message.
Proof.
  intros Ha Hs Hj.
  assert (Hi : exists sess, tcp_interface s = Some sess).
  { unfold Tcp.interface_alive in Ha. destruct (tcp_interface s); [eauto | discriminate]. }
  destruct Hi as [sess Hi].
  set (chunks := Tcp.split_chunks message) in *.
  set (ch := Tcp.resolve_channel str_lower (w_channels s) channel_name).
  destruct (@send_channel_chunks_stops (List.length chunks) ch sess SendReset
              ltac:(discriminate) j (combine (seq 0 (List.length chunks)) chunks) s [])
    as (s2 & ev2 & E2 & Hw2 & Hi2 & Hc2 & Hev2).
  { exact Hi. }
  { exact Hs. }
  { rewrite length_combine, length_seq, Nat.min_id. exact Hj. }
  assert (Ha2 : Tcp.interface_alive s2 = true).
  { unfold Tcp.interface_alive in *. rewrite Hi2. rewrite Hi in Ha. exact Ha. }
  destruct (@send_channel_chunks_ok (List.length chunks) ch sess
              (combine (seq 0 (List.length chunks)) chunks) s2 Hi2)
    as (s3 & ev3 & E3 & Hev3).
  { intros i _. rewrite Hw2. destruct i; reflexivity. }
  assert (Erun : Tcp.send_to_channel str_lower message channel_name s
                 = (true, s3, ev2 ++ ev3)).
  { unfold Tcp.send_to_channel. rewrite Hs, length_app, repeat_length.
    replace (j + List.length [SendReset]) with (S j) by (cbn; lia).
    cbn [Tcp.send_to_channel_rec]. unfold bind at 1.
    rewrite (@ensure_connected_alive s 2%Z Ha). cbn [negb].
    unfold bind at 1, get. fold chunks. fold ch. unfold bind at 1. rewrite E2.
    unfold bind at 1. rewrite (@ensure_connected_alive s2 2%Z Ha2).
    unfold bind at 1. rewrite (@ensure_connected_alive s2 2%Z Ha2). cbn [negb].
    unfold bind at 1, get. fold chunks. rewrite Hc2. fold ch. unfold bind. rewrite E3.
    cbn [ret app]. rewrite app_nil_r. reflexivity. }
  rewrite Erun. cbn [result events fst snd]. split; [reflexivity|].
  assert (Htexts : forall ev, sent_texts ev = map (fun c => fst (fst c)) (send_calls ev)).
  { induction ev as [|e ev IHev]; [reflexivity|].
    unfold sent_texts, send_calls. cbn [flat_map]. rewrite map_app.
    fold (sent_texts ev). fold (send_calls ev). rewrite IHev.
    destruct e; reflexivity. }
  rewrite sent_texts_app, !Htexts, Hev2, Hev3, !map_map. cbn [fst snd].
  rewrite <- (firstn_map (fun ic : nat * pystr => snd ic)).
  rewrite (map_snd_combine_seq (fun c : pystr => c) chunks 0), map_id.
  reflexivity.
Qed.

End ChannelResolution.

(** Three chunks, the second one reset: chunks 1, 2, then 1, 2, 3. *)
Lemma send_to_channel_resends_from_start_witness :
  let s := set_w_sends [SendOk; SendReset] st_llm in
  let message := repeat 97%N 400 in
  Tcp.interface_alive s = true
  /\ 1 < List.length (Tcp.split_chunks message)
  /\ result (Tcp.send_to_channel ascii_lower message (py "LLM") s) = true
  /\ sent_texts (events (Tcp.send_to_channel ascii_lower message (py "LLM") s))
     = [repeat 97%N 190; repeat 97%N 190;
        repeat 97%N 190; repeat 97%N 190; repeat 97%N 20].
Proof.
  cbn zeta. split; [reflexivity|]. split; [vm_compute; lia|].
  apply (@send_to_channel_resends_from_start ascii_lower
           (set_w_sends [SendOk; SendReset] st_llm) (repeat 97%N 400) (py "LLM") 1).
  - reflexivity.
  - reflexivity.
  - vm_compute. lia.
Defined.

(** * Further properties of the Inbound Link and the Bridge *)

(** ** What a reply leaves alone *)

Section Frame.

Variable X : Type.
Variable f : state -> X.

Hypothesis f_w_opens : forall v s, f (set_w_opens v s) = f s.
Hypothesis f_w_sends : forall v s, f (set_w_sends v s) = f s.
Hypothesis f_w_mqtt_connects : forall v s, f (set_w_mqtt_connects v s) = f s.
Hypothesis f_w_publishes : forall v s, f (set_w_publishes v s) = f s.
Hypothesis f_tcp_interface : forall v s, f (set_tcp_interface v s) = f s.
Hypothesis f_tcp_connected : forall v s, f (set_tcp_connected v s) = f s.
Hypothesis f_tcp_my_node_id : forall v s, f (set_tcp_my_node_id v s) = f s.
Hypothesis f_mqtt_connected : forall v s, f (set_mqtt_connected v s) = f s.
Hypothesis f_mqtt_client : forall v s, f (set_mqtt_client v s) = f s.

Variable str_lower : pystr -> pystr.
Variable py_repr : pyval -> pystr.
Variable cfg : config.

Ltac frame_step :=
  first
    [ apply keeps_modify;
      first [ apply f_w_opens | apply f_w_sends | apply f_w_mqtt_connects
            | apply f_w_publishes | apply f_tcp_interface | apply f_tcp_connected
            | apply f_tcp_my_node_id | apply f_mqtt_connected
            | apply f_mqtt_client
            | intro; rewrite f_mqtt_connected; apply f_mqtt_client ]
    | keeps_step ].

Lemma frame_open_interface : keeps f Tcp.open_interface.
Proof.
  intros s. unfold Tcp.open_interface.
  destruct (w_opens s); cbn [final fst snd]; [reflexivity | apply f_w_opens].
Qed.

Lemma frame_sendText (c : pystr) (d : option pyval) (i : option nat) :
  keeps f (Tcp.sendText c d i).
Proof.
  intros s. unfold Tcp.sendText.
  destruct (tcp_interface s); [destruct (w_sends s)|]; cbn [final fst snd];
    first [reflexivity | apply f_w_sends].
Qed.

Lemma frame_connect_loop (max_retries : Z) (retry_delay : Q) (attempts : list nat) :
  keeps f (Tcp.connect_loop max_retries retry_delay attempts).
Proof.
  induction attempts as [|a rest IH]; cbn [Tcp.connect_loop].
  - apply keeps_ret.
  - apply keeps_bind; [apply frame_open_interface|].
    repeat first [exact IH | frame_step].
Qed.

Lemma frame_ensure_connected (n : Z) : keeps f (Tcp._ensure_connected n).
Proof.
  unfold Tcp._ensure_connected, Tcp.connect.
  repeat first [apply frame_connect_loop | frame_step].
Qed.

Lemma frame_send_chunks (n : nat) (to_id : pyval) (ichunks : list (nat * pystr)) :
  keeps f (Tcp.send_chunks n to_id ichunks).
Proof.
  induction ichunks as [|[i chunk] rest IH]; cbn [Tcp.send_chunks].
  - apply keeps_ret.
  - apply keeps_bind; [apply frame_sendText|].
    repeat first [exact IH | frame_step].
Qed.

Lemma frame_send_message (message : pystr) (to_id : pyval) :
  keeps f (Tcp.send_message message to_id).
Proof.
  unfold Tcp.send_message.
  repeat first [apply frame_ensure_connected | apply frame_send_chunks
               | apply frame_sendText | frame_step].
Qed.

Lemma frame_send_channel_chunks (n channel_num : nat) (ichunks : list (nat * pystr)) :
  keeps f (Tcp.send_channel_chunks n channel_num ichunks).
Proof.
  induction ichunks as [|[i chunk] rest IH]; cbn [Tcp.send_channel_chunks].
  - apply keeps_ret.
  - apply keeps_bind; [apply frame_sendText|].
    repeat first [exact IH | frame_step].
Qed.

Lemma frame_send_to_channel_rec (message channel_name : pystr) (fuel : nat) :
  keeps f (Tcp.send_to_channel_rec str_lower fuel message channel_name).
Proof.
  induction fuel as [|fuel IH]; cbn [Tcp.send_to_channel_rec].
  - apply keeps_ret.
  - repeat first [exact IH | apply frame_ensure_connected
                 | apply frame_send_channel_chunks | frame_step].
Qed.

Lemma frame_send_to_channel (message channel_name : pystr) :
  keeps f (Tcp.send_to_channel str_lower message channel_name).
Proof.
  intros s. unfold Tcp.send_to_channel.
  pose proof (@frame_send_to_channel_rec message channel_name
                (S (List.length (w_sends s))) s) as H.
  destruct (Tcp.send_to_channel_rec _ _ _ _ s) as [[r s'] ev]. exact H.
Qed.

Lemma frame_publish (py_topic : pystr) (payload : pyval) :
  keeps f (Mqtt.publish py_topic payload).
Proof.
  intros s. unfold Mqtt.publish.
  destruct (mqtt_client s); [destruct (w_publishes s)|]; cbn [final fst snd];
    first [reflexivity | apply f_w_publishes].
Qed.

Lemma frame_on_connect_accepted (startup : bool) :
  keeps f (Mqtt.on_connect_accepted startup).
Proof.
  unfold Mqtt.on_connect_accepted, Mqtt.request_node_info, Mqtt.send_broadcast.
  repeat first [apply frame_publish | frame_step].
Qed.

Lemma frame_mqtt_connect : keeps f Mqtt.connect.
Proof.
  intros s. unfold Mqtt.connect.
  destruct (w_mqtt_connects s) as [|[|] rest].
  - cbn [final fst snd]. apply f_mqtt_client.
  - pose proof (frame_on_connect_accepted false
                  (set_mqtt_client (Some true) (set_w_mqtt_connects rest s))) as H.
    destruct (Mqtt.on_connect_accepted false _) as [[u s'] ev].
    cbn [final fst snd] in H |- *. rewrite H, f_mqtt_client. apply f_w_mqtt_connects.
  - cbn [final fst snd]. rewrite f_mqtt_client. apply f_w_mqtt_connects.
Qed.

Lemma frame_publish_to_llm_response_channel (data : pyval) :
  keeps f (Mqtt.publish_to_llm_response_channel cfg data).
Proof.
  unfold Mqtt.publish_to_llm_response_channel.
  repeat first [apply frame_mqtt_connect | apply frame_publish | frame_step].
Qed.

Lemma frame_send_direct_message (to_id : pyval) (response : pystr) :
  keeps f (Mqtt.send_direct_message py_repr to_id response).
Proof.
  unfold Mqtt.send_direct_message.
  repeat first [apply frame_publish | frame_step].
Qed.

Lemma frame_send_broadcast_message (response : pystr) :
  keeps f (Mqtt.send_broadcast_message response).
Proof.
  unfold Mqtt.send_broadcast_message.
  repeat first [apply frame_publish | frame_step].
Qed.

Lemma frame_send_to_llm_channel (payload : pyval) :
  keeps f (Mqtt.send_to_llm_channel py_repr cfg payload).
Proof.
  unfold Mqtt.send_to_llm_channel.
  repeat first [apply frame_publish | frame_step].
Qed.

Lemma frame_send_response_via_tcp (response : pystr) (sender_id recipient : pyval)
    (direct dedicated : bool) :
  keeps f (Hybrid._send_response_via_tcp str_lower cfg response sender_id recipient
             direct dedicated).
Proof.
  unfold Hybrid._send_response_via_tcp. generalize (seq 0 3).
  induction l as [|a rest IH]; cbn [Hybrid.send_response_loop].
  - apply keeps_ret.
  - apply keeps_bind.
    + destruct (private_mode cfg || direct); apply frame_send_message.
    + intros ok. apply keeps_bind; [apply keeps_emit|]. intros _.
      destruct (negb ok && (a <? 2)); [exact IH|].
      unfold Hybrid.send_to_response_channel,
        Hybrid._send_response_via_mqtt_llm_channel.
      repeat first [ apply frame_send_to_channel
                   | apply frame_publish_to_llm_response_channel
                   | frame_step ].
Qed.

Lemma frame_handle_mqtt_message (m : message) :
  keeps f (Hybrid._handle_mqtt_message str_lower cfg m).
Proof.
  unfold Hybrid._handle_mqtt_message.
  repeat first [apply frame_send_response_via_tcp | frame_step].
Qed.

Lemma frame_process_message (installed : state) (m : message) :
  keeps f (Mqtt._process_message py_repr cfg
             (Hybrid.installed_callback str_lower cfg installed) m).
Proof.
  unfold Mqtt._process_message, Hybrid.installed_callback.
  destruct (mqtt_callback installed);
    repeat first [ apply frame_handle_mqtt_message
                 | apply frame_publish_to_llm_response_channel
                 | apply frame_send_direct_message
                 | apply frame_send_broadcast_message
                 | frame_step ].
Qed.

Lemma frame_send_startup_messages :
  keeps f (Hybrid.send_startup_messages py_repr cfg).
Proof.
  unfold Hybrid.send_startup_messages.
  repeat first [apply frame_send_message | apply frame_send_to_llm_channel | frame_step].
Qed.

End Frame.

Section InboundState.

Variable str_lower : pystr -> pystr.
Variable py_repr : pyval -> pystr.
Variable cfg : config.

(** X14: answering a message changes nothing of what the Inbound Link
    and the Bridge remember: whatever the Responder returns and
    however the sends and publishes go, [_handle_mqtt_message] and
    [_process_message] leave the recorded identity, the node registry
    and both callbacks as they were. *)
Theorem reply_leaves_inbound_state (m : message) (s : state) :
  inbound_view (final (Hybrid._handle_mqtt_message str_lower cfg m s)) = inbound_view s
  /\ inbound_view
       (final (Mqtt._process_message py_repr cfg
                 (Hybrid.installed_callback str_lower cfg s) m s))
     = inbound_view s.
Proof.
  split.
  - apply (@frame_handle_mqtt_message _ inbound_view); intros; reflexivity.
  - apply (@frame_process_message _ inbound_view); intros; reflexivity.
Qed.

(** X15: the queue of the Inbound Link is first-in first-out and only
    regular-topic traffic enters it.  A broker message appends at most
    one message at the back (none on the dedicated topic, which is
    handled at once); a turn of the queue worker removes exactly the
    front, whatever answering it does. *)
Theorem queue_discipline (msg : Mqtt.mqtt_message) (s : state) :
  mqtt_queue (final (Hybrid.on_message str_lower py_repr cfg msg s))
  = mqtt_queue s
    ++ (if Mqtt.is_llm_topic cfg (Mqtt.msg_topic msg) then []
        else if startswith (Mqtt.msg_topic msg) Mqtt.rx_topic_prefix
             then opt_list (Mqtt.rx_message (mqtt_my_node_id s) msg)
             else [])
  /\ mqtt_queue (final (Hybrid.process_queue str_lower py_repr cfg s))
     = tl (mqtt_queue s).
Proof.
  split.
  - unfold Hybrid.on_message, bind, get. cbv beta iota zeta.
    unfold Mqtt._on_message.
    destruct (Mqtt.is_llm_topic cfg (Mqtt.msg_topic msg)).
    + rewrite app_nil_r.
      destruct (Mqtt.llm_message py_repr msg) as [m|]; [|reflexivity].
      pose proof (@frame_process_message _ mqtt_queue
                    ltac:(reflexivity) ltac:(reflexivity) ltac:(reflexivity)
                    ltac:(reflexivity) ltac:(reflexivity) ltac:(reflexivity)
                    ltac:(reflexivity) ltac:(reflexivity) ltac:(reflexivity)
                    str_lower py_repr cfg s m s) as H.
      destruct (Mqtt._process_message _ _ _ m s) as [[u s1] ev1]. exact H.
    + destruct (startswith (Mqtt.msg_topic msg) Mqtt.rx_topic_prefix).
      * unfold bind, get, modify.
        destruct (Mqtt.rx_message (mqtt_my_node_id s) msg);
          cbn [final fst snd opt_list mqtt_queue set_mqtt_queue];
          [reflexivity | now rewrite app_nil_r].
      * rewrite app_nil_r.
        destruct (startswith (Mqtt.msg_topic msg) Mqtt.nodeinfo_topic_prefix);
          [|reflexivity].
        destruct (Mqtt.nodeinfo msg) as [[node_id node_name]|]; [|reflexivity].
        unfold bind, modify.
        destruct (py_eq node_name (PStr (py "llm_agent"))); reflexivity.
  - unfold Hybrid.process_queue, bind, get. cbv beta iota zeta.
    unfold Mqtt._process_queue, bind, get. cbv beta iota zeta.
    destruct (mqtt_queue s) as [|m rest] eqn:Hq; [cbn; now rewrite Hq|].
    unfold modify. cbv beta iota zeta.
    pose proof (@frame_process_message _ mqtt_queue
                  ltac:(reflexivity) ltac:(reflexivity) ltac:(reflexivity)
                  ltac:(reflexivity) ltac:(reflexivity) ltac:(reflexivity)
                  ltac:(reflexivity) ltac:(reflexivity) ltac:(reflexivity)
                  str_lower py_repr cfg s m (set_mqtt_queue rest s)) as H.
    destruct (Mqtt._process_message _ _ _ m (set_mqtt_queue rest s)) as [[u s1] ev1].
    cbn [final fst snd] in H |- *. rewrite H. reflexivity.
Qed.

End InboundState.

(** ** What the Inbound Link hands on *)

Lemma startswith_app (s p q : pystr) :
  startswith s (p ++ q) = startswith s p && startswith (skipn (List.length p) s) q.
Proof.
  revert s. induction p as [|c p IH]; intros s; [destruct s; reflexivity|].
  destruct s as [|d s]; cbn [app startswith List.length skipn]; [reflexivity|].
  rewrite IH. now rewrite andb_assoc.
Qed.





Section Handing.

Variable str_lower : pystr -> pystr.
Variable py_repr : pyval -> pystr.
Variable cfg : config.

(** The events of a broker message are those of [_process_message] on
    the dedicated-channel message it carries, if any. *)
Lemma on_message_events (msg : Mqtt.mqtt_message) (s : state) :
  events (Hybrid.on_message str_lower py_repr cfg msg s)
  = match (if Mqtt.is_llm_topic cfg (Mqtt.msg_topic msg)
           then Mqtt.llm_message py_repr msg else None) with
    | Some m => events (Mqtt._process_message py_repr cfg
                          (Hybrid.installed_callback str_lower cfg s) m s)
    | None => []
    end.
Proof.
  unfold Hybrid.on_message, bind, get. cbv beta iota zeta. cbn [app].
  unfold Mqtt._on_message.
  destruct (Mqtt.is_llm_topic cfg (Mqtt.msg_topic msg)).
  - destruct (Mqtt.llm_message py_repr msg) as [m|]; [|reflexivity].
    destruct (Mqtt._process_message _ _ _ m s) as [[u s1] ev1]. reflexivity.
  - destruct (startswith (Mqtt.msg_topic msg) Mqtt.rx_topic_prefix).
    + unfold bind, get, modify.
      destruct (Mqtt.rx_message (mqtt_my_node_id s) msg); reflexivity.
    + destruct (startswith (Mqtt.msg_topic msg) Mqtt.nodeinfo_topic_prefix);
        [|reflexivity].
      destruct (Mqtt.nodeinfo msg) as [[node_id node_name]|]; [|reflexivity].
      unfold bind, modify.
      destruct (py_eq node_name (PStr (py "llm_agent"))); reflexivity.
Qed.

Lemma process_queue_events (s : state) :
  events (Hybrid.process_queue str_lower py_repr cfg s)
  = match mqtt_queue s with
    | [] => []
    | m :: rest =>
        events (Mqtt._process_message py_repr cfg
                  (Hybrid.installed_callback str_lower cfg s) m (set_mqtt_queue rest s))
    end.
Proof.
  unfold Hybrid.process_queue, bind, get. cbv beta iota zeta.
  unfold Mqtt._process_queue, bind, get. cbv beta iota zeta.
  destruct (mqtt_queue s) as [|m rest]; [reflexivity|].
  unfold modify. cbv beta iota zeta. cbn [app].
  destruct (Mqtt._process_message _ _ _ m (set_mqtt_queue rest s)) as [[u s1] ev1].
  reflexivity.
Qed.

(** [_process_message] inside the Bridge either does nothing or runs
    the Bridge's handler, on a message that passed its checks. *)
Lemma process_message_hands_over (installed : state) (m : message) (s : state) :
  events (Mqtt._process_message py_repr cfg
            (Hybrid.installed_callback str_lower cfg installed) m s) = []
  \/ (events (Mqtt._process_message py_repr cfg
                (Hybrid.installed_callback str_lower cfg installed) m s)
      = events (Hybrid._handle_mqtt_message str_lower cfg m s)
      /\ answerable m = true
      /\ mqtt_callback installed = true).
Proof.
  unfold Mqtt._process_message, answerable.
  destruct (sliceable (text m)); cbn [negb andb]; [|left; reflexivity].
  destruct (truthy (text m)); cbn [negb andb]; [|left; reflexivity].
  unfold bind, get. cbv beta iota zeta.
  destruct (py_eq (from_id m) (mqtt_my_node_id s)); cbn [orb]; [left; reflexivity|].
  destruct (py_eq (from_id m) (PStr (py "llm_agent"))); cbn [negb]; [left; reflexivity|].
  unfold Hybrid.installed_callback.
  destruct (mqtt_callback installed); [|left; reflexivity].
  right. destruct (handle_mqtt_message_run str_lower cfg m s) as (s' & ev & E & _).
  rewrite E. unfold ret. cbn [events snd app]. rewrite app_nil_r. auto.
Qed.

(** X16: under the Bridge the Inbound Link never answers by itself.
    Its handler returns [None], so the reply code of
    [_process_message] (the publish on the response topic, the direct
    and the broadcast message) is not reached: a call either does
    nothing or does what the Bridge's handler does, and then on a
    message with a sliceable, non-empty text whose sender is not
    "llm_agent". *)
Theorem inbound_link_hands_over (m : message) (s : state) :
  events (Mqtt._process_message py_repr cfg
            (Hybrid.installed_callback str_lower cfg s) m s) = []
  \/ (events (Mqtt._process_message py_repr cfg
                (Hybrid.installed_callback str_lower cfg s) m s)
      = events (Hybrid._handle_mqtt_message str_lower cfg m s)
      /\ answerable m = true).
Proof.
  destruct (process_message_hands_over s m s) as [H | (H & Ha & _)]; auto.
Qed.

Lemma handle_calls (m : message) (s : state) :
  responder_calls (events (Hybrid._handle_mqtt_message str_lower cfg m s)) = []
  \/ responder_calls (events (Hybrid._handle_mqtt_message str_lower cfg m s)) = [m].
Proof.
  destruct (handle_mqtt_message_run str_lower cfg m s) as (s' & ev & E & H).
  rewrite E. exact H.
Qed.

Lemma process_message_calls_checked (installed : state) (m : message) (s : state) :
  let calls := responder_calls
                 (events (Mqtt._process_message py_repr cfg
                            (Hybrid.installed_callback str_lower cfg installed) m s)) in
  List.length calls <= 1 /\ Forall (fun m' => answerable m' = true) calls.
Proof.
  cbn zeta.
  destruct (process_message_hands_over installed m s) as [-> | (-> & Ha & _)].
  - split; [cbn; lia | constructor].
  - destruct (handle_calls m s) as [-> | ->].
    + split; [cbn; lia | constructor].
    + split; [cbn; lia | repeat constructor; exact Ha].
Qed.

(** X17: each broker message and each turn of the queue worker calls
    the Responder at most once, and only on a message whose text can
    be sliced and is not empty and whose sender is not "llm_agent". *)
Theorem responder_call_preconditions (msg : Mqtt.mqtt_message) (s : state) :
  let arriving := responder_calls (events (Hybrid.on_message str_lower py_repr cfg msg s)) in
  let queued := responder_calls (events (Hybrid.process_queue str_lower py_repr cfg s)) in
  List.length arriving <= 1
  /\ Forall (fun m => answerable m = true) arriving
  /\ List.length queued <= 1
  /\ Forall (fun m => answerable m = true) queued.
Proof.
  cbn zeta. rewrite on_message_events, process_queue_events.
  assert (Hnil : List.length (responder_calls []) <= 1
                 /\ Forall (fun m => answerable m = true) (responder_calls []))
    by (split; [cbn; lia | constructor]).
  assert (A : List.length
                (responder_calls
                   match (if Mqtt.is_llm_topic cfg (Mqtt.msg_topic msg)
                          then Mqtt.llm_message py_repr msg else None) with
                   | Some m => events (Mqtt._process_message py_repr cfg
                                         (Hybrid.installed_callback str_lower cfg s) m s)
                   | None => []
                   end) <= 1
              /\ Forall (fun m => answerable m = true)
                   (responder_calls
                      match (if Mqtt.is_llm_topic cfg (Mqtt.msg_topic msg)
                             then Mqtt.llm_message py_repr msg else None) with
                      | Some m => events (Mqtt._process_message py_repr cfg
                                            (Hybrid.installed_callback str_lower cfg s) m s)
                      | None => []
                      end)).
  { destruct (if Mqtt.is_llm_topic cfg (Mqtt.msg_topic msg)
              then Mqtt.llm_message py_repr msg else None) as [m|];
      [apply (process_message_calls_checked s m s) | apply Hnil]. }
  destruct A as [A1 A2]. split; [exact A1|]. split; [exact A2|].
  destruct (mqtt_queue s) as [|m rest];
    [apply Hnil | apply (process_message_calls_checked s m (set_mqtt_queue rest s))].
Qed.

Lemma process_message_silent (installed : state) (m : message) (s : state) :
  hyb_callback s = None \/ mqtt_callback installed = false ->
  events (Mqtt._process_message py_repr cfg
            (Hybrid.installed_callback str_lower cfg installed) m s) = [].
Proof.
  intros H.
  destruct (process_message_hands_over installed m s) as [E | (E & _ & Hc)];
    [exact E|].
  rewrite E. destruct H as [H | H]; [|congruence].
  unfold Hybrid._handle_mqtt_message, bind, get. rewrite H. reflexivity.
Qed.

(** X18: as long as no Responder is registered with the Bridge, or
    the Bridge has not installed its handler, inbound traffic causes
    no activity at all: no Responder call, nothing sent, nothing
    published, whatever arrives and whatever is queued. *)
Theorem no_responder_no_activity (msg : Mqtt.mqtt_message) (s : state) :
  hyb_callback s = None \/ mqtt_callback s = false ->
  events (Hybrid.on_message str_lower py_repr cfg msg s) = []
  /\ events (Hybrid.process_queue str_lower py_repr cfg s) = [].
Proof.
  intros H. rewrite on_message_events, process_queue_events. split.
  - destruct (if Mqtt.is_llm_topic cfg (Mqtt.msg_topic msg)
              then Mqtt.llm_message py_repr msg else None) as [m|]; [|reflexivity].
    apply process_message_silent. exact H.
  - destruct (mqtt_queue s) as [|m rest]; [reflexivity|].
    apply process_message_silent. exact H.
Qed.

Lemma handle_declined (m : message) (s : state) (responder : message -> option pystr) :
  hyb_callback s = Some responder ->
  responder m = None \/ responder m = Some [] ->
  events (Hybrid._handle_mqtt_message str_lower cfg m s) = []
  \/ events (Hybrid._handle_mqtt_message str_lower cfg m s) = [EvRespond m].
Proof.
  intros Hcb Hd. unfold Hybrid._handle_mqtt_message, bind, get. rewrite Hcb.
  cbv beta iota zeta.
  destruct (negb (sliceable (text m))); [left; reflexivity|].
  unfold emit, ret. destruct Hd as [-> | ->]; right; reflexivity.
Qed.

(** X19: when the Responder declines (it returns [None] or the
    empty text), the Responder call is the only thing that happens:
    nothing is sent over the device session and nothing is published. *)
Theorem declined_message_no_reply (msg : Mqtt.mqtt_message) (s : state)
    (responder : message -> option pystr) :
  hyb_callback s = Some responder ->
  (forall m, responder m = None \/ responder m = Some []) ->
  events (Hybrid.on_message str_lower py_repr cfg msg s)
  = map EvRespond (responder_calls (events (Hybrid.on_message str_lower py_repr cfg msg s)))
  /\ events (Hybrid.process_queue str_lower py_repr cfg s)
     = map EvRespond
         (responder_calls (events (Hybrid.process_queue str_lower py_repr cfg s))).
Proof.
  intros Hcb Hd.
  assert (Hpm : forall m s', hyb_callback s' = Some responder ->
            events (Mqtt._process_message py_repr cfg
                      (Hybrid.installed_callback str_lower cfg s) m s')
            = map EvRespond
                (responder_calls
                   (events (Mqtt._process_message py_repr cfg
                              (Hybrid.installed_callback str_lower cfg s) m s')))).
  { intros m s' Hcb'.
    destruct (process_message_hands_over s m s') as [-> | (-> & _ & _)]; [reflexivity|].
    destruct (handle_declined m s' Hcb' (Hd m)) as [-> | ->]; reflexivity. }
  rewrite on_message_events, process_queue_events. split.
  - destruct (if Mqtt.is_llm_topic cfg (Mqtt.msg_topic msg)
              then Mqtt.llm_message py_repr msg else None) as [m|]; [|reflexivity].
    apply Hpm. exact Hcb.
  - destruct (mqtt_queue s) as [|m rest]; [reflexivity|].
    apply Hpm. exact Hcb.
Qed.

(** X20: the subscription patterns are compared as literal prefixes.
    A message whose topic is neither under the dedicated channel nor
    starts with the characters "msh/+/" (so every topic
    "msh/<region>/rx/..." of a real region) is ignored: nothing is
    queued, recorded or logged. *)
Theorem wildcard_prefix_is_literal (msg : Mqtt.mqtt_message) (s : state) :
  Mqtt.is_llm_topic cfg (Mqtt.msg_topic msg) = false ->
  startswith (Mqtt.msg_topic msg) (py "msh/+/") = false ->
  Hybrid.on_message str_lower py_repr cfg msg s = (tt, s, []).
Proof.
  intros Hllm Hlit.
  assert (Hrx : startswith (Mqtt.msg_topic msg) Mqtt.rx_topic_prefix = false).
  { change Mqtt.rx_topic_prefix with (py "msh/+/" ++ py "rx").
    rewrite startswith_app, Hlit. reflexivity. }
  assert (Hni : startswith (Mqtt.msg_topic msg) Mqtt.nodeinfo_topic_prefix = false).
  { change Mqtt.nodeinfo_topic_prefix with (py "msh/+/" ++ py "nodeinfo").
    rewrite startswith_app, Hlit. reflexivity. }
  unfold Hybrid.on_message, bind, get. cbv beta iota zeta.
  unfold Mqtt._on_message. rewrite Hllm, Hrx, Hni. reflexivity.
Qed.


End Handing.

(** No Responder registered in [st_llm]. *)
Lemma no_responder_no_activity_witness :
  (hyb_callback st_llm = None \/ mqtt_callback st_llm = false)
  /\ events (Hybrid.on_message ascii_lower no_repr cfg0 raw_self st_llm) = []
  /\ events (Hybrid.process_queue ascii_lower no_repr cfg0 st_llm) = [].
Proof.
  split; [left; reflexivity|].
  apply (@no_responder_no_activity ascii_lower no_repr cfg0 raw_self st_llm).
  left. reflexivity.
Defined.

(** A Responder that never answers. *)
Lemma declined_message_no_reply_witness :
  let responder := fun _ : message => @None pystr in
  let s := Hybrid.set_message_callback responder st_bridge in
  hyb_callback (final s) = Some responder
  /\ (forall m, responder m = None \/ responder m = Some [])
  /\ events (Hybrid.on_message ascii_lower no_repr cfg0 raw_self (final s))
     = [EvRespond msg_self].
Proof.
  cbn zeta. split; [reflexivity|]. split; [intros m; left; reflexivity|].
  apply (@declined_message_no_reply ascii_lower no_repr cfg0 raw_self
           (final (Hybrid.set_message_callback (fun _ : message => @None pystr) st_bridge))
           (fun _ : message => @None pystr)); [reflexivity | intros m; left; reflexivity].
Defined.

(** The region "US" in place of the wildcard. *)
Lemma wildcard_prefix_is_literal_witness :
  Mqtt.is_llm_topic cfg0 (Mqtt.msg_topic msg_region) = false
  /\ startswith (Mqtt.msg_topic msg_region) (py "msh/+/") = false
  /\ Hybrid.on_message ascii_lower no_repr cfg0 msg_region st_bridge = (tt, st_bridge, []).
Proof.
  split; [reflexivity|]. split; [reflexivity|].
  apply (@wildcard_prefix_is_literal ascii_lower no_repr cfg0 msg_region st_bridge);
    reflexivity.
Defined.


(** ** Publishing, connecting and disconnecting *)

Lemma publishes_app (a b : list event) :
  publishes (a ++ b) = publishes a ++ publishes b.
Proof. unfold publishes. apply flat_map_app. Qed.

Lemma publishes_quiet_tcp (ev : list event) :
  forallb is_tcp_event ev = true -> publishes ev = [].
Proof.
  induction ev as [|e ev IH]; [reflexivity|]. cbn [forallb].
  intros H. apply andb_prop in H. destruct H as [He Hev].
  unfold publishes. cbn [flat_map]. fold (publishes ev). rewrite (IH Hev).
  destruct e; try reflexivity; discriminate.
Qed.

Lemma connect_publishes (s : state) :
  publishes (events (Mqtt.connect s))
  = if result (Mqtt.connect s) then [(py "msh/request/nodeinfo", PStr [])] else [].
Proof.
  unfold Mqtt.connect.
  destruct (w_mqtt_connects s) as [|[|] rest]; try reflexivity.
  unfold Mqtt.on_connect_accepted, Mqtt.request_node_info, Mqtt.publish,
    bind, modify, get, ret.
  cbn [mqtt_connected mqtt_client set_mqtt_connected set_mqtt_client negb].
  destruct (w_publishes _); reflexivity.
Qed.

(** [connect] returns whether the broker took the session. *)
Lemma connect_script (s : state) :
  result (Mqtt.connect s)
  = match w_mqtt_connects s with
    | true :: _ => true
    | _ => false
    end.
Proof.
  unfold Mqtt.connect.
  destruct (w_mqtt_connects s) as [|[|] rest]; try reflexivity.
  unfold Mqtt.on_connect_accepted, Mqtt.request_node_info, Mqtt.publish,
    bind, modify, get, ret.
  cbn [mqtt_connected mqtt_client set_mqtt_connected set_mqtt_client negb].
  destruct (w_publishes _); reflexivity.
Qed.

Lemma connect_leaves_client (s : state) :
  mqtt_client (final (Mqtt.connect s)) = Some (result (Mqtt.connect s)).
Proof.
  unfold Mqtt.connect.
  destruct (w_mqtt_connects s) as [|[|] rest]; try reflexivity.
  unfold Mqtt.on_connect_accepted, Mqtt.request_node_info, Mqtt.publish,
    bind, modify, get, ret.
  cbn [mqtt_connected mqtt_client set_mqtt_connected set_mqtt_client negb].
  destruct (w_publishes _); reflexivity.
Qed.

(** The publish on the response topic itself. *)
Lemma response_part (cfg : config) (data : pyval) (s : state) :
  let r := match llm_response_channel cfg with
           | Some (c :: t) =>
               bind (Mqtt.publish (c :: t) data) (fun o => ret (Mqtt.published o))
           | _ => ret false
           end s in
  List.length (publishes (events r)) <= 1
  /\ Forall (fun tp => llm_response_channel cfg = Some (fst tp) /\ snd tp = data)
            (publishes (events r))
  /\ (result r = true -> List.length (publishes (events r)) = 1).
Proof.
  cbn zeta. destruct (llm_response_channel cfg) as [[|c t]|];
    unfold bind, Mqtt.publish, ret;
    try (cbn; repeat split; [lia | constructor | discriminate]).
  destruct (mqtt_client s);
    [destruct (w_publishes s) as [|[| |] rest]|];
    cbn; repeat split; try lia; try discriminate; repeat constructor.
Qed.

(** X22: [publish_to_llm_response_channel] publishes the data it was
    given at most once, and then on the configured response topic; it
    reports success only when it has published it.  The one other
    publish there can be goes before it: the node-info request that
    [_on_connect] sends when the call had to reconnect.  Before the
    first [connect] there is no client and nothing happens at all. *)
Theorem response_publish_once (cfg : config) (data : pyval) (s : state) :
  let r := Mqtt.publish_to_llm_response_channel cfg data s in
  exists reconnect response,
    publishes (events r) = reconnect ++ response
    /\ (reconnect = []
        \/ (mqtt_client s = Some false
            /\ reconnect = [(py "msh/request/nodeinfo", PStr [])]))
    /\ List.length response <= 1
    /\ Forall (fun tp => llm_response_channel cfg = Some (fst tp) /\ snd tp = data)
              response
    /\ (result r = true -> List.length response = 1)
    /\ (mqtt_client s = None -> events r = []).
Proof.
  cbn zeta.
  set (respond := match llm_response_channel cfg with
                  | Some (c :: t) =>
                      bind (Mqtt.publish (c :: t) data) (fun o => ret (Mqtt.published o))
                  | _ => ret false
                  end).
  assert (Enone : forall s0 : state, mqtt_client s0 = None ->
            Mqtt.publish_to_llm_response_channel cfg data s0 = (false, s0, [])).
  { intros s0 H0. unfold Mqtt.publish_to_llm_response_channel, bind, get.
    rewrite H0. reflexivity. }
  assert (Eup : mqtt_client s = Some true ->
            Mqtt.publish_to_llm_response_channel cfg data s = respond s).
  { intros H0. unfold Mqtt.publish_to_llm_response_channel, bind at 1, get.
    rewrite H0. unfold bind at 1, ret at 1. cbn [negb]. fold respond.
    destruct (respond s) as [[b s'] ev]. reflexivity. }
  assert (Edown : mqtt_client s = Some false ->
            Mqtt.publish_to_llm_response_channel cfg data s
            = if result (Mqtt.connect s)
              then (result (respond (final (Mqtt.connect s))),
                    final (respond (final (Mqtt.connect s))),
                    events (Mqtt.connect s) ++ events (respond (final (Mqtt.connect s))))
              else (false, final (Mqtt.connect s), events (Mqtt.connect s))).
  { intros H0. unfold Mqtt.publish_to_llm_response_channel, bind at 1, get.
    rewrite H0. unfold bind at 1.
    destruct (Mqtt.connect s) as [[up s1] ev1]. cbn [result final events fst snd].
    destruct up; cbn [negb].
    - fold respond. destruct (respond s1) as [[b s'] ev]. reflexivity.
    - unfold ret. now rewrite app_nil_r. }
  destruct (mqtt_client s) as [[|]|] eqn:Hc.
  - rewrite (Eup eq_refl).
    destruct (response_part cfg data s) as (H1 & H2 & H3). fold respond in H1, H2, H3.
    exists [], (publishes (events (respond s))).
    repeat split; auto. discriminate.
  - rewrite (Edown eq_refl). pose proof (connect_publishes s) as Hp.
    destruct (result (Mqtt.connect s)).
    + destruct (response_part cfg data (final (Mqtt.connect s))) as (H1 & H2 & H3).
      fold respond in H1, H2, H3. cbn [result events fst snd].
      exists [(py "msh/request/nodeinfo", PStr [])],
             (publishes (events (respond (final (Mqtt.connect s))))).
      rewrite publishes_app, Hp. repeat split; auto. discriminate.
    + cbn [result events fst snd]. exists [], []. rewrite Hp.
      repeat split; auto; try discriminate; try (cbn; lia).
  - rewrite (Enone s Hc). exists [], []. cbn.
    repeat split; auto; try discriminate; try lia.
Qed.

Section BridgeLifecycle.

Variable str_lower : pystr -> pystr.
Variable py_repr : pyval -> pystr.
Variable cfg : config.

(** X23: where the startup banner is published.  With the dedicated
    channel enabled and a response topic configured,
    [send_startup_messages] publishes the banner once, wrapped as a
    "sendtext" object from "llm_agent" to "broadcast", and on the
    response topic, not on the topic the Bridge listens on.  It does
    so as soon as the Inbound Link has a client object, which is the
    case when [connect] calls it, and without looking at the session;
    before the first [connect] the publish raises and nothing goes
    out.  With the channel disabled or no response topic, nothing is
    published either. *)
Theorem startup_banner_destinations (s : state) :
  publishes (events (Hybrid.send_startup_messages py_repr cfg s))
  = match mqtt_client s with
    | None => []
    | Some _ =>
        if use_llm_channel cfg
        then match llm_response_channel cfg with
             | Some (c :: t) =>
                 [(c :: t,
                   PDict [(py "from", PInt 1234567890);
                          (py "type", PStr (py "sendtext"));
                          (py "payload",
                           PDict [(py "text", PStr (Hybrid.startup_message cfg));
                                  (py "from_id", PStr (py "llm_agent"));
                                  (py "to_id", PStr (py "broadcast"))])])]
             | _ => []
             end
        else []
    end.
Proof.
  unfold Hybrid.send_startup_messages. unfold bind at 1.
  pose proof (@frame_send_message _ mqtt_client ltac:(reflexivity) ltac:(reflexivity)
                ltac:(reflexivity) ltac:(reflexivity) ltac:(reflexivity)
                (Hybrid.startup_message cfg) PNone s) as Hk.
  destruct (Tcp.send_message (Hybrid.startup_message cfg) PNone s) as [[ok s1] e1] eqn:E1.
  cbn [final fst snd] in Hk.
  pose proof (publishes_quiet_tcp _
                (@only_run _ is_tcp_event _ _ _ _ _ (@only_send_message _ _) E1)) as Hq.
  generalize (Hybrid.startup_message cfg). intros banner.
  destruct (use_llm_channel cfg) eqn:Huse.
  - set (payload := PDict [(py "from", PInt 1234567890);
                           (py "type", PStr (py "sendtext"));
                           (py "payload",
                            PDict [(py "text", PStr banner);
                                   (py "from_id", PStr (py "llm_agent"));
                                   (py "to_id", PStr (py "broadcast"))])]).
    assert (Esend : Mqtt.send_to_llm_channel py_repr cfg payload
                    = match llm_response_channel cfg with
                      | Some (c :: t) =>
                          bind (Mqtt.publish (c :: t) payload)
                               (fun r => ret (Mqtt.published r))
                      | _ => ret false
                      end).
    { unfold Mqtt.send_to_llm_channel. rewrite Huse. cbn [negb].
      destruct (llm_response_channel cfg) as [[|c t]|]; reflexivity. }
    unfold bind at 1. rewrite Esend. rewrite <- Hk.
    destruct (llm_response_channel cfg) as [[|c t]|].
    + unfold bind, ret. cbn [events snd]. rewrite publishes_app, Hq.
      destruct (mqtt_client s1); reflexivity.
    + unfold bind, Mqtt.publish, ret.
      destruct (mqtt_client s1); [destruct (w_publishes s1)|];
        cbn [events snd]; rewrite publishes_app, Hq; reflexivity.
    + unfold bind, ret. cbn [events snd]. rewrite publishes_app, Hq.
      destruct (mqtt_client s1); reflexivity.
  - unfold ret. cbn [events snd]. rewrite publishes_app, Hq.
    destruct (mqtt_client s); reflexivity.
Qed.

(** X24: when the broker cannot be reached, the Bridge's [connect]
    stops there: the device is never tried, the handler is not
    installed, and nothing else changes. *)
Theorem bridge_connect_stops_at_broker (s : state) :
  result (Mqtt.connect s) = false ->
  result (Hybrid.connect py_repr cfg s) = false
  /\ events (Hybrid.connect py_repr cfg s) = [EvMqttConnect]
  /\ mqtt_callback (final (Hybrid.connect py_repr cfg s)) = mqtt_callback s
  /\ hyb_connected (final (Hybrid.connect py_repr cfg s)) = hyb_connected s
  /\ tcp_interface (final (Hybrid.connect py_repr cfg s)) = tcp_interface s
  /\ w_opens (final (Hybrid.connect py_repr cfg s)) = w_opens s.
Proof.
  intros H. rewrite connect_script in H.
  assert (Erun : Hybrid.connect py_repr cfg s = (false, final (Mqtt.connect s), [EvMqttConnect])).
  { unfold Hybrid.connect, bind. unfold Mqtt.connect.
    destruct (w_mqtt_connects s) as [|[|] rest]; [reflexivity | discriminate | reflexivity]. }
  rewrite Erun. cbn [result final events fst snd]. unfold Mqtt.connect.
  destruct (w_mqtt_connects s) as [|[|] rest]; [|discriminate|];
    repeat split; reflexivity.
Qed.

(** X25: when the broker session comes up, the Bridge's [connect]
    installs its handler with the Inbound Link and ends connected,
    whether or not the device could be reached, and a Responder
    registered before stays registered. *)
Theorem bridge_connect_installs_handler (s : state) :
  result (Mqtt.connect s) = true ->
  mqtt_callback (final (Hybrid.connect py_repr cfg s)) = true
  /\ hyb_connected (final (Hybrid.connect py_repr cfg s)) = true
  /\ hyb_callback (final (Hybrid.connect py_repr cfg s)) = hyb_callback s.
Proof.
  intros H.
  set (view := fun s0 : state => (mqtt_callback s0, hyb_connected s0, hyb_callback s0)).
  assert (K : keeps view
                (if send_startup_message cfg
                 then Hybrid.send_startup_messages py_repr cfg else ret tt)).
  { destruct (send_startup_message cfg);
      [apply frame_send_startup_messages; intros; reflexivity | apply keeps_ret]. }
  pose proof (@frame_mqtt_connect _ hyb_callback ltac:(reflexivity) ltac:(reflexivity)
                ltac:(reflexivity) ltac:(reflexivity) s) as K1.
  assert (Hgoal : view (final (Hybrid.connect py_repr cfg s)) = (true, true, hyb_callback s)).
  { unfold Hybrid.connect. unfold bind at 1.
    destruct (Mqtt.connect s) as [[up s1] ev1]. cbn [result final fst snd] in H, K1.
    subst up. cbn [negb]. unfold bind at 1.
    pose proof (@frame_connect_loop _ hyb_callback ltac:(reflexivity) ltac:(reflexivity)
                  ltac:(reflexivity) ltac:(reflexivity) 4%Z 2%Q
                  (seq 0 (Z.to_nat (4 + 1))) s1) as K2.
    fold (Tcp.connect 4 2%Q) in K2.
    destruct (Tcp.connect 4 2%Q s1) as [[tcp_up s2] ev2]. cbn [final fst snd] in K2.
    unfold keeps in K.
    destruct tcp_up; unfold bind, modify, ret, get in K |- *; cbn [andb negb];
      match goal with
      | |- context [(if send_startup_message cfg then _ else _) ?s5] =>
          specialize (K s5);
          destruct ((if send_startup_message cfg
                     then Hybrid.send_startup_messages py_repr cfg
                     else fun s0 : state => (tt, s0, [])) s5) as [[u s6] ev6]
      end;
      cbn [final fst snd] in K |- *; rewrite K; unfold view; cbn;
      rewrite K2, K1; reflexivity. }
  unfold view in Hgoal. injection Hgoal as -> -> ->. auto.
Qed.

(** X26: [disconnect] closes the device session and leaves the
    interface object in place.  The Bridge ends disconnected, yet a
    later [send_message] finds an object with a [myInfo], takes it for
    a live connection, and hands its frames to the closed session
    without any attempt to reconnect. *)
Theorem bridge_disconnect_keeps_interface (mqtt_raises tcp_raises : bool) (s : state)
    (message : pystr) (to_id : pyval) :
  Tcp.interface_alive s = true ->
  let s' := final (Hybrid.disconnect mqtt_raises tcp_raises s) in
  hyb_connected s' = false
  /\ events (Hybrid.disconnect mqtt_raises tcp_raises s) = [EvClose]
  /\ Tcp.interface_alive s' = true
  /\ forallb is_transmit (events (Hybrid.send_message message to_id s')) = true.
Proof.
  intros Ha. cbn zeta.
  assert (Hi : exists sess, tcp_interface s = Some sess).
  { unfold Tcp.interface_alive in Ha. destruct (tcp_interface s); [eauto | discriminate]. }
  destruct Hi as [sess Hi].
  assert (Erun : exists s',
             Hybrid.disconnect mqtt_raises tcp_raises s = (tt, s', [EvClose])
             /\ hyb_connected s' = false /\ tcp_interface s' = tcp_interface s).
  { unfold Hybrid.disconnect, Mqtt.disconnect, Tcp.disconnect, bind, get, modify, emit, ret.
    destruct (mqtt_connected s);
      [destruct (mqtt_client s); [destruct mqtt_raises|]|];
      cbn [tcp_interface set_mqtt_connected set_mqtt_client];
      rewrite Hi; destruct tcp_raises; eexists; repeat split; exact Hi. }
  destruct Erun as (s' & E & Hc & Ht). rewrite E. cbn [final events fst snd].
  assert (Ha' : Tcp.interface_alive s' = true).
  { unfold Tcp.interface_alive in *. rewrite Ht. exact Ha. }
  repeat split; [exact Hc | exact Ha' |].
  unfold Hybrid.send_message. apply (alive_send_message message to_id Ha').
Qed.

End BridgeLifecycle.

(** Nothing answers in [st0]. *)
Lemma bridge_connect_stops_at_broker_witness :
  result (Mqtt.connect st0) = false
  /\ result (Hybrid.connect no_repr cfg0 st0) = false
  /\ events (Hybrid.connect no_repr cfg0 st0) = [EvMqttConnect].
Proof.
  split; [reflexivity|].
  pose proof (@bridge_connect_stops_at_broker no_repr cfg0 st0 eq_refl) as (H1 & H2 & _).
  split; [exact H1 | exact H2].
Defined.

(** The broker answers, the device does not. *)
Lemma bridge_connect_installs_handler_witness :
  result (Mqtt.connect st_broker_up) = true
  /\ mqtt_callback (final (Hybrid.connect no_repr cfg0 st_broker_up)) = true
  /\ hyb_connected (final (Hybrid.connect no_repr cfg0 st_broker_up)) = true
  /\ hyb_callback (final (Hybrid.connect no_repr cfg0 st_broker_up)) = None.
Proof.
  split; [reflexivity|].
  apply (@bridge_connect_installs_handler no_repr cfg0 st_broker_up). reflexivity.
Defined.

(** Disconnecting the running Bridge and sending "hi" afterwards. *)
Lemma bridge_disconnect_keeps_interface_witness :
  Tcp.interface_alive st_bridge = true
  /\ hyb_connected (final (Hybrid.disconnect false false st_bridge)) = false
  /\ events (Hybrid.disconnect false false st_bridge) = [EvClose]
  /\ Tcp.interface_alive (final (Hybrid.disconnect false false st_bridge)) = true
  /\ forallb is_transmit
       (events (Hybrid.send_message (py "hi") PNone
                  (final (Hybrid.disconnect false false st_bridge)))) = true.
Proof.
  split; [reflexivity|].
  apply (@bridge_disconnect_keeps_interface false false st_bridge (py "hi") PNone).
  reflexivity.
Defined.

(** ** The wildcard subscription *)

Lemma split_slash_cons (s : pystr) : exists p ps, split_slash s = p :: ps.
Proof.
  induction s as [|c s IH]; cbn [split_slash]; [eauto|].
  destruct (N.eqb c slash); [eauto|].
  destruct IH as (p & ps & ->). eauto.
Qed.

Lemma join_split_slash (s : pystr) : Mqtt.join_slash (split_slash s) = s.
Proof.
  induction s as [|c s IH]; [reflexivity|]. cbn [split_slash].
  destruct (split_slash_cons s) as (p & ps & E). rewrite E in IH |- *.
  destruct (N.eqb_spec c slash) as [->|Hc].
  - cbn [Mqtt.join_slash app]. cbn [Mqtt.join_slash] in IH. now rewrite IH.
  - destruct ps as [|q ps]; cbn [Mqtt.join_slash app] in IH |- *; now rewrite IH.
Qed.

Lemma split_slash_app (t l : pystr) :
  split_slash (t ++ slash :: l) = split_slash t ++ split_slash l.
Proof.
  induction t as [|c t IH]; [reflexivity|]. cbn [app split_slash].
  rewrite IH. destruct (N.eqb c slash); [reflexivity|].
  destruct (split_slash_cons t) as (p & ps & ->). reflexivity.
Qed.

Lemma split_slash_no_slash (l : pystr) : no_slash l = true -> split_slash l = [l].
Proof.
  unfold no_slash. induction l as [|c l IH]; [reflexivity|]. cbn [forallb split_slash].
  intros H. apply andb_prop in H. destruct H as [Hc Hl].
  apply negb_true_iff in Hc. rewrite Hc, (IH Hl). reflexivity.
Qed.

Lemma channel_base_app (t l : pystr) :
  no_slash l = true -> Mqtt.channel_base (t ++ slash :: l) = t.
Proof.
  intros H. unfold Mqtt.channel_base.
  rewrite split_slash_app, (@split_slash_no_slash l H), removelast_last.
  apply join_split_slash.
Qed.

(** X27: what [_on_connect] subscribes to.  The wildcard topic is
    the channel topic with its last component replaced by '#': for a
    channel topic [t/last] with no '/' in [last] the subscriptions are
    the two literal patterns, the channel topic, and [t/#].  So a
    channel topic ending in '/' gets its own subtopics, and one
    without a trailing '/' gets every sibling of the channel. *)
Theorem wildcard_subscription (cfg : config) (t last_part : pystr) :
  use_llm_channel cfg = true ->
  llm_channel cfg = Some (t ++ slash :: last_part) ->
  no_slash last_part = true ->
  Mqtt.subscriptions cfg
  = [py "msh/+/rx"; py "msh/+/nodeinfo"; t ++ slash :: last_part; t ++ py "/#"].
Proof.
  intros Huse Hch Hl. unfold Mqtt.subscriptions. rewrite Hch, Huse.
  pose proof (@channel_base_app t last_part Hl) as Hb.
  destruct (t ++ slash :: last_part) as [|c r] eqn:E.
  - destruct t; discriminate.
  - rewrite Hb. reflexivity.
Qed.

(** The topics of config.py: "msh/US/2/json/llm/" gives
    "msh/US/2/json/llm/#". *)
Lemma wildcard_subscription_witness :
  use_llm_channel cfg0 = true
  /\ llm_channel cfg0 = Some (py "msh/US/2/json/llm" ++ slash :: [])
  /\ no_slash [] = true
  /\ Mqtt.subscriptions cfg0
     = [py "msh/+/rx"; py "msh/+/nodeinfo"; py "msh/US/2/json/llm/";
        py "msh/US/2/json/llm/#"].
Proof.
  split; [reflexivity|]. split; [reflexivity|]. split; [reflexivity|].
  apply (@wildcard_subscription cfg0 (py "msh/US/2/json/llm") []); reflexivity.
Defined.

(** * The Responder *)

Section AgentFacts.

Variable model : list Agent.turn -> Agent.generation.
Variable system_prompt : pystr.
Variable max_conversation_length : Z.

(** X28: what [process_message] answers.  It returns nothing exactly
    when the text is empty or [None], or is a string that is too short
    once stripped or looks like a system message, and then the
    conversations are untouched.  In every other case it returns a
    non-empty text, whatever the model does: the model's reply, or an
    apology when the model raises, returns nothing, or the text is not
    a string. *)
Theorem agent_reply (convs : Agent.conversations) (m : message) :
  match fst (Agent.process_message model system_prompt max_conversation_length convs m) with
  | None =>
      snd (Agent.process_message model system_prompt max_conversation_length convs m) = convs
      /\ (truthy (text m) = false
          \/ exists t, text m = PStr t
                       /\ Agent.too_short t || Agent.system_message t = true)
  | Some reply =>
      reply <> [] /\ truthy (text m) = true
      /\ forall t, text m = PStr t ->
                   Agent.too_short t = false /\ Agent.system_message t = false
  end.
Proof.
  unfold Agent.process_message.
  destruct (truthy (text m)) eqn:Ht; cbn [negb fst snd]; [|auto].
  destruct (text m) as [| | | |t| |] eqn:Etext;
    try (cbn [fst]; repeat split; first [discriminate | reflexivity]).
  destruct (Agent.too_short t) eqn:Hshort.
  { cbn [fst snd]. split; [reflexivity|]. right. exists t.
    split; [reflexivity | now rewrite Hshort]. }
  destruct (Agent.system_message t) eqn:Hsys.
  { cbn [fst snd]. split; [reflexivity|]. right. exists t.
    split; [reflexivity | now rewrite Hshort, Hsys]. }
  destruct (Agent.generate_response model system_prompt max_conversation_length convs t
              (from_id m)) as [[[|c r]|] convs'];
    cbn [fst]; repeat split; try discriminate;
    match goal with E' : PStr _ = PStr _ |- _ => injection E' as <- end; assumption.
Qed.

Lemma no_system_skipn (n : nat) (h : list Agent.turn) :
  forallb (fun t => match Agent.turn_role t with Agent.System => false | _ => true end) h
  = true ->
  forallb (fun t => match Agent.turn_role t with Agent.System => false | _ => true end)
          (skipn n h) = true.
Proof.
  revert h. induction n as [|n IH]; intros h H; [exact H|].
  destruct h as [|t h]; [reflexivity|]. cbn [skipn]. apply IH.
  cbn [forallb] in H. apply andb_prop in H. tauto.
Qed.

(** The truncation on a history without a system entry. *)
Lemma truncate_no_system (h : list Agent.turn) :
  (1 <= max_conversation_length)%Z ->
  forallb (fun t => match Agent.turn_role t with Agent.System => false | _ => true end) h
  = true ->
  forallb (fun t => match Agent.turn_role t with Agent.System => false | _ => true end)
          (Agent.truncate max_conversation_length h) = true
  /\ (Z.of_nat (List.length (Agent.truncate max_conversation_length h))
      <= max_conversation_length)%Z.
Proof.
  intros Hmax Hns. unfold Agent.truncate.
  destruct (Z.ltb_spec max_conversation_length (Z.of_nat (List.length h))) as [Hlt|Hge];
    [|split; [exact Hns | lia]].
  assert (Htail : forallb (fun t => match Agent.turn_role t with
                                    | Agent.System => false | _ => true end)
                          (Agent.tail_from h (- max_conversation_length)) = true
                  /\ (Z.of_nat (List.length (Agent.tail_from h (- max_conversation_length)))
                      <= max_conversation_length)%Z).
  { unfold Agent.tail_from.
    destruct (Z.ltb_spec (- max_conversation_length) 0) as [_|Hc]; [|lia].
    split; [apply no_system_skipn; exact Hns|]. rewrite length_skipn. lia. }
  destruct h as [|[[| |] c] h]; try exact Htail.
  cbn [forallb Agent.turn_role] in Hns. discriminate.
Qed.

Lemma store_Forall (Q : list Agent.turn -> Prop) (convs : Agent.conversations)
    (user_id : pyval) (h : list Agent.turn) :
  Forall (fun kh => Q (snd kh)) convs -> Q h ->
  Forall (fun kh => Q (snd kh)) (Agent.store convs user_id h).
Proof.
  intros Hc Hh. induction convs as [|[k h'] convs IH]; cbn [Agent.store].
  - repeat constructor. exact Hh.
  - inversion Hc as [|? ? Hk Hrest]; subst.
    destruct (py_eq user_id k); constructor; auto.
Qed.

Lemma history_of_Forall (Q : list Agent.turn -> Prop) (convs : Agent.conversations)
    (user_id : pyval) (h : list Agent.turn) :
  Forall (fun kh => Q (snd kh)) convs -> Agent.history_of convs user_id = Some h -> Q h.
Proof.
  intros Hc. induction convs as [|[k h'] convs IH]; cbn [Agent.history_of]; [discriminate|].
  inversion Hc as [|? ? Hk Hrest]; subst.
  destruct (py_eq user_id k); [intros E; injection E as <-; exact Hk | auto].
Qed.

Lemma generate_response_kept (convs : Agent.conversations) (message : pystr)
    (user_id : pyval) :
  (1 <= max_conversation_length)%Z ->
  Forall (fun kh => well_kept max_conversation_length (snd kh) = true) convs ->
  Forall (fun kh => well_kept max_conversation_length (snd kh) = true)
         (snd (Agent.generate_response model system_prompt max_conversation_length
                 convs message user_id)).
Proof.
  intros Hmax Hinv. unfold Agent.generate_response.
  destruct message as [|c0 r0]; [exact Hinv|].
  destruct (Agent.too_short (c0 :: r0)); [exact Hinv|].
  destruct (Agent.system_message (c0 :: r0)); [exact Hinv|].
  set (uid := match user_id with PNone => PStr (py "default") | u => u end).
  destruct (hashable uid); cbn [negb]; [|exact Hinv].
  set (old := match Agent.history_of convs uid with Some h => h | None => [] end).
  assert (Hold : well_kept max_conversation_length old = true).
  { unfold old. destruct (Agent.history_of convs uid) as [h|] eqn:E.
    - exact (@history_of_Forall (fun h => well_kept max_conversation_length h = true)
               convs uid h Hinv E).
    - unfold well_kept. cbn. apply Z.leb_le. lia. }
  set (user_turn := {| Agent.turn_role := Agent.User; Agent.content := c0 :: r0 |}).
  destruct (@truncate_no_system (old ++ [user_turn]) Hmax) as [Hns Hlen].
  { unfold well_kept in Hold. apply andb_prop in Hold. destruct Hold as [Hns _].
    rewrite forallb_app, Hns. reflexivity. }
  set (history := Agent.truncate max_conversation_length (old ++ [user_turn])) in *.
  assert (Hkept : well_kept max_conversation_length history = true).
  { unfold well_kept. rewrite Hns. apply Z.leb_le. lia. }
  destruct (model (Agent.prepare system_prompt history)) as [[[|c r]|]|]; cbn [snd];
    apply (@store_Forall (fun h => well_kept max_conversation_length h = true));
    try exact Hinv; try exact Hkept.
  unfold well_kept. rewrite forallb_app, Hns, length_app. cbn [forallb Agent.turn_role andb].
  apply Z.leb_le. cbn [List.length]. lia.
Qed.

(** X29: the conversation store stays bounded.  With a limit of at
    least 1, if no stored history holds a system entry or more than
    [max_conversation_length + 1] entries, the same is true after
    [process_message], whoever wrote and whatever the model did: the
    user's history is cut to the limit before the model is asked, and
    grows by the answer at most. *)
Theorem conversations_stay_bounded (convs : Agent.conversations) (m : message) :
  (1 <= max_conversation_length)%Z ->
  Forall (fun kh => well_kept max_conversation_length (snd kh) = true) convs ->
  Forall (fun kh => well_kept max_conversation_length (snd kh) = true)
         (snd (Agent.process_message model system_prompt max_conversation_length convs m)).
Proof.
  intros Hmax Hinv. unfold Agent.process_message.
  destruct (negb (truthy (text m))); [exact Hinv|].
  destruct (text m) as [| | | |t| |]; try exact Hinv.
  destruct (Agent.too_short t); [exact Hinv|].
  destruct (Agent.system_message t); [exact Hinv|].
  pose proof (@generate_response_kept convs t (from_id m) Hmax Hinv) as H.
  destruct (Agent.generate_response model system_prompt max_conversation_length convs t
              (from_id m)) as [resp convs'].
  exact H.
Qed.

(** X30: the Bridge's startup banner is never answered.  A message
    whose text begins with the banner, as [send_startup_messages]
    builds it for any configuration, is taken for a system message by
    [process_message], which returns nothing and stores nothing; the
    Bridge then calls the Responder and sends nothing. *)
Theorem own_banner_not_answered (str_lower : pystr -> pystr) (cfg : config)
    (convs : Agent.conversations) (tail : pystr) (m : message) (s : state) :
  text m = PStr (Hybrid.startup_message cfg ++ tail) ->
  hyb_callback s
  = Some (fun m' => fst (Agent.process_message model system_prompt
                           max_conversation_length convs m')) ->
  Agent.process_message model system_prompt max_conversation_length convs m = (None, convs)
  /\ events (Hybrid._handle_mqtt_message str_lower cfg m s) = [EvRespond m].
Proof.
  intros Htext Hcb.
  assert (Hdecl : Agent.process_message model system_prompt max_conversation_length convs m
                  = (None, convs)).
  { unfold Agent.process_message. rewrite Htext.
    unfold Hybrid.startup_message, Hybrid.banner_lead.
    cbn [app truthy negb].
    destruct (Agent.too_short _); [reflexivity|].
    unfold Agent.system_message, Hybrid.banner_lead. cbn [startswith N.eqb Pos.eqb andb orb].
    reflexivity. }
  split; [exact Hdecl|].
  unfold Hybrid._handle_mqtt_message, bind, get. rewrite Hcb. cbv beta iota zeta.
  assert (Hs : sliceable (text m) = true) by (rewrite Htext; reflexivity).
  rewrite Hs. cbn [negb]. unfold emit, ret. cbv beta. rewrite Hdecl. reflexivity.
Qed.

End AgentFacts.

(** A first message to a model that answers "ok", with the limit of
    main.py. *)
Lemma conversations_stay_bounded_witness :
  let turn (r : Agent.role) (c : string) :=
    {| Agent.turn_role := r; Agent.content := py c |} in
  let convs := [(PStr (py "!other"), [turn Agent.User "yo"%string]);
                (PStr (py "!me"),
                 [turn Agent.User "a"%string; turn Agent.Assistant "b"%string; turn Agent.User "c"%string])] in
  let after := snd (Agent.process_message model_ok (py "You are helpful.") 2 convs msg_self) in
  ((1 <= 2)%Z
   /\ Forall (fun kh => well_kept 2 (snd kh) = true) convs)
  /\ after = [(PStr (py "!other"), [turn Agent.User "yo"%string]);
              (PStr (py "!me"),
               [turn Agent.User "c"%string; turn Agent.User "hi"%string; turn Agent.Assistant "ok"%string])]
  /\ Forall (fun kh => well_kept 2 (snd kh) = true) after.
Proof.
  cbv zeta.
  split; [split; [lia | repeat constructor]|].
  split; [reflexivity|].
  apply (@conversations_stay_bounded model_ok (py "You are helpful.") 2
           [(PStr (py "!other"), [{| Agent.turn_role := Agent.User; Agent.content := py "yo" |}]);
            (PStr (py "!me"),
             [{| Agent.turn_role := Agent.User; Agent.content := py "a" |};
              {| Agent.turn_role := Agent.Assistant; Agent.content := py "b" |};
              {| Agent.turn_role := Agent.User; Agent.content := py "c" |}])]
           msg_self); [lia | repeat constructor].
Defined.

(** The banner of [cfg0] coming back to the running Bridge. *)
Lemma own_banner_not_answered_witness :
  let responder := fun m' : message =>
    fst (Agent.process_message model_ok (py "You are helpful.") 10 [] m') in
  let s := final (Hybrid.set_message_callback responder st_bridge) in
  text msg_banner = PStr (Hybrid.startup_message cfg0 ++ [])
  /\ hyb_callback s = Some responder
  /\ Agent.process_message model_ok (py "You are helpful.") 10 [] msg_banner = (None, [])
  /\ events (Hybrid._handle_mqtt_message ascii_lower cfg0 msg_banner s) = [EvRespond msg_banner].
Proof.
  cbn zeta. split; [reflexivity|]. split; [reflexivity|].
  apply (@own_banner_not_answered model_ok (py "You are helpful.") 10 ascii_lower cfg0 []
           [] msg_banner
           (final (Hybrid.set_message_callback
                     (fun m' : message =>
                        fst (Agent.process_message model_ok (py "You are helpful.") 10 [] m'))
                     st_bridge)));
    reflexivity.
Defined.
